(** * Flutter_App analysis scripts: scoring and linting, verified

    A shallow embedding of [Flutter_App/industrial_ux_validator.py]
    (class [IndustrialUXValidator] and the breakdown loop of [main]) and of
    [Flutter_App/validate_dart.py] (class [DartValidator] and [main]).

    Modelling conventions.
    - A Python [str] is a [string]; its characters stand for code points
      below 256, and the character classes below are Python's for that
      range.  Python [int] is [Z], Python [float] is a primitive binary64
      [float].
    - A dict of the source is an association list in insertion order.
    - The directory walk is a supplied value: the list of entries that
      [Path.rglob] yields, each with the outcome of [open]/[read] on it.
    - [print] calls are not modelled. *)

From Stdlib Require Import ZArith List String Ascii Bool Lia Permutation.
From Stdlib Require Import QArith.
From Stdlib Require Import Floats.PrimFloat Numbers.Cyclic.Int63.Uint63.
Import ListNotations.
Close Scope Q_scope.
Open Scope string_scope.
Open Scope Z_scope.

(* ================================================================== *)
(** ** Python strings *)

Module PyStr.

Definition code (c : ascii) : nat := nat_of_ascii c.

Definition between (lo hi : nat) (c : ascii) : bool :=
  ((lo <=? code c) && (code c <=? hi))%nat.

Definition has_code (n : nat) (c : ascii) : bool := (code c =? n)%nat.

(** [str.isspace] and the class [\s]. *)
Definition isspace (c : ascii) : bool :=
  between 9 13 c || between 28 32 c || has_code 133 c || has_code 160 c.

Definition is_upper_az : ascii -> bool := between 65 90.
Definition is_lower_az : ascii -> bool := between 97 122.
Definition is_digit : ascii -> bool := between 48 57.

Definition is_hex (c : ascii) : bool :=
  is_digit c || between 65 70 c || between 97 102 c.

(** The class [\w] of a str pattern. *)
Definition is_word (c : ascii) : bool :=
  is_digit c || is_upper_az c || has_code 95 c || is_lower_az c
  || has_code 170 c || has_code 178 c || has_code 179 c || has_code 181 c || has_code 185 c || has_code 186 c
  || between 188 190 c || between 192 214 c || between 216 246 c
  || between 248 255 c.

Definition lower_char (c : ascii) : ascii :=
  if is_upper_az c || between 192 214 c || between 216 222 c
  then ascii_of_nat (code c + 32) else c.

(** [s.lower()] *)
Fixpoint lower (s : string) : string :=
  match s with
  | EmptyString => EmptyString
  | String c s' => String (lower_char c) (lower s')
  end.

Definition is_empty (s : string) : bool :=
  match s with EmptyString => true | _ => false end.

Fixpoint lstrip (s : string) : string :=
  match s with
  | EmptyString => EmptyString
  | String c s' => if isspace c then lstrip s' else s
  end.

Fixpoint rstrip (s : string) : string :=
  match s with
  | EmptyString => EmptyString
  | String c s' =>
      let r := rstrip s' in
      if is_empty r && isspace c then EmptyString else String c r
  end.

(** [s.strip()] *)
Definition strip (s : string) : string := rstrip (lstrip s).

(** [s.startswith(p)] *)
Definition startswith (s p : string) : bool := String.prefix p s.

(** [s.endswith(p)] *)
Fixpoint endswith (s p : string) : bool :=
  if String.eqb s p then true
  else match s with
       | EmptyString => false
       | String _ s' => endswith s' p
       end.

(** [sub in s] *)
Fixpoint contains (s sub : string) : bool :=
  if String.prefix sub s then true
  else match s with
       | EmptyString => false
       | String _ s' => contains s' sub
       end.

(** [s.count(c)] for a one-character argument. *)
Fixpoint count (s : string) (c : ascii) : Z :=
  match s with
  | EmptyString => 0
  | String d s' => (if Ascii.eqb d c then 1 else 0) + count s' c
  end.

(** [s.split(sep)] for a one-character separator. *)
Fixpoint split (s : string) (sep : ascii) : list string :=
  match s with
  | EmptyString => [EmptyString]
  | String c s' =>
      let r := split s' sep in
      if Ascii.eqb c sep then EmptyString :: r
      else match r with
           | h :: t => String c h :: t
           | [] => [String c EmptyString]
           end
  end.

(** [s[:n]] *)
Fixpoint take (n : nat) (s : string) : string :=
  match n, s with
  | S n', String c s' => String c (take n' s')
  | _, _ => EmptyString
  end.

(** [sep.join(l)] *)
Fixpoint join (sep : string) (l : list string) : string :=
  match l with
  | [] => EmptyString
  | [x] => x
  | x :: rest => x ++ sep ++ join sep rest
  end.

Definition newline : ascii := ascii_of_nat 10.

(** [len(s)] *)
Definition len (s : string) : Z := Z.of_nat (String.length s).

End PyStr.

(* ================================================================== *)
(** ** Regular expressions used as tests

    [re.search] and [re.match] are used by the source for their truth value
    only, so a pattern is embedded by its syntax tree and decided by
    derivatives. *)

Module Regex.

Inductive re : Type :=
| Void
| Eps
| Cls (p : ascii -> bool)
| Cat (a b : re)
| Alt (a b : re)
| Star (a : re).

Fixpoint nullable (r : re) : bool :=
  match r with
  | Void => false
  | Eps => true
  | Cls _ => false
  | Cat a b => nullable a && nullable b
  | Alt a b => nullable a || nullable b
  | Star _ => true
  end.

Definition cat (a b : re) : re :=
  match a, b with
  | Void, _ => Void
  | _, Void => Void
  | Eps, _ => b
  | _, Eps => a
  | _, _ => Cat a b
  end.

Definition alt (a b : re) : re :=
  match a, b with
  | Void, _ => b
  | _, Void => a
  | _, _ => Alt a b
  end.

Fixpoint deriv (c : ascii) (r : re) : re :=
  match r with
  | Void => Void
  | Eps => Void
  | Cls p => if p c then Eps else Void
  | Cat a b =>
      alt (cat (deriv c a) b) (if nullable a then deriv c b else Void)
  | Alt a b => alt (deriv c a) (deriv c b)
  | Star a => cat (deriv c a) (Star a)
  end.

(** [re.fullmatch(r, s) is not None] *)
Fixpoint fullmatch (r : re) (s : string) : bool :=
  match s with
  | EmptyString => nullable r
  | String c s' => fullmatch (deriv c r) s'
  end.

Definition chr (c : ascii) : re := Cls (Ascii.eqb c).
Definition any : re := Cls (fun _ => true).
Definition plus (a : re) : re := Cat a (Star a).
Definition opt (a : re) : re := Alt Eps a.

Fixpoint lit (s : string) : re :=
  match s with
  | EmptyString => Eps
  | String c s' => Cat (chr c) (lit s')
  end.

(** A pattern's final [$]: the end of the string, or just before a final
    newline. *)
Definition dollar : re := opt (chr PyStr.newline).

(** [re.search(r + "$", s)] where [body] embeds [r]. *)
Definition search_dollar (body : re) (s : string) : bool :=
  fullmatch (Cat (Star any) (Cat body dollar)) s.

(** [re.match(r, s)] *)
Definition match_ (r : re) (s : string) : bool :=
  fullmatch (Cat r (Star any)) s.

(** The words of a pattern. *)
Inductive lang : re -> string -> Prop :=
| lang_eps : lang Eps EmptyString
| lang_cls (p : ascii -> bool) (c : ascii) :
    p c = true -> lang (Cls p) (String c EmptyString)
| lang_cat (a b : re) (s t : string) :
    lang a s -> lang b t -> lang (Cat a b) (s ++ t)
| lang_alt_l (a b : re) (s : string) : lang a s -> lang (Alt a b) s
| lang_alt_r (a b : re) (s : string) : lang b s -> lang (Alt a b) s
| lang_star_nil (a : re) : lang (Star a) EmptyString
| lang_star_cons (a : re) (s t : string) :
    lang a s -> lang (Star a) t -> lang (Star a) (s ++ t).

End Regex.

(* ================================================================== *)
(** ** Paths and the directory walk *)

Module PyPath.

(** [fnmatch] on one path component, for patterns whose only
    metacharacter is the star (all patterns of the source). *)
Fixpoint fnmatch (pat : string) : string -> bool :=
  match pat with
  | EmptyString => fun s => PyStr.is_empty s
  | String p pat' =>
      if Ascii.eqb p "*"%char
      then fix star (s : string) : bool :=
             fnmatch pat' s
             || match s with
                | EmptyString => false
                | String _ s' => star s'
                end
      else fun s =>
             match s with
             | EmptyString => false
             | String c s' => Ascii.eqb c p && fnmatch pat' s'
             end
  end.

(** [Path.name]: the last component. *)
Definition name (path : string) : string :=
  last (PyStr.split path "/"%char) EmptyString.

(** [Path.stem]: the name without its last suffix. *)
Definition stem (path : string) : string :=
  let n := name path in
  match rev (PyStr.split n "."%char) with
  | suffix :: (_ :: _) as before =>
      let s := PyStr.join "." (rev before) in
      if PyStr.is_empty suffix || PyStr.is_empty s then n else s
  | _ => n
  end.

(** What [open(path).read()] does: the text, or the exception's text. *)
Inductive ReadResult : Type :=
| ReadOk (content : string)
| ReadFails (err : string).

Record Entry : Type := mkEntry {
  path : string;       (* [str(file_path)] *)
  read : ReadResult
}.

(** [list(root.rglob(pat))] over the entries below the root, in the
    order of the walk. *)
Definition rglob (entries : list Entry) (pat : string) : list Entry :=
  filter (fun e => fnmatch pat (name (path e))) entries.

Definition readable (e : Entry) : bool :=
  match read e with ReadOk _ => true | ReadFails _ => false end.

End PyPath.

(* ================================================================== *)
(** ** Dicts of check outcomes *)

Module Dict.

(** A dict from check names to booleans, in insertion order. *)
Definition t : Type := list (string * bool).

(** [d[k] = v] *)
Fixpoint set (d : t) (k : string) (v : bool) : t :=
  match d with
  | [] => [(k, v)]
  | (k', v') :: rest =>
      if String.eqb k' k then (k', v) :: rest else (k', v') :: set rest k v
  end.

(** [d[k]]; [None] stands for [KeyError]. *)
Fixpoint get (d : t) (k : string) : option bool :=
  match d with
  | [] => None
  | (k', v') :: rest => if String.eqb k' k then Some v' else get rest k
  end.

Definition keys (d : t) : list string := map fst d.
Definition values (d : t) : list bool := map snd d.

Definition int_of_bool (b : bool) : Z := if b then 1 else 0.

(** [sum(d.values())] *)
Definition sum_values (d : t) : Z :=
  fold_left (fun acc b => acc + int_of_bool b) (values d) 0.

(** [len(d)] *)
Definition len (d : t) : Z := Z.of_nat (List.length d).

End Dict.

Notation "x <- e ;; k" :=
  (match e with Some x => k | None => None end)
  (at level 61, e at next level, right associativity).

(** [int / int] and the conversion of an [int] to a [float]. *)
Definition float_of_int (z : Z) : float :=
  if z <? 0 then PrimFloat.opp (PrimFloat.of_uint63 (Uint63.of_Z (- z)))
  else PrimFloat.of_uint63 (Uint63.of_Z z).

(** [a >= b] on floats. *)
Definition float_ge (a b : float) : bool := PrimFloat.leb b a.

(* ================================================================== *)
(** ** industrial_ux_validator.py *)

Module UX.
Import PyPath.

(** The project tree as the validator sees it: what [rglob] walks, and
    [project_root / "pubspec.yaml"] ([None] when it does not exist). *)
Record Tree : Type := mkTree {
  entries : list Entry;
  pubspec : option ReadResult
}.

Record IndustrialUXValidator : Type := mkValidator {
  project_root : string;
  self_ux_score : Z;
  max_score : Z;
  self_validations : list string
}.

(** [__init__] *)
Definition init (root : string) : IndustrialUXValidator :=
  {| project_root := root; self_ux_score := 0; max_score := 100;
     self_validations := [] |}.

Record Summary : Type := mkSummary {
  final_score : Z;
  summary_max_score : Z;
  percentage : float;
  grade : string;
  status : string;
  recommendations : list string
}.

Record Results : Type := mkResults {
  ux_score : Z;
  validations : list string;
  material_design : Dict.t;
  accessibility : Dict.t;
  performance : Dict.t;
  animations : Dict.t;
  theming : Dict.t;
  responsive_design : Dict.t;
  user_flows : Dict.t;
  summary : option Summary
}.

Definition add_ux_score (r : Results) (score : Z) : Results :=
  let '(mkResults u v md acc perf anim th resp flows sm) := r in
  mkResults (u + score) v md acc perf anim th resp flows sm.

Definition set_material_design (r : Results) (d : Dict.t) : Results :=
  let '(mkResults u v _ acc perf anim th resp flows sm) := r in
  mkResults u v d acc perf anim th resp flows sm.

Definition set_accessibility (r : Results) (d : Dict.t) : Results :=
  let '(mkResults u v md _ perf anim th resp flows sm) := r in
  mkResults u v md d perf anim th resp flows sm.

Definition set_performance (r : Results) (d : Dict.t) : Results :=
  let '(mkResults u v md acc _ anim th resp flows sm) := r in
  mkResults u v md acc d anim th resp flows sm.

Definition set_animations (r : Results) (d : Dict.t) : Results :=
  let '(mkResults u v md acc perf _ th resp flows sm) := r in
  mkResults u v md acc perf d th resp flows sm.

Definition set_theming (r : Results) (d : Dict.t) : Results :=
  let '(mkResults u v md acc perf anim _ resp flows sm) := r in
  mkResults u v md acc perf anim d resp flows sm.

Definition set_responsive_design (r : Results) (d : Dict.t) : Results :=
  let '(mkResults u v md acc perf anim th _ flows sm) := r in
  mkResults u v md acc perf anim th d flows sm.

Definition set_user_flows (r : Results) (d : Dict.t) : Results :=
  let '(mkResults u v md acc perf anim th resp _ sm) := r in
  mkResults u v md acc perf anim th resp d sm.

Definition set_summary (r : Results) (s : Summary) : Results :=
  let '(mkResults u v md acc perf anim th resp flows _) := r in
  mkResults u v md acc perf anim th resp flows (Some s).

(** The [results] dict that [validate_complete_ux] starts from. *)
Definition initial_results : Results :=
  mkResults 0 [] [] [] [] [] [] [] [] None.

(** [if files:] on a list. *)
Definition nonempty {A : Type} (l : list A) : bool :=
  match l with [] => false | _ :: _ => true end.

Definition set_if (c : bool) (d : Dict.t) (k : string) : Dict.t :=
  if c then Dict.set d k true else d.

(** *** [_validate_material_design] *)

(** The loop over [dart_files] that looks for elevation or shadows; it
    leaves at the first hit. *)
Fixpoint elevation_loop (dart_files : list Entry) : bool :=
  match dart_files with
  | [] => false
  | e :: rest =>
      match read e with
      | ReadOk content =>
          if PyStr.contains content "elevation:"
             || PyStr.contains content "boxShadow"
          then true
          else elevation_loop rest
      | ReadFails _ => elevation_loop rest
      end
  end.

Definition material_checks (fs : Tree) : Dict.t :=
  let checks := [("theme_implementation", false);
                 ("component_usage", false);
                 ("color_system", false);
                 ("typography", false);
                 ("elevation_shadows", false)] in
  let theme_files := rglob (entries fs) "*theme*.dart" in
  let checks := set_if (nonempty theme_files) checks "theme_implementation" in
  let color_files := rglob (entries fs) "*color*.dart" in
  let checks := set_if (nonempty color_files) checks "color_system" in
  let typography_files := rglob (entries fs) "*typography*.dart" in
  let checks := set_if (nonempty typography_files) checks "typography" in
  let component_files := rglob (entries fs) "premium_*.dart" in
  let checks :=
    set_if (Z.of_nat (List.length component_files) >=? 3) checks
      "component_usage" in
  let dart_files := rglob (entries fs) "*.dart" in
  let elevation_found := elevation_loop dart_files in
  Dict.set checks "elevation_shadows" elevation_found.

Definition _validate_material_design
    (self : IndustrialUXValidator) (fs : Tree) (results : Results)
    : Results :=
  let checks := material_checks fs in
  let results := set_material_design results checks in
  let score := Dict.sum_values checks * 4 in
  add_ux_score results score.

(** *** [_validate_accessibility] *)

Definition accessibility_file (checks : Dict.t) (e : Entry) : Dict.t :=
  match read e with
  | ReadFails _ => checks
  | ReadOk content =>
      let checks :=
        set_if (PyStr.contains content "semanticsLabel"
                || PyStr.contains content "Semantics(")
          checks "semantic_labels" in
      let checks :=
        set_if (PyStr.contains content "FocusNode"
                || PyStr.contains content "focus:")
          checks "focus_management" in
      let checks :=
        set_if (PyStr.contains content "textScaleFactor"
                || PyStr.contains content "MediaQuery")
          checks "text_scaling" in
      set_if (PyStr.contains content "ExcludeSemantics"
              || PyStr.contains content "MergeSemantics")
        checks "screen_reader_support"
  end.

(** The loop over [theme_files]; it leaves at the first dark theme. *)
Fixpoint color_contrast_loop (theme_files : list Entry) (checks : Dict.t)
    : Dict.t :=
  match theme_files with
  | [] => checks
  | e :: rest =>
      match read e with
      | ReadOk content =>
          if PyStr.contains content "ThemeData.dark"
             || PyStr.contains content "brightness: Brightness.dark"
          then Dict.set checks "color_contrast" true
          else color_contrast_loop rest checks
      | ReadFails _ => color_contrast_loop rest checks
      end
  end.

Definition accessibility_checks (fs : Tree) : Dict.t :=
  let checks := [("semantic_labels", false);
                 ("focus_management", false);
                 ("color_contrast", false);
                 ("text_scaling", false);
                 ("screen_reader_support", false)] in
  let dart_files := rglob (entries fs) "*.dart" in
  let checks := fold_left accessibility_file dart_files checks in
  let theme_files := rglob (entries fs) "*theme*.dart" in
  color_contrast_loop theme_files checks.

Definition _validate_accessibility
    (self : IndustrialUXValidator) (fs : Tree) (results : Results)
    : Results :=
  let checks := accessibility_checks fs in
  let results := set_accessibility results checks in
  let score := Dict.sum_values checks * 3 in
  add_ux_score results score.

(** *** [_validate_performance_ux] *)

Definition performance_file (checks : Dict.t) (e : Entry) : Dict.t :=
  match read e with
  | ReadFails _ => checks
  | ReadOk content =>
      let checks :=
        set_if (PyStr.contains content "FutureBuilder"
                || PyStr.contains content "StreamBuilder")
          checks "lazy_loading" in
      let checks :=
        set_if (PyStr.contains content "dispose()"
                && PyStr.contains content "initState()")
          checks "memory_optimization" in
      set_if (PyStr.contains content "AnimationController"
              || PyStr.contains content "Tween")
        checks "smooth_animations"
  end.

Definition performance_checks (fs : Tree) : Dict.t :=
  let checks := [("image_caching", false);
                 ("lazy_loading", false);
                 ("performance_monitoring", false);
                 ("memory_optimization", false);
                 ("smooth_animations", false)] in
  let cache_files := rglob (entries fs) "*cache*.dart" in
  let checks := set_if (nonempty cache_files) checks "image_caching" in
  let perf_files := rglob (entries fs) "*performance*.dart" in
  let checks :=
    set_if (nonempty perf_files) checks "performance_monitoring" in
  let dart_files := rglob (entries fs) "*.dart" in
  fold_left performance_file dart_files checks.

Definition _validate_performance_ux
    (self : IndustrialUXValidator) (fs : Tree) (results : Results)
    : Results :=
  let checks := performance_checks fs in
  let results := set_performance results checks in
  let score := Dict.sum_values checks * 3 in
  add_ux_score results score.

(** *** [_validate_animations] *)

Definition animations_file (checks : Dict.t) (e : Entry) : Dict.t :=
  match read e with
  | ReadFails _ => checks
  | ReadOk content =>
      let checks :=
        set_if (PyStr.contains content "onTap"
                && (PyStr.contains content "Animation"
                    || PyStr.contains content "scale"))
          checks "micro_interactions" in
      let checks :=
        set_if (PyStr.contains content "PageRouteBuilder"
                || PyStr.contains content "SlideTransition")
          checks "page_transitions" in
      let checks :=
        set_if (PyStr.contains content "CircularProgressIndicator"
                || PyStr.contains content "LinearProgressIndicator")
          checks "loading_animations" in
      let checks :=
        set_if (PyStr.contains content "GestureDetector"
                && PyStr.contains content "Animation")
          checks "gesture_animations" in
      set_if (PyStr.contains content "Hero(") checks "hero_animations"
  end.

Definition animation_checks (fs : Tree) : Dict.t :=
  let checks := [("micro_interactions", false);
                 ("page_transitions", false);
                 ("loading_animations", false);
                 ("gesture_animations", false);
                 ("hero_animations", false)] in
  let dart_files := rglob (entries fs) "*.dart" in
  fold_left animations_file dart_files checks.

Definition _validate_animations
    (self : IndustrialUXValidator) (fs : Tree) (results : Results)
    : Results :=
  let checks := animation_checks fs in
  let results := set_animations results checks in
  let score := Dict.sum_values checks * 2 in
  add_ux_score results score.

(** *** [_validate_theming] *)

(** Does [Color\(0x[0-9A-Fa-f]{8}\)] match at the start of [s]? *)
Definition color_literal_at (s : string) : bool :=
  match s with
  | String "C" (String "o" (String "l" (String "o" (String "r"
    (String "(" (String "0" (String "x"
    (String h1 (String h2 (String h3 (String h4
    (String h5 (String h6 (String h7 (String h8
    (String ")" _)))))))))))))))) =>
      PyStr.is_hex h1 && PyStr.is_hex h2 && PyStr.is_hex h3
      && PyStr.is_hex h4 && PyStr.is_hex h5 && PyStr.is_hex h6
      && PyStr.is_hex h7 && PyStr.is_hex h8
  | _ => false
  end.

(** [len(re.findall(r'Color\(0x[0-9A-Fa-f]{8}\)', s))]: the matches are
    found from left to right and do not overlap; a match is 17
    characters long, and [skip] counts those of the last match still to
    pass. *)
Fixpoint count_color_literals (skip : nat) (s : string) : Z :=
  match s with
  | EmptyString => 0
  | String _ s' =>
      match skip with
      | S k => count_color_literals k s'
      | O =>
          if color_literal_at s then 1 + count_color_literals 16 s'
          else count_color_literals 0 s'
      end
  end.

Definition theming_file (checks : Dict.t) (e : Entry) : Dict.t :=
  match read e with
  | ReadFails _ => checks
  | ReadOk content =>
      let checks :=
        set_if (PyStr.contains content "ThemeData.dark"
                || PyStr.contains content "brightness:")
          checks "dark_light_theme" in
      let checks :=
        set_if (PyStr.contains content "Theme.of(context)")
          checks "consistent_colors" in
      let checks :=
        set_if (PyStr.contains content "ThemeMode"
                || PyStr.contains content "theme:")
          checks "theme_switching" in
      set_if (PyStr.contains content "Color(0x"
              && (count_color_literals 0 content >=? 3))
        checks "brand_consistency"
  end.

Definition theming_checks (fs : Tree) : Dict.t :=
  let checks := [("dark_light_theme", false);
                 ("consistent_colors", false);
                 ("custom_fonts", false);
                 ("theme_switching", false);
                 ("brand_consistency", false)] in
  let checks :=
    match pubspec fs with
    | Some (ReadOk content) =>
        set_if (PyStr.contains content "fonts:") checks "custom_fonts"
    | Some (ReadFails _) => checks
    | None => checks
    end in
  let dart_files := rglob (entries fs) "*.dart" in
  fold_left theming_file dart_files checks.

Definition _validate_theming
    (self : IndustrialUXValidator) (fs : Tree) (results : Results)
    : Results :=
  let checks := theming_checks fs in
  let results := set_theming results checks in
  let score := Dict.sum_values checks * 3 in
  add_ux_score results score.

(** *** [_validate_responsive_design] *)

Definition responsive_file (checks : Dict.t) (e : Entry) : Dict.t :=
  match read e with
  | ReadFails _ => checks
  | ReadOk content =>
      let checks :=
        set_if (PyStr.contains content "MediaQuery.of(context).size")
          checks "screen_size_adaptation" in
      let checks :=
        set_if (PyStr.contains content "Orientation."
                || PyStr.contains content "orientation:")
          checks "orientation_handling" in
      let checks :=
        set_if (PyStr.contains content "SafeArea(")
          checks "safe_area_usage" in
      let checks :=
        set_if (PyStr.contains content "Flexible("
                || PyStr.contains content "Expanded("
                || PyStr.contains content "Wrap(")
          checks "flexible_layouts" in
      set_if (PyStr.contains content "LayoutBuilder"
              || PyStr.contains content "constraints")
        checks "breakpoint_handling"
  end.

Definition responsive_checks (fs : Tree) : Dict.t :=
  let checks := [("screen_size_adaptation", false);
                 ("orientation_handling", false);
                 ("safe_area_usage", false);
                 ("flexible_layouts", false);
                 ("breakpoint_handling", false)] in
  let dart_files := rglob (entries fs) "*.dart" in
  fold_left responsive_file dart_files checks.

Definition _validate_responsive_design
    (self : IndustrialUXValidator) (fs : Tree) (results : Results)
    : Results :=
  let checks := responsive_checks fs in
  let results := set_responsive_design results checks in
  let score := Dict.sum_values checks * 2 in
  add_ux_score results score.

(** *** [_validate_user_flows] *)

Definition flow_file (checks : Dict.t) (e : Entry) : Dict.t :=
  match read e with
  | ReadFails _ => checks
  | ReadOk content =>
      let checks :=
        set_if (PyStr.contains (PyStr.lower content) "onboard"
                || PyStr.contains (PyStr.lower content) "intro")
          checks "onboarding_flow" in
      let checks :=
        set_if (PyStr.contains content "try {"
                && PyStr.contains content "catch")
          checks "error_handling_flow" in
      let checks :=
        set_if (PyStr.contains content "Navigator."
                || PyStr.contains content "GoRouter")
          checks "navigation_flow" in
      set_if (PyStr.contains content "SnackBar"
              || PyStr.contains content "showDialog"
              || PyStr.contains content "ScaffoldMessenger")
        checks "feedback_flow"
  end.

Definition flow_checks (fs : Tree) : Dict.t :=
  let checks := [("onboarding_flow", false);
                 ("authentication_flow", false);
                 ("error_handling_flow", false);
                 ("navigation_flow", false);
                 ("feedback_flow", false)] in
  let auth_files := rglob (entries fs) "*auth*.dart" in
  let checks := set_if (nonempty auth_files) checks "authentication_flow" in
  let dart_files := rglob (entries fs) "*.dart" in
  fold_left flow_file dart_files checks.

Definition _validate_user_flows
    (self : IndustrialUXValidator) (fs : Tree) (results : Results)
    : Results :=
  let checks := flow_checks fs in
  let results := set_user_flows results checks in
  let score := Dict.sum_values checks * 3 in
  add_ux_score results score.

(** *** [_generate_recommendations] *)

Definition append_unless (b : bool) (recs : list string) (msg : string)
    : list string :=
  if negb b then recs ++ [msg] else recs.

Definition _generate_recommendations (results : Results)
    : option (list string) :=
  let recommendations := [] in
  let md := material_design results in
  b <- Dict.get md "theme_implementation" ;;
  let recommendations :=
    append_unless b recommendations
      "Implement comprehensive Material Design 3 theme" in
  b <- Dict.get md "component_usage" ;;
  let recommendations :=
    append_unless b recommendations
      "Create more premium UI components" in
  let acc := accessibility results in
  b <- Dict.get acc "semantic_labels" ;;
  let recommendations :=
    append_unless b recommendations
      "Add semantic labels for screen readers" in
  b <- Dict.get acc "focus_management" ;;
  let recommendations :=
    append_unless b recommendations
      "Implement proper focus management" in
  let perf := performance results in
  b <- Dict.get perf "image_caching" ;;
  let recommendations :=
    append_unless b recommendations
      "Implement advanced image caching system" in
  b <- Dict.get perf "lazy_loading" ;;
  let recommendations :=
    append_unless b recommendations
      "Add lazy loading for better performance" in
  Some (firstn 5 recommendations).

(** *** [_calculate_ux_score] *)

(** [(final_score / max_score) * 100]; [None] stands for
    [ZeroDivisionError]. *)
Definition percentage_of (final_score max_score : Z) : option float :=
  if max_score =? 0 then None
  else Some (PrimFloat.mul
               (PrimFloat.div (float_of_int final_score)
                  (float_of_int max_score))
               (float_of_int 100)).

Definition grade_and_status (percentage : float) : string * string :=
  if float_ge percentage (float_of_int 90)
  then ("A+ (Industrial Grade)", "🏆 EXCELLENT")
  else if float_ge percentage (float_of_int 80)
  then ("A (Professional Grade)", "✅ VERY GOOD")
  else if float_ge percentage (float_of_int 70)
  then ("B+ (Good Standard)", "👍 GOOD")
  else if float_ge percentage (float_of_int 60)
  then ("B (Acceptable)", "⚠️ NEEDS IMPROVEMENT")
  else ("C (Below Standard)", "❌ REQUIRES MAJOR WORK").

Definition _calculate_ux_score
    (self : IndustrialUXValidator) (results : Results) : option Results :=
  let final_score := Z.min (ux_score results) (max_score self) in
  percentage <- percentage_of final_score (max_score self) ;;
  let '(grade, status) := grade_and_status percentage in
  recs <- _generate_recommendations results ;;
  Some (set_summary results
          {| final_score := final_score;
             summary_max_score := max_score self;
             percentage := percentage;
             grade := grade;
             status := status;
             recommendations := recs |}).

(** *** [validate_complete_ux] *)

Definition validate_complete_ux
    (self : IndustrialUXValidator) (fs : Tree) : option Results :=
  let results := initial_results in
  let results := _validate_material_design self fs results in
  let results := _validate_accessibility self fs results in
  let results := _validate_performance_ux self fs results in
  let results := _validate_animations self fs results in
  let results := _validate_theming self fs results in
  let results := _validate_responsive_design self fs results in
  let results := _validate_user_flows self fs results in
  _calculate_ux_score self results.

(** *** The breakdown of [main] *)

(** The [categories] list of [main]. *)
Definition categories (results : Results) : list (string * Dict.t * Z) :=
  [("Material Design 3", material_design results, 20);
   ("Accessibility", accessibility results, 15);
   ("Performance UX", performance results, 15);
   ("Animations", animations results, 10);
   ("Theming System", theming results, 15);
   ("Responsive Design", responsive_design results, 10);
   ("User Flows", user_flows results, 15)].

(** [sum(checks.values()) * (max_points // len(checks))]; [None] stands
    for [ZeroDivisionError]. *)
Definition breakdown_score (checks : Dict.t) (max_points : Z) : option Z :=
  if Dict.len checks =? 0 then None
  else Some (Dict.sum_values checks * (max_points / Dict.len checks)).

(** What [main] returns: [summary['percentage'] >= 90]. *)
Definition main_success (results : Results) : option bool :=
  s <- summary results ;;
  Some (float_ge (percentage s) (float_of_int 90)).

End UX.

(* ================================================================== *)
(** ** validate_dart.py *)

Module Dart.
Import PyPath.

(** An entry of [syntax_errors], [import_errors] or [structure_issues]:
    a dict with the keys ['file'], ['error'] and sometimes ['line']. *)
Record Issue : Type := mkIssue {
  file : string;
  line : option Z;
  error : string
}.

(** An entry of [warnings]. *)
Record Warning : Type := mkWarning {
  warning_file : string;
  warning : string
}.

Record Summary : Type := mkSummary {
  total_files : Z;
  total_issues : Z;
  total_warnings : Z;
  summary_syntax_errors : Z;
  summary_import_errors : Z;
  summary_structure_issues : Z;
  status : string
}.

Record Results : Type := mkResults {
  files_checked : Z;
  syntax_errors : list Issue;
  import_errors : list Issue;
  structure_issues : list Issue;
  warnings : list Warning;
  summary : option Summary
}.

Record DartValidator : Type := mkValidator {
  project_root : string;
  errors : list Issue;
  self_warnings : list Warning;
  self_files_checked : Z
}.

(** [__init__] *)
Definition init (root : string) : DartValidator :=
  {| project_root := root; errors := []; self_warnings := [];
     self_files_checked := 0 |}.

Definition add_syntax_errors (r : Results) (l : list Issue) : Results :=
  let '(mkResults n syn imp str w sm) := r in
  mkResults n (syn ++ l) imp str w sm.

Definition add_import_errors (r : Results) (l : list Issue) : Results :=
  let '(mkResults n syn imp str w sm) := r in
  mkResults n syn (imp ++ l) str w sm.

Definition add_structure_issues (r : Results) (l : list Issue) : Results :=
  let '(mkResults n syn imp str w sm) := r in
  mkResults n syn imp (str ++ l) w sm.

Definition add_warnings (r : Results) (l : list Warning) : Results :=
  let '(mkResults n syn imp str w sm) := r in
  mkResults n syn imp str (w ++ l) sm.

Definition incr_files_checked (r : Results) : Results :=
  let '(mkResults n syn imp str w sm) := r in
  mkResults (n + 1) syn imp str w sm.

Definition set_summary (r : Results) (s : Summary) : Results :=
  let '(mkResults n syn imp str w _) := r in
  mkResults n syn imp str w (Some s).

(** *** [_check_syntax] *)

(** The brace test of one stripped line. *)
Definition brace_issues (file_path : string) (i : Z) (line : string)
    : list Issue :=
  if negb (PyStr.count line "{" =? PyStr.count line "}")
  then
    let open_braces := PyStr.count line "{" - PyStr.count line "}" in
    if Z.abs open_braces >? 1
    then [mkIssue file_path (Some i)
            ("Potential brace mismatch: " ++ PyStr.take 50 line ++ "...")]
    else []
  else [].

(** [\w+\s*=\s*[^;{]+] (the pattern's [$] is in [Regex.search_dollar]). *)
Definition assignment_re : Regex.re :=
  Regex.Cat (Regex.plus (Regex.Cls PyStr.is_word))
    (Regex.Cat (Regex.Star (Regex.Cls PyStr.isspace))
       (Regex.Cat (Regex.chr "=")
          (Regex.Cat (Regex.Star (Regex.Cls PyStr.isspace))
             (Regex.plus
                (Regex.Cls (fun c => negb (Ascii.eqb c ";"
                                           || Ascii.eqb c "{"))))))).

Definition control_tokens : list string :=
  ["if"; "for"; "while"; "switch"; "try"; "=>"].

(** The semicolon test of one stripped line. *)
Definition semicolon_issues (file_path : string) (i : Z) (line : string)
    : list Issue :=
  if (PyStr.endswith line "}" || PyStr.endswith line ";")
     && PyStr.contains line "="
     && negb (PyStr.startswith line "//")
  then []
  else if Regex.search_dollar assignment_re line
          && negb (PyStr.endswith line ",")
          && negb (existsb (fun x => PyStr.contains line x) control_tokens)
  then [mkIssue file_path (Some i)
          ("Missing semicolon: " ++ PyStr.take 50 line ++ "...")]
  else [].

(** One turn of the loop over [enumerate(lines, 1)]: the entries it
    appends to [results['syntax_errors']]. *)
Definition syntax_line (file_path : string) (i : Z) (raw : string)
    : list Issue :=
  let line := PyStr.strip raw in
  if PyStr.is_empty line || PyStr.startswith line "//" then []
  else brace_issues file_path i line ++ semicolon_issues file_path i line.

Fixpoint syntax_loop (file_path : string) (i : Z) (lines : list string)
    (results : Results) : Results :=
  match lines with
  | [] => results
  | raw :: rest =>
      syntax_loop file_path (i + 1) rest
        (add_syntax_errors results (syntax_line file_path i raw))
  end.

Definition _check_syntax (file_path content : string) (results : Results)
    : Results :=
  let lines := PyStr.split content PyStr.newline in
  syntax_loop file_path 1 lines results.

(** *** [_check_imports] *)

Definition is_quote (c : ascii) : bool :=
  Ascii.eqb c "'" || Ascii.eqb c (ascii_of_nat 34).

(** [import\s+['\"][\w/:.]+['\"];?] *)
Definition import_re : Regex.re :=
  Regex.Cat (Regex.lit "import")
    (Regex.Cat (Regex.plus (Regex.Cls PyStr.isspace))
       (Regex.Cat (Regex.Cls is_quote)
          (Regex.Cat
             (Regex.plus
                (Regex.Cls (fun c => PyStr.is_word c || Ascii.eqb c "/"
                                     || Ascii.eqb c ":"
                                     || Ascii.eqb c ".")))
             (Regex.Cat (Regex.Cls is_quote)
                (Regex.opt (Regex.chr ";")))))).

Definition import_line (file_path : string) (i : Z) (raw : string)
    : list Issue :=
  let line := PyStr.strip raw in
  if PyStr.startswith line "import "
  then
    (if negb (Regex.match_ import_re line)
     then [mkIssue file_path (Some i) ("Invalid import format: " ++ line)]
     else [])
    ++
    (if negb (PyStr.endswith line ";")
     then [mkIssue file_path (Some i)
             ("Missing semicolon in import: " ++ line)]
     else [])
  else [].

Fixpoint import_loop (file_path : string) (i : Z) (lines : list string)
    (results : Results) : Results :=
  match lines with
  | [] => results
  | raw :: rest =>
      import_loop file_path (i + 1) rest
        (add_import_errors results (import_line file_path i raw))
  end.

Definition _check_imports (file_path content : string) (results : Results)
    : Results :=
  let lines := PyStr.split content PyStr.newline in
  import_loop file_path 1 lines results.

(** *** [_camel_to_snake] *)

Inductive sub_mode : Type :=
| Scan     (* looking for the next match *)
| Upper    (* at the [A-Z] of a match *)
| Run.     (* inside the [a-z]+ of a match *)

(** [re.sub('(.)([A-Z][a-z]+)', r'\1_\2', s)]: matches are taken from
    left to right, each as long as its [a-z]+ goes. *)
Fixpoint sub_camel (m : sub_mode) (s : string) : string :=
  match s with
  | EmptyString => EmptyString
  | String c s' =>
      match m with
      | Upper => String c (sub_camel Run s')
      | _ =>
          if (match m with Run => true | _ => false end)
             && PyStr.is_lower_az c
          then String c (sub_camel Run s')
          else
            match s' with
            | String u (String l _) =>
                if negb (Ascii.eqb c PyStr.newline)
                   && PyStr.is_upper_az u && PyStr.is_lower_az l
                then String c (String "_" (sub_camel Upper s'))
                else String c (sub_camel Scan s')
            | _ => String c (sub_camel Scan s')
            end
      end
  end.

Definition _camel_to_snake (name : string) : string :=
  PyStr.lower (sub_camel Scan name).

(** *** [_check_structure] *)

(** The longest prefix of [s] in the class [p], and what follows it. *)
Fixpoint span (p : ascii -> bool) (s : string) : string * string :=
  match s with
  | EmptyString => (EmptyString, EmptyString)
  | String c s' =>
      if p c then let '(a, b) := span p s' in (String c a, b)
      else (EmptyString, s)
  end.

Fixpoint drop (n : nat) (s : string) : string :=
  match n, s with
  | S n', String _ s' => drop n' s'
  | _, _ => s
  end.

(** A match of [class\s+(\w+)] at the start of [s]: the group and the
    length of the match. *)
Definition class_match_at (s : string) : option (string * nat) :=
  if String.prefix "class" s
  then
    let '(ws, r) := span PyStr.isspace (drop 5 s) in
    if PyStr.is_empty ws then None
    else
      let '(name, _) := span PyStr.is_word r in
      if PyStr.is_empty name then None
      else Some (name, (5 + String.length ws + String.length name)%nat)
  else None.

(** [re.findall(r'class\s+(\w+)', s)]; [skip] counts the characters of
    the last match still to pass. *)
Fixpoint findall_class (skip : nat) (s : string) : list string :=
  match s with
  | EmptyString => []
  | String _ s' =>
      match skip with
      | S k => findall_class k s'
      | O =>
          match class_match_at s with
          | Some (name, n) => name :: findall_class (n - 1) s'
          | None => findall_class 0 s'
          end
      end
  end.

(** The naming convention: what goes to [results['warnings']]. *)
Definition naming_warnings (file_path content : string) : list Warning :=
  let class_matches := findall_class 0 content in
  let file_name := stem file_path in
  match class_matches with
  | [class_name] =>
      let expected_filename := _camel_to_snake class_name in
      if negb (String.eqb file_name expected_filename)
         && negb (PyStr.endswith file_name "_test")
      then [mkWarning file_path
              ("File name '" ++ file_name ++ "' doesn't match class '"
               ++ class_name ++ "' (expected: " ++ expected_filename
               ++ ")")]
      else []
  | _ => []
  end.

(** The widget test: what goes to [results['structure_issues']]. *)
Definition widget_issues (file_path content : string) : list Issue :=
  if PyStr.contains content "extends StatelessWidget"
     || PyStr.contains content "extends StatefulWidget"
  then
    if negb (PyStr.contains content "Widget build(BuildContext context)")
    then [mkIssue file_path None "Widget missing build method"]
    else []
  else [].

Definition _check_structure (file_path content : string)
    (results : Results) : Results :=
  let results := add_warnings results (naming_warnings file_path content) in
  add_structure_issues results (widget_issues file_path content).

(** *** [_validate_dart_file] *)

Definition _validate_dart_file (self : DartValidator) (e : Entry)
    (results : Results) : Results :=
  match read e with
  | ReadOk content =>
      let results := _check_syntax (path e) content results in
      let results := _check_imports (path e) content results in
      _check_structure (path e) content results
  | ReadFails err =>
      add_syntax_errors results
        [mkIssue (path e) None ("Failed to read file: " ++ err)]
  end.

(** *** [_generate_summary] *)

Definition len {A : Type} (l : list A) : Z := Z.of_nat (List.length l).

Definition _generate_summary (self : DartValidator) (results : Results)
    : Results :=
  let total_issues :=
    len (syntax_errors results) + len (import_errors results)
    + len (structure_issues results) in
  set_summary results
    {| total_files := files_checked results;
       total_issues := total_issues;
       total_warnings := len (warnings results);
       summary_syntax_errors := len (syntax_errors results);
       summary_import_errors := len (import_errors results);
       summary_structure_issues := len (structure_issues results);
       status := if total_issues =? 0 then "PASS" else "ISSUES_FOUND" |}.

(** *** [validate_project] *)

Definition initial_results : Results := mkResults 0 [] [] [] [] None.

Fixpoint files_loop (self : DartValidator) (dart_files : list Entry)
    (results : Results) : Results :=
  match dart_files with
  | [] => results
  | dart_file :: rest =>
      files_loop self rest
        (incr_files_checked (_validate_dart_file self dart_file results))
  end.

Definition validate_project (self : DartValidator) (entries : list Entry)
    : Results :=
  let dart_files := rglob entries "*.dart" in
  let results := initial_results in
  let results := files_loop self dart_files results in
  _generate_summary self results.

(** *** [main]

    [argv] is [sys.argv]; [walk p] is [None] when [os.path.exists(p)]
    is false, else the entries below [p].  The value is the exit
    code. *)
Definition main (argv : list string)
    (walk : string -> option (list Entry)) : Z :=
  match argv with
  | [_; project_path] =>
      match walk project_path with
      | None => 1
      | Some entries =>
          let validator := init project_path in
          let results := validate_project validator entries in
          match summary results with
          | Some s => if total_issues s =? 0 then 0 else 1
          | None => 1
          end
      end
  | _ => 1
  end.

End Dart.

(* ================================================================== *)
(** ** Vocabulary of the statements *)

Module Catalog.
Import PyPath UX.

(** The seven categories, in the order in which [validate_complete_ux]
    scores them and [main] lists them. *)
Inductive Category : Type :=
| MaterialDesign | Accessibility | Performance | Animations
| Theming | ResponsiveDesign | UserFlows.

Definition all : list Category :=
  [MaterialDesign; Accessibility; Performance; Animations;
   Theming; ResponsiveDesign; UserFlows].

(** The [_validate_*] method of a category. *)
Definition validate (c : Category)
    : IndustrialUXValidator -> Tree -> Results -> Results :=
  match c with
  | MaterialDesign => _validate_material_design
  | Accessibility => _validate_accessibility
  | Performance => _validate_performance_ux
  | Animations => _validate_animations
  | Theming => _validate_theming
  | ResponsiveDesign => _validate_responsive_design
  | UserFlows => _validate_user_flows
  end.

(** The key of [results] that holds a category's checks. *)
Definition checks_of (c : Category) (r : Results) : Dict.t :=
  match c with
  | MaterialDesign => material_design r
  | Accessibility => accessibility r
  | Performance => performance r
  | Animations => animations r
  | Theming => theming r
  | ResponsiveDesign => responsive_design r
  | UserFlows => user_flows r
  end.

(** A category's row of [categories] in [main]: label and maximum. *)
Definition label (c : Category) : string :=
  match c with
  | MaterialDesign => "Material Design 3"
  | Accessibility => "Accessibility"
  | Performance => "Performance UX"
  | Animations => "Animations"
  | Theming => "Theming System"
  | ResponsiveDesign => "Responsive Design"
  | UserFlows => "User Flows"
  end.

Definition max_points (c : Category) : Z :=
  match c with
  | MaterialDesign => 20
  | Accessibility => 15
  | Performance => 15
  | Animations => 10
  | Theming => 15
  | ResponsiveDesign => 10
  | UserFlows => 15
  end.

(** The points a category's method adds to [results['ux_score']]. *)
Definition points (c : Category) (self : IndustrialUXValidator)
    (fs : Tree) (r : Results) : Z :=
  ux_score (validate c self fs r) - ux_score r.

(** The number of checks of a dict that hold. *)
Definition satisfied_count (d : Dict.t) : Z :=
  Z.of_nat (List.length (filter (fun b : bool => b) (Dict.values d))).

Definition all_hold (d : Dict.t) : Prop :=
  forall k b, In (k, b) d -> b = true.

(** [some readable file of the list has a content that passes p] *)
Definition any_content (p : string -> bool) (files : list Entry) : bool :=
  existsb (fun e => match read e with
                    | ReadOk content => p content
                    | ReadFails _ => false
                    end) files.

(** A content rule: the key it sets and its test on one content. *)
Definition Rule : Type := (string * (string -> bool))%type.

Definition apply_rules (rules : list Rule) (checks : Dict.t) (e : Entry)
    : Dict.t :=
  match read e with
  | ReadFails _ => checks
  | ReadOk content =>
      fold_left (fun d (r : Rule) => set_if (snd r content) d (fst r))
        rules checks
  end.

Definition hit (rules : list Rule) (files : list Entry) (k : string)
    : bool :=
  existsb (fun r : Rule => String.eqb (fst r) k
                           && any_content (snd r) files) rules.

(** [d] with the value at each key [k] turned true where [f k]. *)
Definition lift (d : Dict.t) (f : string -> bool) : Dict.t :=
  map (fun kb : string * bool => (fst kb, snd kb || f (fst kb))) d.

Definition accessibility_rules : list Rule :=
  [("semantic_labels",
    fun c => PyStr.contains c "semanticsLabel"
             || PyStr.contains c "Semantics(");
   ("focus_management",
    fun c => PyStr.contains c "FocusNode" || PyStr.contains c "focus:");
   ("text_scaling",
    fun c => PyStr.contains c "textScaleFactor"
             || PyStr.contains c "MediaQuery");
   ("screen_reader_support",
    fun c => PyStr.contains c "ExcludeSemantics"
             || PyStr.contains c "MergeSemantics")].

Definition performance_rules : list Rule :=
  [("lazy_loading",
    fun c => PyStr.contains c "FutureBuilder"
             || PyStr.contains c "StreamBuilder");
   ("memory_optimization",
    fun c => PyStr.contains c "dispose()"
             && PyStr.contains c "initState()");
   ("smooth_animations",
    fun c => PyStr.contains c "AnimationController"
             || PyStr.contains c "Tween")].

Definition animation_rules : list Rule :=
  [("micro_interactions",
    fun c => PyStr.contains c "onTap"
             && (PyStr.contains c "Animation"
                 || PyStr.contains c "scale"));
   ("page_transitions",
    fun c => PyStr.contains c "PageRouteBuilder"
             || PyStr.contains c "SlideTransition");
   ("loading_animations",
    fun c => PyStr.contains c "CircularProgressIndicator"
             || PyStr.contains c "LinearProgressIndicator");
   ("gesture_animations",
    fun c => PyStr.contains c "GestureDetector"
             && PyStr.contains c "Animation");
   ("hero_animations", fun c => PyStr.contains c "Hero(")].

Definition theming_rules : list Rule :=
  [("dark_light_theme",
    fun c => PyStr.contains c "ThemeData.dark"
             || PyStr.contains c "brightness:");
   ("consistent_colors", fun c => PyStr.contains c "Theme.of(context)");
   ("theme_switching",
    fun c => PyStr.contains c "ThemeMode" || PyStr.contains c "theme:");
   ("brand_consistency",
    fun c => PyStr.contains c "Color(0x"
             && (count_color_literals 0 c >=? 3))].

Definition responsive_rules : list Rule :=
  [("screen_size_adaptation",
    fun c => PyStr.contains c "MediaQuery.of(context).size");
   ("orientation_handling",
    fun c => PyStr.contains c "Orientation."
             || PyStr.contains c "orientation:");
   ("safe_area_usage", fun c => PyStr.contains c "SafeArea(");
   ("flexible_layouts",
    fun c => PyStr.contains c "Flexible(" || PyStr.contains c "Expanded("
             || PyStr.contains c "Wrap(");
   ("breakpoint_handling",
    fun c => PyStr.contains c "LayoutBuilder"
             || PyStr.contains c "constraints")].

Definition flow_rules : list Rule :=
  [("onboarding_flow",
    fun c => PyStr.contains (PyStr.lower c) "onboard"
             || PyStr.contains (PyStr.lower c) "intro");
   ("error_handling_flow",
    fun c => PyStr.contains c "try {" && PyStr.contains c "catch");
   ("navigation_flow",
    fun c => PyStr.contains c "Navigator." || PyStr.contains c "GoRouter");
   ("feedback_flow",
    fun c => PyStr.contains c "SnackBar" || PyStr.contains c "showDialog"
             || PyStr.contains c "ScaffoldMessenger")].

(** The checks of a category as a function of the tree. *)
Definition checks_on (c : Category) (fs : Tree) : Dict.t :=
  match c with
  | MaterialDesign => material_checks fs
  | Accessibility => accessibility_checks fs
  | Performance => performance_checks fs
  | Animations => animation_checks fs
  | Theming => theming_checks fs
  | ResponsiveDesign => responsive_checks fs
  | UserFlows => flow_checks fs
  end.

(** The patterns of the checks that look at file names only. *)
Definition name_patterns : list string :=
  ["*theme*.dart"; "*color*.dart"; "*typography*.dart"; "premium_*.dart";
   "*cache*.dart"; "*performance*.dart"; "*auth*.dart"].

Definition matches_no_name_pattern (e : Entry) : bool :=
  forallb (fun pat => negb (fnmatch pat (name (path e)))) name_patterns.

(** The checks decided by file names alone. *)
Definition name_based (c : Category) (k : string) : bool :=
  match c with
  | MaterialDesign =>
      existsb (String.eqb k)
        ["theme_implementation"; "component_usage"; "color_system";
         "typography"]
  | Performance =>
      existsb (String.eqb k) ["image_caching"; "performance_monitoring"]
  | UserFlows => String.eqb k "authentication_flow"
  | _ => false
  end.

(** The names of a category's checks, in the order of its dict. *)
Definition check_names (c : Category) : list string :=
  match c with
  | MaterialDesign =>
      ["theme_implementation"; "component_usage"; "color_system";
       "typography"; "elevation_shadows"]
  | Accessibility =>
      ["semantic_labels"; "focus_management"; "color_contrast";
       "text_scaling"; "screen_reader_support"]
  | Performance =>
      ["image_caching"; "lazy_loading"; "performance_monitoring";
       "memory_optimization"; "smooth_animations"]
  | Animations =>
      ["micro_interactions"; "page_transitions"; "loading_animations";
       "gesture_animations"; "hero_animations"]
  | Theming =>
      ["dark_light_theme"; "consistent_colors"; "custom_fonts";
       "theme_switching"; "brand_consistency"]
  | ResponsiveDesign =>
      ["screen_size_adaptation"; "orientation_handling"; "safe_area_usage";
       "flexible_layouts"; "breakpoint_handling"]
  | UserFlows =>
      ["onboarding_flow"; "authentication_flow"; "error_handling_flow";
       "navigation_flow"; "feedback_flow"]
  end.

(** The outcome of the check [k] of category [c] on a tree, as a rule over
    the whole tree. *)
Definition outcome (c : Category) (fs : Tree) (k : string) : bool :=
  let dart_files := rglob (entries fs) "*.dart" in
  match c with
  | MaterialDesign =>
      if String.eqb k "theme_implementation"
      then nonempty (rglob (entries fs) "*theme*.dart")
      else if String.eqb k "component_usage"
      then Z.of_nat (List.length (rglob (entries fs) "premium_*.dart")) >=? 3
      else if String.eqb k "color_system"
      then nonempty (rglob (entries fs) "*color*.dart")
      else if String.eqb k "typography"
      then nonempty (rglob (entries fs) "*typography*.dart")
      else if String.eqb k "elevation_shadows"
      then any_content (fun c => PyStr.contains c "elevation:"
                                 || PyStr.contains c "boxShadow") dart_files
      else false
  | Accessibility =>
      if String.eqb k "color_contrast"
      then any_content
             (fun c => PyStr.contains c "ThemeData.dark"
                       || PyStr.contains c "brightness: Brightness.dark")
             (rglob (entries fs) "*theme*.dart")
      else hit accessibility_rules dart_files k
  | Performance =>
      if String.eqb k "image_caching"
      then nonempty (rglob (entries fs) "*cache*.dart")
      else if String.eqb k "performance_monitoring"
      then nonempty (rglob (entries fs) "*performance*.dart")
      else hit performance_rules dart_files k
  | Animations => hit animation_rules dart_files k
  | Theming =>
      if String.eqb k "custom_fonts"
      then match pubspec fs with
           | Some (ReadOk content) => PyStr.contains content "fonts:"
           | _ => false
           end
      else hit theming_rules dart_files k
  | ResponsiveDesign => hit responsive_rules dart_files k
  | UserFlows =>
      if String.eqb k "authentication_flow"
      then nonempty (rglob (entries fs) "*auth*.dart")
      else hit flow_rules dart_files k
  end.

(** The seven [_validate_*] calls of [validate_complete_ux]. *)
Definition run_validators (self : IndustrialUXValidator) (fs : Tree)
    : Results :=
  fold_left (fun r c => validate c self fs r) all initial_results.

(** The sum of the points of all categories on a tree. *)
Definition total_points (self : IndustrialUXValidator) (fs : Tree) : Z :=
  fold_right Z.add 0
    (map (fun c => points c self fs initial_results) all).

(** The threshold table of the grades, highest threshold first, and the
    grade below all thresholds. *)
Definition grade_table : list (Z * (string * string)) :=
  [(90, ("A+ (Industrial Grade)", "🏆 EXCELLENT"));
   (80, ("A (Professional Grade)", "✅ VERY GOOD"));
   (70, ("B+ (Good Standard)", "👍 GOOD"));
   (60, ("B (Acceptable)", "⚠️ NEEDS IMPROVEMENT"))].

Definition lowest_grade : string * string :=
  ("C (Below Standard)", "❌ REQUIRES MAJOR WORK").

(** [final / max * 100 >= threshold], in exact arithmetic, for [max > 0]. *)
Definition meets (final max threshold : Z) : bool :=
  threshold * max <=? 100 * final.

(** The first row of the table whose threshold the score meets. *)
Fixpoint table_lookup (table : list (Z * (string * string)))
    (final max : Z) : string * string :=
  match table with
  | [] => lowest_grade
  | (threshold, g) :: rest =>
      if meets final max threshold then g else table_lookup rest final max
  end.

Definition pair_eqb (a b : string * string) : bool :=
  String.eqb (fst a) (fst b) && String.eqb (snd a) (snd b).

(** The float computation of the source agrees with the table at [final]. *)
Definition grade_agrees (final : Z) : bool :=
  match percentage_of final 100 with
  | Some p => pair_eqb (grade_and_status p) (table_lookup grade_table final 100)
  | None => false
  end.

(** The checks that have a remediation string, in the order in which
    [_generate_recommendations] visits them. *)
Definition remediation_catalog : list (Category * string * string) :=
  [(MaterialDesign, "theme_implementation",
    "Implement comprehensive Material Design 3 theme");
   (MaterialDesign, "component_usage",
    "Create more premium UI components");
   (Accessibility, "semantic_labels",
    "Add semantic labels for screen readers");
   (Accessibility, "focus_management",
    "Implement proper focus management");
   (Performance, "image_caching",
    "Implement advanced image caching system");
   (Performance, "lazy_loading",
    "Add lazy loading for better performance")].

Definition unsatisfied (r : Results) (row : Category * string * string)
    : bool :=
  match Dict.get (checks_of (fst (fst row)) r) (snd (fst row)) with
  | Some false => true
  | _ => false
  end.

(** One string per selected unsatisfied check, in catalog order, cut to
    five. *)
Definition expected_recommendations (r : Results) : list string :=
  firstn 5 (map snd (filter (unsatisfied r) remediation_catalog)).

(** Two walks show the content rules the same readable contents. *)
Definition same_contents (e1 e2 : list Entry) : Prop :=
  forall pat p,
    any_content p (rglob e1 pat) = any_content p (rglob e2 pat).

(** Two walks show the name rules as many matching files. *)
Definition same_names (e1 e2 : list Entry) : Prop :=
  forall pat, In pat name_patterns ->
    List.length (rglob e1 pat) = List.length (rglob e2 pat).

End Catalog.

(* ================================================================== *)
(** ** Vocabulary of the linter statements *)

Module Lint.
Import PyPath Dart.

(** What a loop over [enumerate(lines, i)] appends, for a test [f] of one
    line. *)
Fixpoint line_issues (f : string -> Z -> string -> list Issue)
    (file_path : string) (i : Z) (lines : list string) : list Issue :=
  match lines with
  | [] => []
  | raw :: rest =>
      f file_path i raw ++ line_issues f file_path (i + 1) rest
  end.

(** What one file adds to each list of the results. *)
Definition read_failure (e : Entry) (err : string) : Issue :=
  mkIssue (path e) None ("Failed to read file: " ++ err).

Definition file_syntax (e : Entry) : list Issue :=
  match read e with
  | ReadOk content =>
      line_issues syntax_line (path e) 1 (PyStr.split content PyStr.newline)
  | ReadFails err => [read_failure e err]
  end.

Definition file_imports (e : Entry) : list Issue :=
  match read e with
  | ReadOk content =>
      line_issues import_line (path e) 1 (PyStr.split content PyStr.newline)
  | ReadFails _ => []
  end.

Definition file_structure (e : Entry) : list Issue :=
  match read e with
  | ReadOk content => widget_issues (path e) content
  | ReadFails _ => []
  end.

Definition file_warnings (e : Entry) : list Warning :=
  match read e with
  | ReadOk content => naming_warnings (path e) content
  | ReadFails _ => []
  end.

(** Is the issue attributed to line [i]? *)
Definition at_line (i : Z) (x : Issue) : bool :=
  match line x with
  | Some j => j =? i
  | None => false
  end.

(** The combined count of the summary. *)
Definition issue_count (r : Results) : Z :=
  len (syntax_errors r) + len (import_errors r) + len (structure_issues r).

(** The statement-termination issue of the line [x = compute()]. *)
Definition missing_semicolon (file_path : string) (i : Z) : Issue :=
  mkIssue file_path (Some i) "Missing semicolon: x = compute()...".

(** Is the issue attributed to the file [p] and to line [i]? *)
Definition attributed (p : string) (i : Z) (x : Issue) : bool :=
  String.eqb (file x) p && at_line i x.

End Lint.

(* ================================================================== *)
(** ** Sample trees *)

Module Samples.
Import PyPath.

Definition empty_tree : UX.Tree := UX.mkTree [] None.

(** One file whose content passes every content rule, and one file for
    every name rule. *)
Definition rich_content : string :=
  "ThemeData.dark() elevation: semanticsLabel FocusNode ExcludeSemantics "
  ++ "MediaQuery.of(context).size FutureBuilder dispose() initState() "
  ++ "AnimationController onTap PageRouteBuilder CircularProgressIndicator "
  ++ "GestureDetector Hero( Theme.of(context) ThemeMode "
  ++ "Color(0xFF000001) Color(0xFF000002) Color(0xFF000003) "
  ++ "Orientation. SafeArea( Expanded( LayoutBuilder onboard "
  ++ "try { catch Navigator. SnackBar".

Definition full_tree : UX.Tree :=
  UX.mkTree
    [mkEntry "lib/app_theme.dart" (ReadOk rich_content);
     mkEntry "lib/app_colors.dart" (ReadOk "");
     mkEntry "lib/typography.dart" (ReadOk "");
     mkEntry "lib/premium_button.dart" (ReadOk "");
     mkEntry "lib/premium_card.dart" (ReadOk "");
     mkEntry "lib/premium_input.dart" (ReadOk "");
     mkEntry "lib/image_cache.dart" (ReadOk "");
     mkEntry "lib/performance_monitor.dart" (ReadOk "");
     mkEntry "lib/auth_service.dart" (ReadOk "")]
    (Some (ReadOk "flutter: fonts:")).

(** A tree whose only file has a hero animation. *)
Definition hero_tree : UX.Tree :=
  UX.mkTree [mkEntry "lib/detail.dart" (ReadOk "Hero(tag: 1)")] None.

(** A file named after another class than the one it declares. *)
Definition misnamed_project : list Entry :=
  [mkEntry "lib/home.dart" (ReadOk "class HomePage {}");
   mkEntry "lib/cart.dart" (ReadOk "class CartScreen {}")].

(** A file whose second line is an assignment with no semicolon. *)
Definition compute_content : string :=
  "void main() {" ++ String PyStr.newline
    ("  x = compute()" ++ String PyStr.newline "}").

(** A file that cannot be read, named like a theme. *)
Definition locked_theme : Entry :=
  mkEntry "lib/app_theme.dart"
    (ReadFails "[Errno 13] Permission denied: 'lib/app_theme.dart'").

(** A file that cannot be read, matching no name rule. *)
Definition locked_file : Entry :=
  mkEntry "lib/secret.dart"
    (ReadFails "[Errno 13] Permission denied: 'lib/secret.dart'").

Definition widget_file : Entry :=
  mkEntry "lib/detail.dart" (ReadOk "Hero(tag: 1)").

Definition compute_project : list Entry :=
  [mkEntry "lib/main.dart" (ReadOk compute_content)].

(** The same two files in the two possible orders of the walk. *)
Definition walk_a : list Entry := [widget_file; locked_file].
Definition walk_b : list Entry := [locked_file; widget_file].

End Samples.

(* ================================================================== *)
(** ** The script of the UX validator *)

Module UXMain.
Import PyPath UX.

(** The literals [0.8] and [0.6]: the nearest binary64 values. *)
Definition f0_8 : float := 0x1.999999999999ap-1%float.
Definition f0_6 : float := 0x1.3333333333333p-1%float.

(** The mark in front of a category's line. *)
Definition breakdown_status (score max_points : Z) : string :=
  if float_ge (float_of_int score)
       (PrimFloat.mul (float_of_int max_points) f0_8)
  then "✅"
  else if float_ge (float_of_int score)
            (PrimFloat.mul (float_of_int max_points) f0_6)
  then "⚠️"
  else "❌".

(** [[key for key, value in checks.items() if not value]] *)
Definition failed_checks (checks : Dict.t) : list string :=
  map fst (filter (fun kv : string * bool => negb (snd kv)) checks).

(** What the loop over [categories] prints for one category: the line
    [status name: score/max_points], and the line of missing checks when
    there are one or two. *)
Record BreakdownRow : Type := mkRow {
  row_status : string;
  row_name : string;
  row_score : Z;
  row_max : Z;
  row_missing : option string
}.

Definition breakdown_row (cat : string * Dict.t * Z) : option BreakdownRow :=
  let '(name, checks, max_points) := cat in
  score <- breakdown_score checks max_points ;;
  let status := breakdown_status score max_points in
  let failed := failed_checks checks in
  Some (mkRow status name score max_points
          (if nonempty failed && (Z.of_nat (List.length failed) <=? 2)
           then Some ("    Missing: " ++ PyStr.join ", " failed)
           else None)).

Fixpoint breakdown_loop (cats : list (string * Dict.t * Z))
    : option (list BreakdownRow) :=
  match cats with
  | [] => Some []
  | cat :: rest =>
      row <- breakdown_row cat ;;
      rows <- breakdown_loop rest ;;
      Some (row :: rows)
  end.

(** The last message of [main]. *)
Definition closing_message (percentage : float) : string :=
  if float_ge percentage (float_of_int 90)
  then "🎉 CONGRATULATIONS! This app meets INDUSTRIAL-GRADE UX standards!"
  else if float_ge percentage (float_of_int 80)
  then "👍 Great work! This app has PROFESSIONAL-GRADE UX quality."
  else "⚠️ UX improvements needed to meet industrial standards.".

Record MainOutput : Type := mkOutput {
  out_summary : Summary;
  out_breakdown : list BreakdownRow;
  out_recommendations : list string;
  out_message : string;
  out_success : bool
}.

(** [main], on the tree below the working directory; [None] stands for
    an exception. *)
Definition main (fs : Tree) : option MainOutput :=
  let validator := init "." in
  results <- validate_complete_ux validator fs ;;
  summary <- UX.summary results ;;
  rows <- breakdown_loop (categories results) ;;
  Some {| out_summary := summary;
          out_breakdown := rows;
          out_recommendations := recommendations summary;
          out_message := closing_message (percentage summary);
          out_success := float_ge (percentage summary) (float_of_int 90) |}.

(** The exit code of the script: [exit(0 if success else 1)], and 1 when
    [main] raises. *)
Definition script (fs : Tree) : Z :=
  match main fs with
  | Some out => if out_success out then 0 else 1
  | None => 1
  end.

End UXMain.


Module MainSpec.
Import PyPath UX Catalog UXMain.

(** The mark of a category by the number of its checks that fail. *)
Definition status_by_failed (n : Z) : string :=
  if n <=? 1 then "✅" else if n =? 2 then "⚠️" else "❌".

(** The row of a category by its failed checks. *)
Definition expected_row (fs : Tree) (c : Category) : BreakdownRow :=
  let failed := failed_checks (checks_on c fs) in
  let n := Z.of_nat (List.length failed) in
  mkRow (status_by_failed n) (label c)
    ((5 - n) * (max_points c / 5)) (max_points c)
    (if (1 <=? n) && (n <=? 2)
     then Some ("    Missing: " ++ PyStr.join ", " failed)
     else None).

(** The float tests of [main] agree with the exact ones at [final]. *)
Definition closing_agrees (final : Z) : bool :=
  match percentage_of final 100 with
  | Some p =>
      Bool.eqb (float_ge p (float_of_int 90)) (90 <=? final)
      && String.eqb (closing_message p)
           (if 90 <=? final
            then "🎉 CONGRATULATIONS! This app meets INDUSTRIAL-GRADE UX standards!"
            else if 80 <=? final
            then "👍 Great work! This app has PROFESSIONAL-GRADE UX quality."
            else "⚠️ UX improvements needed to meet industrial standards.")
  | None => false
  end.

(** The float tests of the mark agree with the count of failed checks for
    [sat] satisfied checks out of five. *)
Definition status_agrees (c : Category) (sat : Z) : bool :=
  String.eqb (breakdown_status (sat * (max_points c / 5)) (max_points c))
    (status_by_failed (5 - sat)).

End MainSpec.

(* ================================================================== *)
(** ** Vocabulary of the statements about the walked tree *)

Module TreeSpec.
Import PyPath UX Catalog.

(** The patterns that the UX validator passes to [rglob]. *)
Definition used_patterns : list string := "*.dart" :: name_patterns.

(** Has the pattern no star? *)
Fixpoint star_free (pat : string) : bool :=
  match pat with
  | EmptyString => true
  | String c pat' => negb (Ascii.eqb c "*") && star_free pat'
  end.

(** Does [project_root / "pubspec.yaml"] exist, open and declare fonts? *)
Definition declares_fonts (pub : option ReadResult) : bool :=
  match pub with
  | Some (ReadOk content) => PyStr.contains content "fonts:"
  | _ => false
  end.

(** The outcome of a check on a tree without [.dart] entries. *)
Definition only_fonts (pub : option ReadResult) (c : Category) (k : string)
    : bool :=
  match c with
  | Theming => String.eqb k "custom_fonts" && declares_fonts pub
  | _ => false
  end.

End TreeSpec.

(* ================================================================== *)
(** ** Vocabulary of the statements about names *)

Module NameSpec.
Import PyPath Dart.

(** Do all characters of the text pass the test? *)
Fixpoint all_chars (p : ascii -> bool) (s : string) : bool :=
  match s with
  | EmptyString => true
  | String c s' => p c && all_chars p s'
  end.

(** The words of a name, one after the other. *)
Fixpoint flatten (ws : list string) : string :=
  match ws with
  | [] => EmptyString
  | w :: rest => w ++ flatten rest
  end.

(** A word of a CamelCase name: a capital letter and at least one small
    letter. *)
Definition camel_word (w : string) : bool :=
  match w with
  | String u (String l ls) =>
      PyStr.is_upper_az u && PyStr.is_lower_az l
      && all_chars PyStr.is_lower_az ls
  | _ => false
  end.

(** The words of a name with an underscore after the first word, the
    third, the fifth and so on. *)
Fixpoint camel_join (ws : list string) : string :=
  match ws with
  | [] => EmptyString
  | [w] => w
  | w1 :: w2 :: rest =>
      w1 ++ "_" ++ w2 ++ camel_join rest
  end.

Definition not_upper (c : ascii) : bool := negb (PyStr.is_upper_az c).

(** The text is empty or starts with a capital and a small letter. *)
Definition starts_word (s : string) : bool :=
  match s with
  | EmptyString => true
  | String u (String l _) => PyStr.is_upper_az u && PyStr.is_lower_az l
  | _ => false
  end.

End NameSpec.

(* ================================================================== *)
(** ** Vocabulary of the statements about lines *)

Module LineSpec.
Import PyPath Dart.

(** The last character of a text. *)
Fixpoint last_char (s : string) : option ascii :=
  match s with
  | EmptyString => None
  | String c EmptyString => Some c
  | String _ s' => last_char s'
  end.

(** Is the entry one of the semicolon test of [_check_syntax]? *)
Definition is_semicolon_issue (x : Issue) : bool :=
  String.prefix "Missing semicolon: " (error x).

(** The characters [[\w/:.]] of the path of an import. *)
Definition import_char (c : ascii) : bool :=
  PyStr.is_word c || Ascii.eqb c "/" || Ascii.eqb c ":" || Ascii.eqb c ".".

End LineSpec.

(* ================================================================== *)
(** ** The report of validate_dart.py

    What [main] prints after the validation: the four lines of the
    summary and a section for every list of the results that is not
    empty. *)

Module DartReport.
Import PyPath Dart.

(** [os.path.basename(p)] *)
Definition basename (p : string) : string :=
  last (PyStr.split p "/"%char) EmptyString.

(** A row of the syntax and the import section:
    [basename(error['file'])], [error.get('line', '?')], where [None]
    stands for the question mark, and [error['error']]. *)
Record IssueRow : Type := mkIssueRow {
  ir_file : string;
  ir_line : option Z;
  ir_error : string
}.

(** A row of the structure and the warnings section. *)
Record PlainRow : Type := mkPlainRow {
  pr_file : string;
  pr_text : string
}.

(** A section: the count of its header, its rows, and the count of the
    line [... and n more] when that line is printed. *)
Record Section (R : Type) : Type := mkSection {
  sec_count : Z;
  sec_rows : list R;
  sec_more : option Z
}.
Arguments mkSection {R} _ _ _.
Arguments sec_count {R} _.
Arguments sec_rows {R} _.
Arguments sec_more {R} _.

Definition issue_row (x : Issue) : IssueRow :=
  mkIssueRow (basename (file x)) (line x) (error x).

Definition structure_row (x : Issue) : PlainRow :=
  mkPlainRow (basename (file x)) (error x).

Definition warning_row (w : Warning) : PlainRow :=
  mkPlainRow (basename (warning_file w)) (warning w).

(** [if l: ... for x in l[:limit]: ... if len(l) > limit: ...] *)
Definition first_rows {A R : Type} (row : A -> R) (limit : nat)
    (l : list A) : option (Section R) :=
  match l with
  | [] => None
  | _ =>
      Some (mkSection (len l) (map row (firstn limit l))
              (if len l >? Z.of_nat limit
               then Some (len l - Z.of_nat limit) else None))
  end.

(** [if l: ... for x in l: ...] *)
Definition all_rows {A R : Type} (row : A -> R) (l : list A)
    : option (Section R) :=
  match l with
  | [] => None
  | _ => Some (mkSection (len l) (map row l) None)
  end.

Record Report : Type := mkReport {
  rep_files : Z;
  rep_issues : Z;
  rep_warning_count : Z;
  rep_status : string;
  rep_syntax : option (Section IssueRow);
  rep_imports : option (Section IssueRow);
  rep_structure : option (Section PlainRow);
  rep_warnings : option (Section PlainRow);
  rep_exit : Z
}.

(** The part of [main] after [validate_project]; [None] stands for the
    [KeyError] of a summary that was never filled in. *)
Definition report (results : Results) : option Report :=
  s <- summary results ;;
  Some {| rep_files := total_files s;
          rep_issues := total_issues s;
          rep_warning_count := total_warnings s;
          rep_status := status s;
          rep_syntax := first_rows issue_row 5 (syntax_errors results);
          rep_imports := first_rows issue_row 5 (import_errors results);
          rep_structure := all_rows structure_row (structure_issues results);
          rep_warnings := first_rows warning_row 3 (warnings results);
          rep_exit := if total_issues s =? 0 then 0 else 1 |}.

End DartReport.

Module ReportSpec.
Import PyPath Dart DartReport.

(** A section for a list of [n] entries of which at most [limit] are
    shown: absent when there is none, else with the count [n], with
    [min limit n] rows, and with the line of the [n - limit] others
    exactly when there are others. *)
Definition section_shows {R : Type} (limit n : Z)
    (sec : option (Section R)) : Prop :=
  match sec with
  | None => n = 0
  | Some sc =>
      0 < n /\ sec_count sc = n
      /\ len (sec_rows sc) = Z.min limit n
      /\ sec_more sc = (if n >? limit then Some (n - limit) else None)
  end.

(** Is the text the one of an entry for a file that could not be read? *)
Definition is_read_failure (text : string) : bool :=
  String.prefix "Failed to read file: " text.

Definition rows_of {R : Type} (sec : option (Section R)) : list R :=
  match sec with
  | None => []
  | Some sc => sec_rows sc
  end.

End ReportSpec.

(* ================================================================== *)
(** * Facts *)

(** ** The pattern matcher *)

Section RegexFacts.
Import Regex.

Lemma append_empty_inv (s t : string) :
  s ++ t = EmptyString -> s = EmptyString /\ t = EmptyString.
Proof. destruct s; simpl; [auto|discriminate]. Qed.

Lemma append_empty_r (s : string) : s ++ "" = s.
Proof. induction s; simpl; [reflexivity|now f_equal]. Qed.

Lemma append_assoc (s t u : string) : (s ++ t) ++ u = s ++ (t ++ u).
Proof. induction s; simpl; [reflexivity|now f_equal]. Qed.

Lemma lang_void_inv (s : string) : ~ lang Void s.
Proof. intros H. inversion H. Qed.

Lemma lang_eps_inv (s : string) : lang Eps s -> s = EmptyString.
Proof. intros H. now inversion H. Qed.

Lemma lang_cls_inv (p : ascii -> bool) (s : string) :
  lang (Cls p) s -> exists c, s = String c EmptyString /\ p c = true.
Proof. intros H. inversion H; subst. eauto. Qed.

Lemma lang_cat_inv (a b : re) (s : string) :
  lang (Cat a b) s -> exists u v, s = u ++ v /\ lang a u /\ lang b v.
Proof. intros H. inversion H; subst. eauto. Qed.

Lemma lang_alt_inv (a b : re) (s : string) :
  lang (Alt a b) s -> lang a s \/ lang b s.
Proof. intros H. inversion H; subst; auto. Qed.

(** A non-empty word of a star starts with a non-empty word of its body. *)
Lemma lang_star_inv (a : re) (c : ascii) (s : string) :
  lang (Star a) (String c s) ->
  exists u v, s = u ++ v /\ lang a (String c u) /\ lang (Star a) v.
Proof.
  intros H. remember (Star a) as r eqn:Hr. remember (String c s) as w eqn:Hw.
  revert s Hw.
  induction H as [| | | | | |a' u v Hu _ Hv IH]; intros s0 Hw;
    try discriminate.
  injection Hr as ->. destruct u as [|d u]; simpl in Hw.
  - now apply IH.
  - injection Hw as Hd Hs. subst d s0. eauto.
Qed.

Lemma nullable_lang (r : re) : nullable r = true <-> lang r EmptyString.
Proof.
  induction r as [| |p|a IHa b IHb|a IHa b IHb|a IHa]; simpl.
  - split; [discriminate|]. intros H. now apply lang_void_inv in H.
  - split; [constructor|reflexivity].
  - split; [discriminate|]. intros H.
    apply lang_cls_inv in H as (c & H & _). discriminate.
  - rewrite andb_true_iff, IHa, IHb. split.
    + intros [Ha Hb]. exact (lang_cat a b _ _ Ha Hb).
    + intros H. apply lang_cat_inv in H as (u & v & Heq & Hu & Hv).
      symmetry in Heq. destruct (append_empty_inv _ _ Heq) as [-> ->].
      now split.
  - rewrite orb_true_iff, IHa, IHb. split.
    + intros [H|H]; [now apply lang_alt_l|now apply lang_alt_r].
    + apply lang_alt_inv.
  - split; [constructor|reflexivity].
Qed.

Lemma cat_lang (a b : re) (s : string) : lang (cat a b) s <-> lang (Cat a b) s.
Proof.
  assert (Hl : forall b s, lang (Cat Eps b) s <-> lang b s).
  { intros b0 s0. split.
    - intros H. apply lang_cat_inv in H as (u & v & -> & Hu & Hv).
      apply lang_eps_inv in Hu. now subst.
    - intros H. exact (lang_cat Eps b0 EmptyString s0 lang_eps H). }
  assert (Hr : forall a s, lang (Cat a Eps) s <-> lang a s).
  { intros a0 s0. split.
    - intros H. apply lang_cat_inv in H as (u & v & -> & Hu & Hv).
      apply lang_eps_inv in Hv. subst. now rewrite append_empty_r.
    - intros H. rewrite <- (append_empty_r s0).
      exact (lang_cat a0 Eps s0 EmptyString H lang_eps). }
  assert (Hvl : forall b s, lang (Cat Void b) s <-> lang Void s).
  { intros b0 s0. split; intros H; [|now apply lang_void_inv in H].
    apply lang_cat_inv in H as (u & v & _ & Hu & _).
    now apply lang_void_inv in Hu. }
  assert (Hvr : forall a s, lang (Cat a Void) s <-> lang Void s).
  { intros a0 s0. split; intros H; [|now apply lang_void_inv in H].
    apply lang_cat_inv in H as (u & v & _ & _ & Hv).
    now apply lang_void_inv in Hv. }
  destruct a, b; simpl; try reflexivity;
    rewrite ?Hvl, ?Hvr, ?Hl, ?Hr; reflexivity.
Qed.

Lemma alt_lang (a b : re) (s : string) : lang (alt a b) s <-> lang (Alt a b) s.
Proof.
  assert (Hl : forall b s, lang (Alt Void b) s <-> lang b s).
  { intros b0 s0. split; [|apply lang_alt_r].
    intros H. apply lang_alt_inv in H as [H|H]; [|exact H].
    now apply lang_void_inv in H. }
  assert (Hr : forall a s, lang (Alt a Void) s <-> lang a s).
  { intros a0 s0. split; [|apply lang_alt_l].
    intros H. apply lang_alt_inv in H as [H|H]; [exact H|].
    now apply lang_void_inv in H. }
  destruct a, b; simpl; try reflexivity; rewrite ?Hl, ?Hr; reflexivity.
Qed.

(** The derivative by [c] holds the words that, after [c], are words of
    the expression. *)
Lemma deriv_lang (c : ascii) (r : re) :
  forall s, lang (deriv c r) s <-> lang r (String c s).
Proof.
  induction r as [| |p|a IHa b IHb|a IHa b IHb|a IHa]; intros s; simpl.
  - split; intros H; now apply lang_void_inv in H.
  - split; intros H; [now apply lang_void_inv in H|].
    apply lang_eps_inv in H. discriminate.
  - destruct (p c) eqn:E; split; intros H.
    + apply lang_eps_inv in H. subst. now constructor.
    + apply lang_cls_inv in H as (d & Heq & _). injection Heq as _ ->.
      constructor.
    + now apply lang_void_inv in H.
    + apply lang_cls_inv in H as (d & Heq & Hd). injection Heq as -> _.
      congruence.
  - rewrite alt_lang. split.
    + intros H. apply lang_alt_inv in H as [H|H].
      * apply cat_lang, lang_cat_inv in H as (u & v & -> & Hu & Hv).
        apply IHa in Hu. exact (lang_cat a b (String c u) v Hu Hv).
      * destruct (nullable a) eqn:E; [|now apply lang_void_inv in H].
        apply nullable_lang in E. apply IHb in H.
        exact (lang_cat a b EmptyString (String c s) E H).
    + intros H. apply lang_cat_inv in H as (u & v & Heq & Hu & Hv).
      destruct u as [|d u]; simpl in Heq.
      * subst v. apply lang_alt_r.
        rewrite (proj2 (nullable_lang a) Hu). now apply IHb.
      * injection Heq as <- ->. apply lang_alt_l, cat_lang.
        apply lang_cat; [now apply IHa|exact Hv].
  - rewrite alt_lang. split.
    + intros H. apply lang_alt_inv in H as [H|H];
        [apply lang_alt_l; now apply IHa|apply lang_alt_r; now apply IHb].
    + intros H. apply lang_alt_inv in H as [H|H];
        [apply lang_alt_l; now apply IHa|apply lang_alt_r; now apply IHb].
  - rewrite cat_lang. split.
    + intros H. apply lang_cat_inv in H as (u & v & -> & Hu & Hv).
      apply IHa in Hu. exact (lang_star_cons a (String c u) v Hu Hv).
    + intros H. apply lang_star_inv in H as (u & v & -> & Hu & Hv).
      apply lang_cat; [now apply IHa|exact Hv].
Qed.

(** The matcher decides the language of the expression. *)
Theorem fullmatch_lang (s : string) :
  forall r, fullmatch r s = true <-> lang r s.
Proof.
  induction s as [|c s IH]; intros r; simpl.
  - apply nullable_lang.
  - rewrite IH. apply deriv_lang.
Qed.

End RegexFacts.

(** ** Dicts *)

Section DictFacts.

Lemma sum_values_from (l : list bool) (a : Z) :
  fold_left (fun acc b => acc + Dict.int_of_bool b) l a
  = a + fold_left (fun acc b => acc + Dict.int_of_bool b) l 0.
Proof.
  revert a; induction l as [|b l IH]; intros a; simpl.
  - lia.
  - rewrite IH, (IH (Dict.int_of_bool b)). lia.
Qed.

Lemma sum_values_cons (k : string) (b : bool) (d : Dict.t) :
  Dict.sum_values ((k, b) :: d) = Dict.int_of_bool b + Dict.sum_values d.
Proof.
  unfold Dict.sum_values; simpl. now rewrite sum_values_from.
Qed.

Lemma sum_values_count (d : Dict.t) :
  Dict.sum_values d = Catalog.satisfied_count d.
Proof.
  unfold Catalog.satisfied_count.
  induction d as [|[k b] d IH].
  - reflexivity.
  - rewrite sum_values_cons, IH. destruct b; simpl Dict.values; simpl filter;
      simpl List.length; unfold Dict.int_of_bool; lia.
Qed.

Lemma sum_values_bounds (d : Dict.t) :
  0 <= Dict.sum_values d <= Dict.len d.
Proof.
  unfold Dict.len. induction d as [|[k b] d IH].
  - simpl. unfold Dict.sum_values. simpl. lia.
  - rewrite sum_values_cons. destruct b; unfold Dict.int_of_bool;
      simpl List.length; lia.
Qed.

Lemma sum_values_all (d : Dict.t) :
  Catalog.all_hold d -> Dict.sum_values d = Dict.len d.
Proof.
  unfold Dict.len, Catalog.all_hold. induction d as [|[k b] d IH]; intros H.
  - reflexivity.
  - rewrite sum_values_cons, IH.
    + rewrite (H k b (or_introl eq_refl)). unfold Dict.int_of_bool.
      simpl List.length. lia.
    + intros k' b' Hin. apply (H k' b'). now right.
Qed.

Lemma len_keys (d : Dict.t) :
  Dict.len d = Z.of_nat (List.length (Dict.keys d)).
Proof. unfold Dict.len, Dict.keys. now rewrite length_map. Qed.

Lemma keys_set (d : Dict.t) (k : string) (v : bool) :
  In k (Dict.keys d) -> Dict.keys (Dict.set d k v) = Dict.keys d.
Proof.
  induction d as [|[k' b] d IH]; simpl; intros H.
  - contradiction.
  - destruct (String.eqb k' k) eqn:E; simpl.
    + reflexivity.
    + f_equal. apply IH. destruct H as [H|H]; [|exact H].
      subst. rewrite String.eqb_refl in E. discriminate.
Qed.

Lemma keys_set_if (c : bool) (d : Dict.t) (k : string) :
  In k (Dict.keys d) -> Dict.keys (UX.set_if c d k) = Dict.keys d.
Proof. destruct c; simpl; [apply keys_set | reflexivity]. Qed.

Lemma keys_lift (d : Dict.t) (f : string -> bool) :
  Dict.keys (Catalog.lift d f) = Dict.keys d.
Proof.
  unfold Catalog.lift, Dict.keys. rewrite map_map. reflexivity.
Qed.

Lemma lift_ext (d : Dict.t) (f g : string -> bool) :
  (forall k, In k (Dict.keys d) -> f k = g k) ->
  Catalog.lift d f = Catalog.lift d g.
Proof.
  intros H. unfold Catalog.lift. apply map_ext_in.
  intros [k b] Hin. simpl. rewrite (H k); [reflexivity|].
  unfold Dict.keys. change k with (fst (k, b)). now apply in_map.
Qed.

Lemma lift_lift (d : Dict.t) (f g : string -> bool) :
  Catalog.lift (Catalog.lift d f) g = Catalog.lift d (fun k => f k || g k).
Proof.
  unfold Catalog.lift. rewrite map_map. apply map_ext.
  intros [k b]. simpl. now rewrite orb_assoc.
Qed.

Lemma lift_false (d : Dict.t) :
  Catalog.lift d (fun _ => false) = d.
Proof.
  unfold Catalog.lift. rewrite <- (map_id d) at 2. apply map_ext.
  intros [k b]. simpl. now rewrite orb_false_r.
Qed.

(** Setting a present key of a dict without repeated keys. *)
Lemma set_true_lift (d : Dict.t) (k : string) :
  NoDup (Dict.keys d) -> In k (Dict.keys d) ->
  Dict.set d k true = Catalog.lift d (fun k' => String.eqb k' k).
Proof.
  induction d as [|[k' b] d IH]; simpl; intros Hnd Hin.
  - contradiction.
  - inversion Hnd as [|? ? Hnotin Hnd']; subst.
    destruct (String.eqb k' k) eqn:E.
    + apply String.eqb_eq in E. subst k'.
      rewrite orb_true_r. f_equal.
      rewrite <- (lift_false d) at 1. apply lift_ext.
      intros k0 Hk0. symmetry. apply String.eqb_neq.
      intros ->. contradiction.
    + rewrite orb_false_r. f_equal. apply IH; [exact Hnd'|].
      destruct Hin as [Hin|Hin]; [|exact Hin].
      subst. rewrite String.eqb_refl in E. discriminate.
Qed.

Lemma set_if_lift (c : bool) (d : Dict.t) (k : string) :
  NoDup (Dict.keys d) -> In k (Dict.keys d) ->
  UX.set_if c d k = Catalog.lift d (fun k' => String.eqb k' k && c).
Proof.
  intros Hnd Hin. destruct c; simpl.
  - rewrite set_true_lift by assumption. apply lift_ext.
    intros. now rewrite andb_true_r.
  - rewrite <- (lift_false d) at 1. apply lift_ext.
    intros. now rewrite andb_false_r.
Qed.

End DictFacts.

(** ** The content loops of the UX validator *)

Section LoopFacts.
Import PyPath UX Catalog.

Lemma existsb_orb {A : Type} (a p q : A -> bool) (l : list A) :
  existsb (fun x => a x && (p x || q x)) l
  = existsb (fun x => a x && p x) l || existsb (fun x => a x && q x) l.
Proof.
  induction l as [|x l IH]; simpl.
  - reflexivity.
  - rewrite IH. destruct (a x), (p x), (q x); simpl;
      try reflexivity; now rewrite ?orb_true_r.
Qed.

Lemma existsb_never {A : Type} (a : A -> bool) (l : list A) :
  existsb (fun x => a x && false) l = false.
Proof.
  induction l as [|x l IH]; simpl; [reflexivity|].
  now rewrite IH, andb_false_r.
Qed.

Lemma fold_left_pointwise {A B : Type} (f g : A -> B -> A) (l : list B) :
  (forall a b, f a b = g a b) ->
  forall a, fold_left f l a = fold_left g l a.
Proof.
  intros H. induction l as [|b l IH]; intros a; simpl.
  - reflexivity.
  - now rewrite H, IH.
Qed.

(** The rules of one content, applied in turn. *)
Lemma rules_on_content (rules : list Rule) (content : string) :
  forall d : Dict.t,
  NoDup (Dict.keys d) -> incl (map fst rules) (Dict.keys d) ->
  fold_left (fun d (r : Rule) => set_if (snd r content) d (fst r)) rules d
  = lift d (fun k => existsb (fun r : Rule => String.eqb (fst r) k
                                             && snd r content) rules).
Proof.
  induction rules as [|r rules IH]; intros d Hnd Hincl; simpl.
  - now rewrite lift_false.
  - rewrite set_if_lift; [|exact Hnd|apply Hincl; now left].
    rewrite IH.
    + rewrite lift_lift. apply lift_ext. intros k _.
      now rewrite (String.eqb_sym k).
    + now rewrite keys_lift.
    + rewrite keys_lift. intros k Hk. apply Hincl. now right.
Qed.

(** The loop over the files: a check holds at the end iff it held before
    or some readable file passes its rule. *)
Lemma rules_on_files (rules : list Rule) (files : list Entry) :
  forall d : Dict.t,
  NoDup (Dict.keys d) -> incl (map fst rules) (Dict.keys d) ->
  fold_left (apply_rules rules) files d = lift d (hit rules files).
Proof.
  induction files as [|e files IH]; intros d Hnd Hincl; simpl.
  - unfold hit. simpl. rewrite <- (lift_false d) at 1.
    apply lift_ext. intros k _. now rewrite existsb_never.
  - unfold apply_rules at 2. destruct (read e) as [content|err] eqn:Hr.
    + rewrite rules_on_content by assumption.
      rewrite IH; rewrite ?keys_lift; try assumption.
      rewrite lift_lift. apply lift_ext. intros k _.
      unfold hit, any_content. simpl existsb. rewrite Hr.
      now rewrite existsb_orb.
    + rewrite IH by assumption. apply lift_ext. intros k _.
      unfold hit, any_content. simpl existsb. now rewrite Hr.
Qed.

Lemma elevation_loop_any (files : list Entry) :
  elevation_loop files
  = any_content (fun c => PyStr.contains c "elevation:"
                          || PyStr.contains c "boxShadow") files.
Proof.
  induction files as [|e files IH]; simpl; [reflexivity|].
  destruct (read e) as [content|err]; [|exact IH].
  destruct (PyStr.contains content "elevation:"
            || PyStr.contains content "boxShadow"); [reflexivity|exact IH].
Qed.

Lemma color_contrast_loop_any (files : list Entry) (d : Dict.t) :
  color_contrast_loop files d
  = set_if (any_content
              (fun c => PyStr.contains c "ThemeData.dark"
                        || PyStr.contains c "brightness: Brightness.dark")
              files) d "color_contrast".
Proof.
  induction files as [|e files IH]; simpl; [reflexivity|].
  destruct (read e) as [content|err]; [|exact IH].
  destruct (PyStr.contains content "ThemeData.dark"
            || PyStr.contains content "brightness: Brightness.dark");
    [reflexivity|exact IH].
Qed.

Lemma accessibility_file_rules (d : Dict.t) (e : Entry) :
  accessibility_file d e = apply_rules accessibility_rules d e.
Proof. unfold accessibility_file, apply_rules. now destruct (read e). Qed.

Lemma performance_file_rules (d : Dict.t) (e : Entry) :
  performance_file d e = apply_rules performance_rules d e.
Proof. unfold performance_file, apply_rules. now destruct (read e). Qed.

Lemma animations_file_rules (d : Dict.t) (e : Entry) :
  animations_file d e = apply_rules animation_rules d e.
Proof. unfold animations_file, apply_rules. now destruct (read e). Qed.

Lemma theming_file_rules (d : Dict.t) (e : Entry) :
  theming_file d e = apply_rules theming_rules d e.
Proof. unfold theming_file, apply_rules. now destruct (read e). Qed.

Lemma responsive_file_rules (d : Dict.t) (e : Entry) :
  responsive_file d e = apply_rules responsive_rules d e.
Proof. unfold responsive_file, apply_rules. now destruct (read e). Qed.

Lemma flow_file_rules (d : Dict.t) (e : Entry) :
  flow_file d e = apply_rules flow_rules d e.
Proof. unfold flow_file, apply_rules. now destruct (read e). Qed.

End LoopFacts.

(** ** The checks of a category as rules over the tree *)

Section CheckFacts.
Import PyPath UX Catalog.

#[local] Arguments hit : simpl never.
#[local] Arguments any_content : simpl never.
#[local] Arguments rglob : simpl never.
#[local] Arguments nonempty : simpl never.

Ltac concrete_keys :=
  match goal with
  | |- NoDup _ =>
      repeat (constructor; [simpl; intuition discriminate|]); constructor
  | |- incl _ _ => intros ? ?; simpl in *; intuition (subst; auto)
  | |- In _ _ => simpl; tauto
  end.

Ltac loop_as_rules lem :=
  rewrite (fold_left_pointwise _ _ _ lem);
  rewrite rules_on_files; [|concrete_keys..].

(** Every dict of checks is the table of its rules' outcomes. *)
Lemma checks_on_form (c : Category) (fs : Tree) :
  checks_on c fs = map (fun k => (k, outcome c fs k)) (check_names c).
Proof.
  destruct c; unfold checks_on.
  - unfold material_checks. rewrite elevation_loop_any.
    destruct (nonempty (rglob (entries fs) "*theme*.dart")) eqn:E1,
             (nonempty (rglob (entries fs) "*color*.dart")) eqn:E2,
             (nonempty (rglob (entries fs) "*typography*.dart")) eqn:E3,
             (Z.of_nat (List.length (rglob (entries fs) "premium_*.dart"))
              >=? 3) eqn:E4;
      simpl; rewrite ?E1, ?E2, ?E3, ?E4; reflexivity.
  - unfold accessibility_checks.
    loop_as_rules accessibility_file_rules.
    rewrite color_contrast_loop_any.
    rewrite set_if_lift; [|rewrite keys_lift; concrete_keys..].
    rewrite lift_lift. simpl. now rewrite ?orb_false_r.
  - unfold performance_checks.
    destruct (nonempty (rglob (entries fs) "*cache*.dart")) eqn:E1,
             (nonempty (rglob (entries fs) "*performance*.dart")) eqn:E2;
      simpl set_if; loop_as_rules performance_file_rules; simpl;
      rewrite ?E1, ?E2; now rewrite ?orb_false_r.
  - unfold animation_checks.
    loop_as_rules animations_file_rules. reflexivity.
  - unfold theming_checks.
    destruct (pubspec fs) as [[content|err]|] eqn:Hp;
      [destruct (PyStr.contains content "fonts:") eqn:E| |];
      simpl set_if; loop_as_rules theming_file_rules; simpl;
      rewrite ?Hp, ?E; now rewrite ?orb_false_r.
  - unfold responsive_checks.
    loop_as_rules responsive_file_rules. reflexivity.
  - unfold flow_checks.
    destruct (nonempty (rglob (entries fs) "*auth*.dart")) eqn:E;
      simpl set_if; loop_as_rules flow_file_rules; simpl; rewrite ?E;
      now rewrite ?orb_false_r.
Qed.

End CheckFacts.

(** ** The pipeline of the UX validator *)

Section PipelineFacts.
Import PyPath UX Catalog.

Lemma keys_checks_on (c : Category) (fs : Tree) :
  Dict.keys (checks_on c fs) = check_names c.
Proof.
  rewrite checks_on_form. unfold Dict.keys. rewrite map_map. simpl.
  apply map_id.
Qed.

Lemma len_checks_on (c : Category) (fs : Tree) :
  Dict.len (checks_on c fs) = 5.
Proof. rewrite len_keys, keys_checks_on. now destruct c. Qed.

Lemma checks_of_validate (c : Category) (self : IndustrialUXValidator)
    (fs : Tree) (r : Results) :
  checks_of c (validate c self fs r) = checks_on c fs.
Proof. destruct r. now destruct c. Qed.

Lemma checks_of_validate_other (c c' : Category)
    (self : IndustrialUXValidator) (fs : Tree) (r : Results) :
  c <> c' -> checks_of c' (validate c self fs r) = checks_of c' r.
Proof.
  destruct r. destruct c, c'; intros H; try reflexivity; now elim H.
Qed.

(** The points of a category: its satisfied checks times a fifth of its
    maximum; they do not depend on the results so far. *)
Lemma points_form (c : Category) (self : IndustrialUXValidator) (fs : Tree)
    (r : Results) :
  points c self fs r = Dict.sum_values (checks_on c fs) * (max_points c / 5).
Proof.
  unfold points. destruct r.
  destruct c; cbn [validate checks_on max_points];
    unfold _validate_material_design, _validate_accessibility,
      _validate_performance_ux, _validate_animations, _validate_theming,
      _validate_responsive_design, _validate_user_flows, add_ux_score,
      set_material_design, set_accessibility, set_performance,
      set_animations, set_theming, set_responsive_design, set_user_flows;
    cbn [ux_score];
    change (20 / 5) with 4; change (15 / 5) with 3; change (10 / 5) with 2;
    lia.
Qed.

Lemma run_validators_checks (self : IndustrialUXValidator) (fs : Tree)
    (c : Category) :
  checks_of c (run_validators self fs) = checks_on c fs.
Proof. now destruct c. Qed.

Lemma run_validators_score (self : IndustrialUXValidator) (fs : Tree) :
  ux_score (run_validators self fs) = total_points self fs.
Proof.
  unfold total_points. simpl map. rewrite !points_form.
  unfold run_validators; simpl.
  change (20 / 5) with 4; change (15 / 5) with 3; change (10 / 5) with 2.
  lia.
Qed.

Lemma run_validators_summary (self : IndustrialUXValidator) (fs : Tree) :
  summary (run_validators self fs) = None.
Proof. reflexivity. Qed.

Lemma validate_complete_ux_run (self : IndustrialUXValidator) (fs : Tree) :
  validate_complete_ux self fs
  = _calculate_ux_score self (run_validators self fs).
Proof. reflexivity. Qed.

Lemma points_bounds (c : Category) (self : IndustrialUXValidator)
    (fs : Tree) (r : Results) :
  0 <= points c self fs r <= max_points c.
Proof.
  rewrite points_form.
  pose proof (sum_values_bounds (checks_on c fs)) as H.
  rewrite len_checks_on in H.
  destruct c; simpl max_points;
    change (20 / 5) with 4; change (15 / 5) with 3; change (10 / 5) with 2;
    lia.
Qed.

Lemma total_points_bounds (self : IndustrialUXValidator) (fs : Tree) :
  0 <= total_points self fs <= 100.
Proof.
  unfold total_points. simpl.
  pose proof (points_bounds MaterialDesign self fs initial_results).
  pose proof (points_bounds Accessibility self fs initial_results).
  pose proof (points_bounds Performance self fs initial_results).
  pose proof (points_bounds Animations self fs initial_results).
  pose proof (points_bounds Theming self fs initial_results).
  pose proof (points_bounds ResponsiveDesign self fs initial_results).
  pose proof (points_bounds UserFlows self fs initial_results).
  simpl max_points in *. lia.
Qed.

(** A check name of the category is a key of its dict, with the rule's
    outcome as value. *)
Lemma get_tabulate (f : string -> bool) (names : list string) (k : string) :
  Dict.get (map (fun k => (k, f k)) names) k
  = if existsb (String.eqb k) names then Some (f k) else None.
Proof.
  induction names as [|n names IH]; simpl; [reflexivity|].
  rewrite (String.eqb_sym k n).
  destruct (String.eqb n k) eqn:E; simpl; [|exact IH].
  apply String.eqb_eq in E. now subst.
Qed.

Lemma get_checks_on (c : Category) (fs : Tree) (k : string) :
  Dict.get (checks_on c fs) k
  = if existsb (String.eqb k) (check_names c)
    then Some (outcome c fs k) else None.
Proof. rewrite checks_on_form. apply get_tabulate. Qed.

(** [_generate_recommendations] finds all the keys it reads. *)
Lemma recommendations_total (self : IndustrialUXValidator) (fs : Tree) :
  exists recs,
    _generate_recommendations (run_validators self fs) = Some recs.
Proof.
  unfold _generate_recommendations.
  change (material_design (run_validators self fs))
    with (checks_of MaterialDesign (run_validators self fs)).
  change (accessibility (run_validators self fs))
    with (checks_of Accessibility (run_validators self fs)).
  change (performance (run_validators self fs))
    with (checks_of Performance (run_validators self fs)).
  rewrite !run_validators_checks, !get_checks_on. simpl.
  eexists. reflexivity.
Qed.

(** A run of a validator made by [__init__] returns, with a summary. *)
Lemma validate_complete_ux_returns (root : string) (fs : Tree) :
  exists p recs,
    percentage_of (Z.min (total_points (init root) fs) 100) 100 = Some p
    /\ _generate_recommendations (run_validators (init root) fs) = Some recs
    /\ validate_complete_ux (init root) fs
       = Some (set_summary (run_validators (init root) fs)
                 {| final_score := Z.min (total_points (init root) fs) 100;
                    summary_max_score := 100;
                    percentage := p;
                    grade := fst (grade_and_status p);
                    status := snd (grade_and_status p);
                    recommendations := recs |}).
Proof.
  destruct (recommendations_total (init root) fs) as [recs Hrecs].
  exists (PrimFloat.mul
            (PrimFloat.div
               (float_of_int (Z.min (total_points (init root) fs) 100))
               (float_of_int 100))
            (float_of_int 100)), recs.
  split; [reflexivity|]. split; [exact Hrecs|].
  rewrite validate_complete_ux_run. unfold _calculate_ux_score.
  rewrite run_validators_score. simpl max_score.
  unfold percentage_of at 1. simpl (100 =? 0).
  cbv iota. rewrite Hrecs.
  now destruct (grade_and_status _).
Qed.

End PipelineFacts.

(* ================================================================== *)
(** * The scoring claims *)

Section Scoring.
Import PyPath UX Catalog.

Lemma categories_rows (r : Results) :
  categories r = map (fun c => (label c, checks_of c r, max_points c)) all.
Proof. reflexivity. Qed.

(** What [_calculate_ux_score] returns, when it returns. *)
Lemma calculate_inv (self : IndustrialUXValidator) (r rf : Results) :
  _calculate_ux_score self r = Some rf ->
  exists s,
    rf = set_summary r s
    /\ final_score s = Z.min (ux_score r) (max_score self)
    /\ summary_max_score s = max_score self
    /\ percentage_of (final_score s) (max_score self) = Some (percentage s)
    /\ (grade s, status s) = grade_and_status (percentage s)
    /\ _generate_recommendations r = Some (recommendations s).
Proof.
  unfold _calculate_ux_score.
  destruct (percentage_of _ _) as [p|] eqn:Hp; [|discriminate].
  destruct (grade_and_status p) as [g st] eqn:Hg.
  destruct (_generate_recommendations r) as [recs|]; [|discriminate].
  intros H. injection H as H. eexists. split; [symmetry; exact H|].
  simpl. rewrite Hg. auto.
Qed.

Lemma checks_of_set_summary (c : Category) (r : Results) (s : Summary) :
  checks_of c (set_summary r s) = checks_of c r.
Proof. destruct r. now destruct c. Qed.

Lemma checks_of_final (self : IndustrialUXValidator) (fs : Tree)
    (rf : Results) (c : Category) :
  validate_complete_ux self fs = Some rf ->
  checks_of c rf = checks_on c fs.
Proof.
  rewrite validate_complete_ux_run. intros H.
  apply calculate_inv in H as (s & -> & _).
  rewrite checks_of_set_summary. apply run_validators_checks.
Qed.

Lemma ux_score_set_summary (r : Results) (s : Summary) :
  ux_score (set_summary r s) = ux_score r.
Proof. now destruct r. Qed.

Lemma score_of_final (self : IndustrialUXValidator) (fs : Tree)
    (rf : Results) :
  validate_complete_ux self fs = Some rf ->
  ux_score rf = total_points self fs.
Proof.
  intros H. rewrite validate_complete_ux_run in H.
  apply calculate_inv in H. destruct H as (s & H & _).
  rewrite H, ux_score_set_summary.
  apply run_validators_score.
Qed.

(** C1. For each of the seven categories, the points its method adds to
    the score are maxPoints * satisfiedCount / totalCount as an exact
    fraction, where satisfiedCount counts the checks of the category that
    hold and totalCount is 5; Material Design gives 4 points per satisfied
    check; and the score that the breakdown of [main] recomputes with
    [max_points // len(checks)] from the final results is the same
    number. *)
Theorem C1_category_points
    (c : Category) (self : IndustrialUXValidator) (fs : Tree)
    (r : Results) :
  let checks := checks_of c (validate c self fs r) in
  let awarded := points c self fs r in
  Dict.len checks = 5
  /\ Dict.sum_values checks = satisfied_count checks
  /\ (inject_Z awarded
      == inject_Z (max_points c) * inject_Z (satisfied_count checks)
         / inject_Z (Dict.len checks))%Q
  /\ points MaterialDesign self fs r
     = 4 * satisfied_count (checks_of MaterialDesign
                              (validate MaterialDesign self fs r))
  /\ breakdown_score checks (max_points c) = Some awarded
  /\ forall rf,
       validate_complete_ux self fs = Some rf ->
       In (label c, checks_of c rf, max_points c) (categories rf)
       /\ breakdown_score (checks_of c rf) (max_points c) = Some awarded.
Proof.
  intros checks awarded. subst checks awarded.
  rewrite !checks_of_validate, !points_form, <- !sum_values_count.
  rewrite !len_checks_on.
  assert (Hb : breakdown_score (checks_on c fs) (max_points c)
               = Some (Dict.sum_values (checks_on c fs)
                       * (max_points c / 5))).
  { unfold breakdown_score. now rewrite len_checks_on. }
  repeat split.
  - unfold Qeq, Qdiv, Qmult, Qinv, inject_Z; simpl.
    destruct c; simpl max_points;
      change (20 / 5) with 4; change (15 / 5) with 3;
      change (10 / 5) with 2; lia.
  - simpl max_points. change (20 / 5) with 4. lia.
  - exact Hb.
  - rewrite categories_rows.
    apply (in_map (fun c => (label c, checks_of c rf, max_points c))).
    destruct c; simpl; tauto.
  - rewrite (checks_of_final self fs rf c H). exact Hb.
Qed.

Lemma C1_category_points_witness :
  validate_complete_ux (init ".") (mkTree [] None) <> None
  /\ breakdown_score
       (checks_of Theming
          (validate Theming (init ".") (mkTree [] None) initial_results))
       15
     = Some (points Theming (init ".") (mkTree [] None) initial_results).
Proof.
  split; [vm_compute; discriminate|].
  exact (proj1 (proj2 (proj2 (proj2 (proj2
           (C1_category_points Theming (init ".") (mkTree [] None)
              initial_results)))))).
Defined.

(** C2. Every category's points lie between 0 and its maximum; the maxima
    20, 15, 15, 10, 15, 10, 15 add up to the validator's [max_score] of
    100; and the final score of a run is the smaller of the sum of the
    category points and 100, hence at most 100. *)
Theorem C2_score_bounds (root : string) (fs : Tree) :
  let self := init root in
  (forall c r, 0 <= points c self fs r <= max_points c)
  /\ map max_points all = [20; 15; 15; 10; 15; 10; 15]
  /\ fold_right Z.add 0 (map max_points all) = max_score self
  /\ max_score self = 100
  /\ exists rf s,
       validate_complete_ux self fs = Some rf
       /\ summary rf = Some s
       /\ ux_score rf = total_points self fs
       /\ final_score s = Z.min (total_points self fs) (max_score self)
       /\ final_score s <= max_score self.
Proof.
  intros self. split; [intros c r; apply points_bounds|].
  repeat (split; [reflexivity|]).
  destruct (validate_complete_ux_returns root fs) as (p & recs & _ & _ & H).
  eexists. eexists. split; [exact H|].
  split; [reflexivity|].
  split; [apply (score_of_final self fs _ H)|].
  split; [reflexivity|]. simpl. lia.
Qed.

Lemma grade_agrees_upto_100 :
  forallb (fun n => grade_agrees (Z.of_nat n)) (seq 0 101) = true.
Proof. vm_compute. reflexivity. Qed.

Lemma pair_eqb_eq (a b : string * string) : pair_eqb a b = true -> a = b.
Proof.
  destruct a, b. unfold pair_eqb. simpl. intros H.
  apply andb_true_iff in H as [H1 H2].
  apply String.eqb_eq in H1, H2. now subst.
Qed.

Lemma grade_of_final (final : Z) :
  0 <= final <= 100 ->
  exists p, percentage_of final 100 = Some p
            /\ grade_and_status p = table_lookup grade_table final 100.
Proof.
  intros H.
  pose proof (proj1 (forallb_forall _ _) grade_agrees_upto_100
                (Z.to_nat final)) as Hn.
  cbv beta in Hn. rewrite Z2Nat.id in Hn by lia.
  assert (Hin : In (Z.to_nat final) (seq 0 101)) by (apply in_seq; lia).
  specialize (Hn Hin). unfold grade_agrees in Hn.
  destruct (percentage_of final 100) as [p|]; [|discriminate].
  exists p. split; [reflexivity|]. now apply pair_eqb_eq.
Qed.

(** C3. The grade and the status come from the percentage of the final
    score through the threshold table read from the top: at 90 and above
    'A+ (Industrial Grade)', else at 80 and above 'A (Professional
    Grade)', else at 70 and above 'B+ (Good Standard)', else at 60 and
    above 'B (Acceptable)', else 'C (Below Standard)'.  The float
    percentage of the source decides every final score from 0 to 100 as
    the exact percentage does, and every run reports the grade of its
    final score. *)
Theorem C3_grade_thresholds :
  (forall final,
     0 <= final <= 100 ->
     exists p,
       percentage_of final 100 = Some p
       /\ grade_and_status p = table_lookup grade_table final 100
       /\ fst (grade_and_status p)
          = (if 90 <=? final then "A+ (Industrial Grade)"
             else if 80 <=? final then "A (Professional Grade)"
             else if 70 <=? final then "B+ (Good Standard)"
             else if 60 <=? final then "B (Acceptable)"
             else "C (Below Standard)"))
  /\ (forall root fs,
        exists rf s,
          validate_complete_ux (init root) fs = Some rf
          /\ summary rf = Some s
          /\ 0 <= final_score s <= 100
          /\ percentage_of (final_score s) 100 = Some (percentage s)
          /\ (grade s, status s)
             = table_lookup grade_table (final_score s) 100).
Proof.
  split.
  - intros final H. destruct (grade_of_final final H) as (p & Hp & Hg).
    exists p. split; [exact Hp|]. split; [exact Hg|].
    rewrite Hg. unfold table_lookup, grade_table, meets.
    replace (90 * 100 <=? 100 * final) with (90 <=? final)
      by (apply eq_true_iff_eq; rewrite !Z.leb_le; lia).
    replace (80 * 100 <=? 100 * final) with (80 <=? final)
      by (apply eq_true_iff_eq; rewrite !Z.leb_le; lia).
    replace (70 * 100 <=? 100 * final) with (70 <=? final)
      by (apply eq_true_iff_eq; rewrite !Z.leb_le; lia).
    replace (60 * 100 <=? 100 * final) with (60 <=? final)
      by (apply eq_true_iff_eq; rewrite !Z.leb_le; lia).
    destruct (90 <=? final), (80 <=? final), (70 <=? final),
      (60 <=? final); reflexivity.
  - intros root fs.
    destruct (validate_complete_ux_returns root fs)
      as (p & recs & Hp & _ & H).
    pose proof (total_points_bounds (init root) fs) as Hb.
    assert (Hf : 0 <= Z.min (total_points (init root) fs) 100 <= 100)
      by lia.
    destruct (grade_of_final _ Hf) as (p' & Hp' & Hg).
    rewrite Hp in Hp'. injection Hp' as <-.
    eexists. eexists. split; [exact H|]. split; [reflexivity|].
    cbn [final_score percentage grade status].
    split; [exact Hf|]. split; [exact Hp|].
    rewrite <- Hg. now destruct (grade_and_status p).
Qed.

Lemma C3_grade_thresholds_witness :
  exists p,
    percentage_of 85 100 = Some p
    /\ grade_and_status p = ("A (Professional Grade)", "✅ VERY GOOD").
Proof.
  destruct (proj1 C3_grade_thresholds 85 ltac:(lia)) as (p & Hp & Hg & _).
  exists p. split; [exact Hp|exact Hg].
Defined.

Lemma in_firstn {A : Type} (n : nat) (l : list A) (x : A) :
  In x (firstn n l) -> In x l.
Proof.
  intros H. rewrite <- (firstn_skipn n l). apply in_or_app. now left.
Qed.

Lemma some_inj {A : Type} (a b : A) : Some a = Some b -> a = b.
Proof. congruence. Qed.

Lemma summary_set_summary (r : Results) (s : Summary) :
  summary (set_summary r s) = Some s.
Proof. now destruct r. Qed.

Lemma total_points_all (self : IndustrialUXValidator) (fs : Tree) :
  (forall c, all_hold (checks_on c fs)) -> total_points self fs = 100.
Proof.
  intros H. unfold total_points. simpl map. rewrite !points_form.
  rewrite !sum_values_all by apply H. rewrite !len_checks_on.
  reflexivity.
Qed.

(** C5. When every check of every category holds, the final score is the
    maximum of 100 and the grade is the label of the top threshold,
    'A+ (Industrial Grade)'. *)
Theorem C5_all_satisfied (root : string) (fs : Tree) (rf : Results) :
  validate_complete_ux (init root) fs = Some rf ->
  (forall c, all_hold (checks_of c rf)) ->
  exists s,
    summary rf = Some s
    /\ final_score s = 100
    /\ final_score s = max_score (init root)
    /\ grade s = "A+ (Industrial Grade)"
    /\ Some (grade s, status s) = option_map snd (hd_error grade_table).
Proof.
  intros Hrun Hall.
  assert (Htot : total_points (init root) fs = 100).
  { apply total_points_all. intros c.
    rewrite <- (checks_of_final _ _ _ c Hrun). apply Hall. }
  destruct (validate_complete_ux_returns root fs)
    as (p & recs & Hp & _ & H).
  rewrite Htot in Hp, H. change (Z.min 100 100) with 100 in Hp, H.
  assert (Hrf : Some rf = Some (set_summary (run_validators (init root) fs)
                  {| final_score := 100; summary_max_score := 100;
                     percentage := p;
                     grade := fst (grade_and_status p);
                     status := snd (grade_and_status p);
                     recommendations := recs |}))
    by (rewrite <- Hrun; exact H).
  apply some_inj in Hrf. subst rf.
  eexists. split; [apply summary_set_summary|].
  cbn [final_score grade status]. split; [reflexivity|].
  split; [reflexivity|].
  assert (Hg : grade_and_status p
               = ("A+ (Industrial Grade)", "🏆 EXCELLENT")).
  { destruct (grade_of_final 100 ltac:(lia)) as (p' & Hp' & Hg).
    rewrite Hp in Hp'. injection Hp' as <-. exact Hg. }
  rewrite Hg. split; reflexivity.
Qed.

Lemma C5_all_satisfied_witness :
  exists rf s,
    validate_complete_ux (init ".") Samples.full_tree = Some rf
    /\ summary rf = Some s
    /\ final_score s = 100
    /\ grade s = "A+ (Industrial Grade)".
Proof.
  destruct (validate_complete_ux (init ".") Samples.full_tree)
    as [rf|] eqn:E; [|vm_compute in E; discriminate].
  assert (Hall : forall c, all_hold (checks_of c rf)).
  { vm_compute in E. injection E as <-.
    intros c k b Hin.
    destruct c; simpl in Hin;
      repeat (destruct Hin as [Hin|Hin]; [now inversion Hin|]);
      contradiction. }
  destruct (C5_all_satisfied "." Samples.full_tree rf E Hall)
    as (s & Hs & Hf & _ & Hg & _).
  exists rf, s. auto.
Defined.

Lemma sum_values_set_true (d : Dict.t) (k : string) :
  Dict.get d k = Some false ->
  Dict.sum_values (Dict.set d k true) = Dict.sum_values d + 1.
Proof.
  induction d as [|[k' b] d IH]; simpl; [discriminate|].
  destruct (String.eqb k' k).
  - intros H. injection H as ->. rewrite !sum_values_cons.
    unfold Dict.int_of_bool. lia.
  - intros H. rewrite !sum_values_cons, IH by exact H. lia.
Qed.

Lemma final_score_of_run (root : string) (fs : Tree) (rf : Results)
    (s : Summary) :
  validate_complete_ux (init root) fs = Some rf ->
  summary rf = Some s ->
  final_score s = Z.min (total_points (init root) fs) 100.
Proof.
  intros Hrun Hs.
  destruct (validate_complete_ux_returns root fs) as (p & recs & _ & _ & H).
  assert (Hrf : Some rf = Some (set_summary (run_validators (init root) fs)
                  {| final_score := Z.min (total_points (init root) fs) 100;
                     summary_max_score := 100;
                     percentage := p;
                     grade := fst (grade_and_status p);
                     status := snd (grade_and_status p);
                     recommendations := recs |}))
    by (rewrite <- Hrun; exact H).
  apply some_inj in Hrf. subst rf.
  rewrite summary_set_summary in Hs. now injection Hs as <-.
Qed.

(** C8. Take two runs whose check outcomes differ in one check only,
    false in the first run and true in the second.  The points of that
    check's category grow by the fixed non-negative increment of the
    category, the points of the other categories are the same, and
    neither the raw score nor the final score decreases. *)
Theorem C8_flip_monotone
    (root : string) (fs1 fs2 : Tree) (r1 r2 : Results) (s1 s2 : Summary)
    (c : Category) (k : string) :
  let self := init root in
  validate_complete_ux self fs1 = Some r1 ->
  validate_complete_ux self fs2 = Some r2 ->
  summary r1 = Some s1 ->
  summary r2 = Some s2 ->
  Dict.get (checks_of c r1) k = Some false ->
  checks_of c r2 = Dict.set (checks_of c r1) k true ->
  (forall c', c' <> c -> checks_of c' r2 = checks_of c' r1) ->
  points c self fs2 initial_results
  = points c self fs1 initial_results + max_points c / 5
  /\ 0 <= max_points c / 5
  /\ (forall c', c' <> c ->
      points c' self fs2 initial_results = points c' self fs1 initial_results)
  /\ ux_score r2 = ux_score r1 + max_points c / 5
  /\ ux_score r1 <= ux_score r2
  /\ final_score s1 <= final_score s2.
Proof.
  intros self H1 H2 Hs1 Hs2 Hget Hset Hother.
  assert (Hc : points c self fs2 initial_results
               = points c self fs1 initial_results + max_points c / 5).
  { rewrite !points_form.
    rewrite <- (checks_of_final _ _ _ c H1), <- (checks_of_final _ _ _ c H2).
    rewrite Hset, sum_values_set_true by exact Hget. lia. }
  assert (Ho : forall c', c' <> c ->
               points c' self fs2 initial_results
               = points c' self fs1 initial_results).
  { intros c' Hne. rewrite !points_form.
    rewrite <- (checks_of_final _ _ _ c' H1),
            <- (checks_of_final _ _ _ c' H2).
    now rewrite (Hother c' Hne). }
  assert (Hinc : 0 <= max_points c / 5)
    by (destruct c; cbn [max_points]; apply Z.div_pos; lia).
  assert (Htot : total_points self fs2
                 = total_points self fs1 + max_points c / 5).
  { unfold total_points. simpl map. simpl fold_right.
    destruct c;
      repeat match goal with
      | |- context [points ?c' self fs2 initial_results] =>
          first [ rewrite (Ho c') by discriminate
                | rewrite Hc ]
      end; lia. }
  split; [exact Hc|]. split; [exact Hinc|]. split; [exact Ho|].
  rewrite (score_of_final _ _ _ H1), (score_of_final _ _ _ H2).
  rewrite (final_score_of_run _ _ _ _ H1 Hs1),
          (final_score_of_run _ _ _ _ H2 Hs2).
  fold self. lia.
Qed.

Lemma C8_flip_monotone_witness :
  exists r1 r2 s1 s2,
    validate_complete_ux (init ".") Samples.empty_tree = Some r1
    /\ validate_complete_ux (init ".") Samples.hero_tree = Some r2
    /\ summary r1 = Some s1 /\ summary r2 = Some s2
    /\ Dict.get (checks_of Animations r1) "hero_animations" = Some false
    /\ ux_score r2 = ux_score r1 + 2
    /\ final_score s1 <= final_score s2.
Proof.
  destruct (validate_complete_ux (init ".") Samples.empty_tree)
    as [r1|] eqn:E1; [|vm_compute in E1; discriminate].
  destruct (validate_complete_ux (init ".") Samples.hero_tree)
    as [r2|] eqn:E2; [|vm_compute in E2; discriminate].
  destruct (summary r1) as [s1|] eqn:Hs1;
    [|vm_compute in E1; injection E1 as <-; discriminate].
  destruct (summary r2) as [s2|] eqn:Hs2;
    [|vm_compute in E2; injection E2 as <-; discriminate].
  assert (Hget : Dict.get (checks_of Animations r1) "hero_animations"
                 = Some false).
  { vm_compute in E1. injection E1 as <-. reflexivity. }
  assert (Hset : checks_of Animations r2
                 = Dict.set (checks_of Animations r1) "hero_animations" true).
  { vm_compute in E1, E2. injection E1 as <-. injection E2 as <-.
    reflexivity. }
  assert (Ho : forall c', c' <> Animations ->
               checks_of c' r2 = checks_of c' r1).
  { vm_compute in E1, E2. injection E1 as <-. injection E2 as <-.
    intros c' Hne. destruct c'; try reflexivity. now elim Hne. }
  destruct (C8_flip_monotone "." Samples.empty_tree Samples.hero_tree
              r1 r2 s1 s2 Animations "hero_animations"
              E1 E2 Hs1 Hs2 Hget Hset Ho)
    as (_ & _ & _ & Hu & _ & Hf).
  exists r1, r2, s1, s2. repeat split; auto.
Defined.

(** C9. The recommendations are one fixed string for each unsatisfied
    check among the six that have one, in the order Material Design
    (theme, components), accessibility (semantic labels, focus),
    performance (image caching, lazy loading), cut to the first five; they
    depend only on which of these checks are unsatisfied; and every run
    reports them in its summary. *)
Theorem C9_recommendations :
  (forall r recs,
     _generate_recommendations r = Some recs ->
     recs = expected_recommendations r
     /\ (List.length recs <= 5)%nat
     /\ (forall msg, In msg recs ->
         exists row, In row remediation_catalog
                     /\ unsatisfied r row = true /\ snd row = msg)
     /\ (forall r' recs',
         _generate_recommendations r' = Some recs' ->
         (forall row, In row remediation_catalog ->
                      unsatisfied r' row = unsatisfied r row) ->
         recs' = recs))
  /\ (forall root fs,
        exists rf s,
          validate_complete_ux (init root) fs = Some rf
          /\ summary rf = Some s
          /\ recommendations s = expected_recommendations rf).
Proof.
  assert (Hexp : forall r recs,
            _generate_recommendations r = Some recs ->
            recs = expected_recommendations r).
  { intros r recs. unfold _generate_recommendations,
      expected_recommendations, unsatisfied, remediation_catalog.
    cbn [filter fst snd checks_of].
    destruct (Dict.get (material_design r) "theme_implementation")
      as [b1|]; [|discriminate].
    destruct (Dict.get (material_design r) "component_usage")
      as [b2|]; [|discriminate].
    destruct (Dict.get (accessibility r) "semantic_labels")
      as [b3|]; [|discriminate].
    destruct (Dict.get (accessibility r) "focus_management")
      as [b4|]; [|discriminate].
    destruct (Dict.get (performance r) "image_caching")
      as [b5|]; [|discriminate].
    destruct (Dict.get (performance r) "lazy_loading")
      as [b6|]; [|discriminate].
    intros H. injection H as <-.
    destruct b1, b2, b3, b4, b5, b6; reflexivity. }
  split.
  - intros r recs H. pose proof (Hexp r recs H) as ->.
    split; [reflexivity|]. split.
    { unfold expected_recommendations. rewrite length_firstn. lia. }
    split.
    { intros msg Hin. unfold expected_recommendations in Hin.
      apply in_firstn in Hin. apply in_map_iff in Hin as (row & Hm & Hr).
      apply filter_In in Hr as [Hr Hu]. now exists row. }
    intros r' recs' H' Hsame. rewrite (Hexp r' recs' H').
    unfold expected_recommendations.
    apply (f_equal (firstn 5)). apply (f_equal (map snd)).
    apply filter_ext_in. exact Hsame.
  - intros root fs.
    destruct (validate_complete_ux_returns root fs)
      as (p & recs & _ & Hrecs & H).
    eexists. eexists. split; [exact H|].
    split; [apply summary_set_summary|].
    cbn [recommendations]. rewrite (Hexp _ _ Hrecs).
    unfold expected_recommendations, unsatisfied.
    apply (f_equal (firstn 5)). apply (f_equal (map snd)).
    apply filter_ext. intros row. now rewrite checks_of_set_summary.
Qed.

Lemma C9_recommendations_witness :
  exists recs,
    _generate_recommendations (run_validators (init ".") Samples.empty_tree)
    = Some recs
    /\ List.length recs = 5%nat
    /\ recs = expected_recommendations
                (run_validators (init ".") Samples.empty_tree).
Proof.
  destruct (_generate_recommendations
              (run_validators (init ".") Samples.empty_tree))
    as [recs|] eqn:E; [|vm_compute in E; discriminate].
  destruct (proj1 C9_recommendations _ recs E) as (Hexp & _).
  exists recs. split; [reflexivity|]. split; [|exact Hexp].
  vm_compute in E. injection E as <-. reflexivity.
Defined.

End Scoring.

(* ================================================================== *)
(** * The linter claims *)

Section Linting.
Import PyPath Dart Lint.

Lemma add_syntax_errors_nil (r : Results) : add_syntax_errors r [] = r.
Proof. destruct r. simpl. now rewrite app_nil_r. Qed.

Lemma add_syntax_errors_app (r : Results) (a b : list Issue) :
  add_syntax_errors (add_syntax_errors r a) b = add_syntax_errors r (a ++ b).
Proof. destruct r. simpl. now rewrite app_assoc. Qed.

Lemma add_import_errors_nil (r : Results) : add_import_errors r [] = r.
Proof. destruct r. simpl. now rewrite app_nil_r. Qed.

Lemma add_import_errors_app (r : Results) (a b : list Issue) :
  add_import_errors (add_import_errors r a) b = add_import_errors r (a ++ b).
Proof. destruct r. simpl. now rewrite app_assoc. Qed.

Lemma syntax_loop_form (file_path : string) (lines : list string) :
  forall i r,
  syntax_loop file_path i lines r
  = add_syntax_errors r (line_issues syntax_line file_path i lines).
Proof.
  induction lines as [|raw rest IH]; intros i r; simpl.
  - now rewrite add_syntax_errors_nil.
  - now rewrite IH, add_syntax_errors_app.
Qed.

Lemma import_loop_form (file_path : string) (lines : list string) :
  forall i r,
  import_loop file_path i lines r
  = add_import_errors r (line_issues import_line file_path i lines).
Proof.
  induction lines as [|raw rest IH]; intros i r; simpl.
  - now rewrite add_import_errors_nil.
  - now rewrite IH, add_import_errors_app.
Qed.

(** What [_validate_dart_file] does to each list. *)
Lemma validate_dart_file_form (self : DartValidator) (e : Entry)
    (r : Results) :
  _validate_dart_file self e r
  = mkResults (files_checked r)
      (syntax_errors r ++ file_syntax e)
      (import_errors r ++ file_imports e)
      (structure_issues r ++ file_structure e)
      (warnings r ++ file_warnings e)
      (summary r).
Proof.
  unfold _validate_dart_file, file_syntax, file_imports, file_structure,
    file_warnings, read_failure.
  destruct (read e) as [content|err].
  - unfold _check_syntax, _check_imports, _check_structure.
    rewrite syntax_loop_form, import_loop_form. now destruct r.
  - destruct r. simpl. now rewrite !app_nil_r.
Qed.

Lemma files_loop_form (self : DartValidator) (files : list Entry) :
  forall r,
  files_loop self files r
  = mkResults (files_checked r + len files)
      (syntax_errors r ++ flat_map file_syntax files)
      (import_errors r ++ flat_map file_imports files)
      (structure_issues r ++ flat_map file_structure files)
      (warnings r ++ flat_map file_warnings files)
      (summary r).
Proof.
  induction files as [|e files IH]; intros r.
  - destruct r. simpl. unfold len. simpl.
    now rewrite !app_nil_r, Z.add_0_r.
  - simpl files_loop. rewrite IH, validate_dart_file_form.
    destruct r. simpl. unfold len. simpl List.length.
    rewrite <- !app_assoc. f_equal. lia.
Qed.

(** The results of [validate_project], list by list. *)
Lemma validate_project_form (self : DartValidator) (entries : list Entry) :
  let files := rglob entries "*.dart" in
  validate_project self entries
  = _generate_summary self
      (mkResults (len files)
         (flat_map file_syntax files) (flat_map file_imports files)
         (flat_map file_structure files) (flat_map file_warnings files)
         None).
Proof.
  intros files. unfold validate_project. fold files.
  now rewrite files_loop_form.
Qed.

Lemma generate_summary_lists (self : DartValidator) (r : Results) :
  let r' := _generate_summary self r in
  files_checked r' = files_checked r
  /\ syntax_errors r' = syntax_errors r
  /\ import_errors r' = import_errors r
  /\ structure_issues r' = structure_issues r
  /\ warnings r' = warnings r
  /\ summary r'
     = Some {| total_files := files_checked r;
               total_issues := issue_count r;
               total_warnings := len (warnings r);
               summary_syntax_errors := len (syntax_errors r);
               summary_import_errors := len (import_errors r);
               summary_structure_issues := len (structure_issues r);
               status := if issue_count r =? 0 then "PASS"
                         else "ISSUES_FOUND" |}.
Proof. destruct r. simpl. repeat split; reflexivity. Qed.

Lemma syntax_line_attribution (file_path : string) (i : Z) (raw : string)
    (x : Issue) :
  In x (syntax_line file_path i raw) -> file x = file_path /\ line x = Some i.
Proof.
  unfold syntax_line, brace_issues, semicolon_issues.
  repeat match goal with
         | |- context [if ?b then _ else _] => destruct b
         end; simpl; intuition (subst; auto).
Qed.

Lemma import_line_attribution (file_path : string) (i : Z) (raw : string)
    (x : Issue) :
  In x (import_line file_path i raw) -> file x = file_path /\ line x = Some i.
Proof.
  unfold import_line.
  repeat match goal with
         | |- context [if ?b then _ else _] => destruct b
         end; simpl; intuition (subst; auto).
Qed.

Section LineLoops.
Variable f : string -> Z -> string -> list Issue.
Variable file_path : string.
Hypothesis f_attribution :
  forall i raw x, In x (f file_path i raw) ->
                  file x = file_path /\ line x = Some i.

Lemma line_issues_attribution (lines : list string) :
  forall i x,
  In x (line_issues f file_path i lines) ->
  file x = file_path /\ exists j, line x = Some j /\ i <= j.
Proof.
  induction lines as [|raw rest IH]; intros i x; simpl; [contradiction|].
  rewrite in_app_iff. intros [H|H].
  - destruct (f_attribution i raw x H) as [Hf Hl].
    split; [exact Hf|]. exists i. split; [exact Hl|lia].
  - destruct (IH (i + 1) x H) as (Hf & j & Hj & Hle).
    split; [exact Hf|]. exists j. split; [exact Hj|lia].
Qed.

Lemma filter_keeps {A : Type} (p : A -> bool) (l : list A) :
  (forall x, In x l -> p x = true) -> filter p l = l.
Proof.
  induction l as [|a l IH]; intros H; simpl; [reflexivity|].
  rewrite (H a (or_introl eq_refl)). f_equal. apply IH.
  intros x Hx. apply H. now right.
Qed.

Lemma filter_drops {A : Type} (p : A -> bool) (l : list A) :
  (forall x, In x l -> p x = false) -> filter p l = [].
Proof.
  induction l as [|a l IH]; intros H; simpl; [reflexivity|].
  rewrite (H a (or_introl eq_refl)). apply IH.
  intros x Hx. apply H. now right.
Qed.

(** The entries that a loop over the lines attributes to one line are
    those of that line's turn. *)
Lemma line_issues_at (lines : list string) :
  forall i n raw,
  nth_error lines n = Some raw ->
  filter (at_line (i + Z.of_nat n)) (line_issues f file_path i lines)
  = f file_path (i + Z.of_nat n) raw.
Proof.
  induction lines as [|raw0 rest IH]; intros i n raw Hn.
  - destruct n; discriminate.
  - simpl line_issues. rewrite filter_app. destruct n as [|n].
    + simpl in Hn. injection Hn as ->.
      change (Z.of_nat 0) with 0. rewrite Z.add_0_r.
      rewrite filter_keeps, filter_drops; [apply app_nil_r| |].
      * intros x Hx.
        destruct (line_issues_attribution rest (i + 1) x Hx)
          as (_ & j & Hj & Hle).
        unfold at_line. rewrite Hj. apply Z.eqb_neq. lia.
      * intros x Hx. destruct (f_attribution i raw x Hx) as [_ Hl].
        unfold at_line. rewrite Hl. apply Z.eqb_refl.
    + simpl in Hn. rewrite filter_drops.
      * cbn [app]. replace (i + Z.of_nat (S n)) with (i + 1 + Z.of_nat n)
          by lia. now apply IH.
      * intros x Hx. destruct (f_attribution i raw0 x Hx) as [_ Hl].
        unfold at_line. rewrite Hl. apply Z.eqb_neq. lia.
Qed.

End LineLoops.

Lemma file_syntax_attribution (e : Entry) (x : Issue) :
  In x (file_syntax e) -> file x = path e.
Proof.
  unfold file_syntax. destruct (read e) as [content|err].
  - intros H.
    now apply (line_issues_attribution syntax_line (path e)
                 (syntax_line_attribution (path e))) in H.
  - simpl. intros [<-|[]]. reflexivity.
Qed.

(** What the turn of a line that strips to [x = compute()] appends. *)
Lemma syntax_line_compute (file_path : string) (i : Z) (raw : string) :
  PyStr.strip raw = "x = compute()" ->
  syntax_line file_path i raw = [missing_semicolon file_path i].
Proof.
  intros H. unfold syntax_line. rewrite H. reflexivity.
Qed.

Lemma import_line_compute (file_path : string) (i : Z) (raw : string) :
  PyStr.strip raw = "x = compute()" -> import_line file_path i raw = [].
Proof.
  intros H. unfold import_line. rewrite H. reflexivity.
Qed.

(** Among the entries of several files with distinct paths, those
    attributed to one file and line are those of that file's line. *)
Lemma attributed_in_project (files : list Entry) (e : Entry) (i : Z) :
  NoDup (map path files) -> In e files ->
  filter (attributed (path e) i) (flat_map file_syntax files)
  = filter (at_line i) (file_syntax e).
Proof.
  induction files as [|e0 files IH]; intros Hnd Hin; [contradiction|].
  inversion Hnd as [|? ? Hnotin Hnd']; subst.
  simpl flat_map. rewrite filter_app. destruct Hin as [->|Hin].
  - rewrite (filter_drops _ (flat_map file_syntax files)).
    + rewrite app_nil_r. apply filter_ext_in. intros x Hx.
      unfold attributed. rewrite (file_syntax_attribution e x Hx).
      now rewrite String.eqb_refl.
    + intros x Hx. apply in_flat_map in Hx as (e' & He' & Hx).
      unfold attributed. rewrite (file_syntax_attribution e' x Hx).
      replace (String.eqb (path e') (path e)) with false; [reflexivity|].
      symmetry. apply String.eqb_neq. intros Heq. apply Hnotin.
      rewrite <- Heq. now apply in_map.
  - rewrite filter_drops; [now apply IH|].
    intros x Hx. unfold attributed.
    rewrite (file_syntax_attribution e0 x Hx).
    replace (String.eqb (path e0) (path e)) with false; [reflexivity|].
    symmetry. apply String.eqb_neq. intros Heq. apply Hnotin.
    rewrite Heq. now apply in_map.
Qed.

(** C6. Let line number [i] of a file strip to [x = compute()].  Then the
    syntax check of the file appends exactly one entry for that line, the
    'Missing semicolon' entry with that file and that line number; the
    import check appends none for it; and in the results of the whole
    project, whose paths are distinct, exactly that one syntax entry is
    attributed to that file and line. *)
Theorem C6_missing_semicolon
    (self : DartValidator) (e : Entry) (content : string) (n : nat)
    (raw : string) :
  read e = ReadOk content ->
  nth_error (PyStr.split content PyStr.newline) n = Some raw ->
  PyStr.strip raw = "x = compute()" ->
  let i := 1 + Z.of_nat n in
  (forall r,
     exists new,
       syntax_errors (_check_syntax (path e) content r)
       = (syntax_errors r ++ new)%list
       /\ filter (at_line i) new = [missing_semicolon (path e) i])
  /\ filter (at_line i) (file_syntax e) = [missing_semicolon (path e) i]
  /\ filter (at_line i) (file_imports e) = []
  /\ (forall entries,
        In e (rglob entries "*.dart") ->
        NoDup (map path (rglob entries "*.dart")) ->
        filter (attributed (path e) i)
          (syntax_errors (validate_project self entries))
        = [missing_semicolon (path e) i]).
Proof.
  intros Hread Hn Hstrip i.
  assert (Hs : filter (at_line i)
                 (line_issues syntax_line (path e) 1
                    (PyStr.split content PyStr.newline))
               = [missing_semicolon (path e) i]).
  { unfold i.
    rewrite (line_issues_at syntax_line (path e)
               (syntax_line_attribution (path e)) _ 1 n raw Hn).
    now apply syntax_line_compute. }
  assert (Hf : filter (at_line i) (file_syntax e)
               = [missing_semicolon (path e) i]).
  { unfold file_syntax. now rewrite Hread. }
  split; [|split; [exact Hf|split]].
  - intros r. eexists. split; [|exact Hs].
    unfold _check_syntax. rewrite syntax_loop_form. now destruct r.
  - unfold file_imports. rewrite Hread. unfold i.
    rewrite (line_issues_at import_line (path e)
               (import_line_attribution (path e)) _ 1 n raw Hn).
    now apply import_line_compute.
  - intros entries Hin Hnd. rewrite validate_project_form.
    destruct (generate_summary_lists self
                (mkResults (len (rglob entries "*.dart"))
                   (flat_map file_syntax (rglob entries "*.dart"))
                   (flat_map file_imports (rglob entries "*.dart"))
                   (flat_map file_structure (rglob entries "*.dart"))
                   (flat_map file_warnings (rglob entries "*.dart"))
                   None)) as (_ & -> & _).
    cbn [syntax_errors].
    now rewrite attributed_in_project.
Qed.

Lemma C6_missing_semicolon_witness :
  filter (attributed "lib/main.dart" 2)
    (syntax_errors (validate_project (init ".") Samples.compute_project))
  = [missing_semicolon "lib/main.dart" 2].
Proof.
  refine (proj2 (proj2 (proj2
           (C6_missing_semicolon (init ".")
              (mkEntry "lib/main.dart" (ReadOk Samples.compute_content))
              Samples.compute_content 1 "  x = compute()"
              eq_refl eq_refl eq_refl))) Samples.compute_project _ _).
  - vm_compute. now left.
  - vm_compute. repeat constructor. intros [].
Defined.

Lemma validate_project_summary (self : DartValidator)
    (entries : list Entry) :
  let r := validate_project self entries in
  summary r
  = Some {| total_files := files_checked r;
            total_issues := issue_count r;
            total_warnings := len (warnings r);
            summary_syntax_errors := len (syntax_errors r);
            summary_import_errors := len (import_errors r);
            summary_structure_issues := len (structure_issues r);
            status := if issue_count r =? 0 then "PASS"
                      else "ISSUES_FOUND" |}
  /\ warnings r = flat_map file_warnings (rglob entries "*.dart")
  /\ syntax_errors r = flat_map file_syntax (rglob entries "*.dart")
  /\ import_errors r = flat_map file_imports (rglob entries "*.dart")
  /\ structure_issues r = flat_map file_structure (rglob entries "*.dart")
  /\ files_checked r = len (rglob entries "*.dart").
Proof.
  intros r. subst r. rewrite validate_project_form.
  destruct (generate_summary_lists self
              (mkResults (len (rglob entries "*.dart"))
                 (flat_map file_syntax (rglob entries "*.dart"))
                 (flat_map file_imports (rglob entries "*.dart"))
                 (flat_map file_structure (rglob entries "*.dart"))
                 (flat_map file_warnings (rglob entries "*.dart"))
                 None)) as (H1 & H2 & H3 & H4 & H5 & H6).
  unfold issue_count. rewrite H1, H2, H3, H4, H5, H6.
  repeat split; reflexivity.
Qed.

Lemma status_pass_iff (n : Z) :
  (if n =? 0 then "PASS" else "ISSUES_FOUND") = "PASS" <-> n = 0.
Proof.
  destruct (n =? 0) eqn:E.
  - apply Z.eqb_eq in E. tauto.
  - apply Z.eqb_neq in E. split; [discriminate|contradiction].
Qed.

(** C10. The status of the summary is 'PASS' exactly when the syntax
    errors, import errors and structure issues together count zero, and
    [main] exits with 0 in exactly that case.  A naming mismatch goes to
    the warnings only: [_check_structure] adds it to no error list, the
    summary counts the warnings apart, and no list of warnings changes the
    status, the count of issues or the exit code. *)
Theorem C10_status_and_exit_code :
  (forall self entries,
     let r := validate_project self entries in
     exists s,
       summary r = Some s
       /\ total_issues s = issue_count r
       /\ (status s = "PASS" <-> issue_count r = 0)
       /\ (status s = "ISSUES_FOUND" <-> issue_count r <> 0)
       /\ total_warnings s = len (warnings r)
       /\ warnings r = flat_map file_warnings (rglob entries "*.dart"))
  /\ (forall prog project_path walk entries,
        walk project_path = Some entries ->
        (main [prog; project_path] walk = 0
         <-> issue_count (validate_project (init project_path) entries) = 0)
        /\ (main [prog; project_path] walk = 1
            <-> issue_count (validate_project (init project_path) entries)
                <> 0))
  /\ (forall file_path content r,
        let r' := _check_structure file_path content r in
        syntax_errors r' = syntax_errors r
        /\ import_errors r' = import_errors r
        /\ structure_issues r'
           = (structure_issues r ++ widget_issues file_path content)%list
        /\ warnings r'
           = (warnings r ++ naming_warnings file_path content)%list)
  /\ (forall self r w,
        exists s s',
          summary (_generate_summary self r) = Some s
          /\ summary (_generate_summary self (add_warnings r w)) = Some s'
          /\ status s' = status s
          /\ total_issues s' = total_issues s
          /\ total_warnings s' = total_warnings s + len w).
Proof.
  split; [|split; [|split]].
  - intros self entries r.
    destruct (validate_project_summary self entries) as (Hs & Hw & _).
    fold r in Hs, Hw. eexists. split; [exact Hs|].
    cbn [total_issues status total_warnings].
    split; [reflexivity|]. split; [apply status_pass_iff|].
    split; [|split; [reflexivity|exact Hw]].
    destruct (issue_count r =? 0) eqn:E.
    + apply Z.eqb_eq in E. split; [discriminate|contradiction].
    + apply Z.eqb_neq in E. tauto.
  - intros prog project_path walk entries Hwalk. unfold main.
    rewrite Hwalk.
    destruct (validate_project_summary (init project_path) entries)
      as (Hs & _).
    rewrite Hs. cbn [total_issues].
    destruct (issue_count _ =? 0) eqn:E.
    + apply Z.eqb_eq in E. split; split; auto; try discriminate.
      intros Hne. contradiction.
    + apply Z.eqb_neq in E. split; split; auto; try discriminate.
      intros H0. contradiction.
  - intros file_path content r. destruct r. simpl. repeat split.
  - intros self r w. destruct r as [n syn imp str ws sm].
    eexists. eexists. split; [reflexivity|]. split; [reflexivity|].
    cbn [status total_issues total_warnings add_warnings syntax_errors
         import_errors structure_issues warnings].
    unfold len. rewrite length_app. repeat split. lia.
Qed.

Lemma C10_status_and_exit_code_witness :
  main ["validate_dart.py"; "app"]
    (fun p => if String.eqb p "app" then Some Samples.misnamed_project
              else None) = 0
  /\ List.length
       (warnings (validate_project (init "app") Samples.misnamed_project))
     = 2%nat.
Proof.
  split; [|vm_compute; reflexivity].
  apply (proj1 (proj2 C10_status_and_exit_code)
           "validate_dart.py" "app"
           (fun p => if String.eqb p "app"
                     then Some Samples.misnamed_project else None)
           Samples.misnamed_project eq_refl).
  vm_compute. reflexivity.
Defined.

End Linting.

(* ================================================================== *)
(** * Unreadable files and the order of the walk *)

Section Robustness.
Import PyPath Catalog Lint.

Lemma Permutation_filter {A : Type} (f : A -> bool) (l l' : list A) :
  Permutation l l' -> Permutation (filter f l) (filter f l').
Proof.
  induction 1 as [|x l l' _ IH|x y l|l l' l'' _ IH1 _ IH2]; simpl.
  - constructor.
  - destruct (f x); [now constructor|exact IH].
  - destruct (f x), (f y); try apply Permutation_refl. apply perm_swap.
  - now apply perm_trans with (filter f l').
Qed.

Lemma Permutation_flat_map_list {A B : Type} (f : A -> list B)
    (l l' : list A) :
  Permutation l l' -> Permutation (flat_map f l) (flat_map f l').
Proof.
  induction 1 as [|x l l' _ IH|x y l|l l' l'' _ IH1 _ IH2]; simpl.
  - constructor.
  - now apply Permutation_app_head.
  - rewrite !app_assoc. apply Permutation_app_tail.
    apply Permutation_app_comm.
  - now apply perm_trans with (flat_map f l').
Qed.

Lemma existsb_Permutation {A : Type} (f : A -> bool) (l l' : list A) :
  Permutation l l' -> existsb f l = existsb f l'.
Proof.
  induction 1 as [|x l l' _ IH|x y l|l l' l'' _ IH1 _ IH2]; simpl.
  - reflexivity.
  - now rewrite IH.
  - now rewrite !orb_assoc, (orb_comm (f y)).
  - now rewrite IH1.
Qed.

Lemma rglob_app (l1 l2 : list Entry) (pat : string) :
  rglob (l1 ++ l2) pat = (rglob l1 pat ++ rglob l2 pat)%list.
Proof. apply filter_app. Qed.

Lemma rglob_cons (e : Entry) (l : list Entry) (pat : string) :
  rglob (e :: l) pat
  = if fnmatch pat (name (path e)) then e :: rglob l pat else rglob l pat.
Proof. reflexivity. Qed.

Lemma any_content_app (p : string -> bool) (l1 l2 : list Entry) :
  any_content p (l1 ++ l2) = any_content p l1 || any_content p l2.
Proof. apply existsb_app. Qed.

Lemma any_content_unreadable (p : string -> bool) (e : Entry)
    (l : list Entry) (err : string) :
  read e = ReadFails err -> any_content p (e :: l) = any_content p l.
Proof. intros H. unfold any_content. simpl. now rewrite H. Qed.

(** An unreadable file shows the content rules nothing. *)
Lemma same_contents_unreadable (pre post : list Entry) (e : Entry)
    (err : string) :
  read e = ReadFails err -> same_contents (pre ++ e :: post) (pre ++ post).
Proof.
  intros H pat p. rewrite !rglob_app, !any_content_app, rglob_cons.
  destruct (fnmatch pat (name (path e))); [|reflexivity].
  now rewrite (any_content_unreadable p e _ err H).
Qed.

Lemma same_contents_Permutation (e1 e2 : list Entry) :
  Permutation e1 e2 -> same_contents e1 e2.
Proof.
  intros H pat p. apply existsb_Permutation.
  now apply Permutation_filter.
Qed.

Lemma same_names_Permutation (e1 e2 : list Entry) :
  Permutation e1 e2 -> same_names e1 e2.
Proof.
  intros H pat _. apply Permutation_length. now apply Permutation_filter.
Qed.

Lemma same_names_unmatched (pre post : list Entry) (e : Entry) :
  matches_no_name_pattern e = true ->
  same_names (pre ++ e :: post) (pre ++ post).
Proof.
  intros H pat Hpat. rewrite !rglob_app, rglob_cons.
  unfold matches_no_name_pattern in H.
  rewrite forallb_forall in H. specialize (H pat Hpat).
  apply negb_true_iff in H. now rewrite H.
Qed.

Lemma nonempty_length {A : Type} (l l' : list A) :
  List.length l = List.length l' -> UX.nonempty l = UX.nonempty l'.
Proof. destruct l, l'; simpl; intros H; congruence. Qed.

Lemma hit_same_contents (rules : list Rule) (e1 e2 : list Entry)
    (k : string) :
  same_contents e1 e2 ->
  hit rules (rglob e1 "*.dart") k = hit rules (rglob e2 "*.dart") k.
Proof.
  intros H. unfold hit. induction rules as [|r rules IH]; simpl.
  - reflexivity.
  - now rewrite IH, (H "*.dart" (snd r)).
Qed.

(** The outcome of a content rule depends on the readable contents
    only. *)
Lemma outcome_content (c : Category) (fs1 fs2 : UX.Tree) (k : string) :
  UX.pubspec fs1 = UX.pubspec fs2 ->
  same_contents (UX.entries fs1) (UX.entries fs2) ->
  name_based c k = false ->
  outcome c fs1 k = outcome c fs2 k.
Proof.
  intros Hp Hc Hk. unfold outcome. rewrite Hp.
  destruct c; cbn [name_based existsb] in Hk;
    repeat match type of Hk with
           | (_ || _)%bool = false =>
               let H := fresh "Hk" in
               apply orb_false_iff in Hk as [H Hk]; rewrite ?H
           end;
    rewrite ?Hk, ?(hit_same_contents _ _ _ k Hc), ?(Hc "*.dart"),
      ?(Hc "*theme*.dart"); reflexivity.
Qed.

(** The outcome of a name rule depends on how many files match. *)
Lemma outcome_names (c : Category) (fs1 fs2 : UX.Tree) (k : string) :
  same_names (UX.entries fs1) (UX.entries fs2) ->
  name_based c k = true ->
  outcome c fs1 k = outcome c fs2 k.
Proof.
  intros Hn Hk. unfold outcome.
  assert (Hlen : forall pat, In pat name_patterns ->
            List.length (rglob (UX.entries fs1) pat)
            = List.length (rglob (UX.entries fs2) pat)) by exact Hn.
  assert (Hne : forall pat, In pat name_patterns ->
            UX.nonempty (rglob (UX.entries fs1) pat)
            = UX.nonempty (rglob (UX.entries fs2) pat)).
  { intros pat Hpat. apply nonempty_length. now apply Hn. }
  destruct c; cbn [name_based existsb] in Hk; try discriminate;
    repeat match goal with
           | |- context [String.eqb k ?n] =>
               destruct (String.eqb k n) eqn:?
           end;
    try discriminate;
    rewrite ?(Hlen "premium_*.dart") by (simpl; tauto);
    try reflexivity;
    apply Hne; simpl; tauto.
Qed.

Lemma checks_on_same (c : Category) (fs1 fs2 : UX.Tree) :
  UX.pubspec fs1 = UX.pubspec fs2 ->
  same_contents (UX.entries fs1) (UX.entries fs2) ->
  same_names (UX.entries fs1) (UX.entries fs2) ->
  checks_on c fs1 = checks_on c fs2.
Proof.
  intros Hp Hc Hn. rewrite !checks_on_form. apply map_ext. intros k.
  f_equal. destruct (name_based c k) eqn:E.
  - now apply outcome_names.
  - now apply outcome_content.
Qed.

Lemma run_validators_same (self : UX.IndustrialUXValidator)
    (fs1 fs2 : UX.Tree) :
  (forall c, checks_on c fs1 = checks_on c fs2) ->
  run_validators self fs1 = run_validators self fs2.
Proof.
  intros H. unfold run_validators. cbn [fold_left all validate].
  unfold UX._validate_material_design, UX._validate_accessibility,
    UX._validate_performance_ux, UX._validate_animations,
    UX._validate_theming, UX._validate_responsive_design,
    UX._validate_user_flows.
  pose proof (H MaterialDesign) as H1. pose proof (H Accessibility) as H2.
  pose proof (H Performance) as H3. pose proof (H Animations) as H4.
  pose proof (H Theming) as H5. pose proof (H ResponsiveDesign) as H6.
  pose proof (H UserFlows) as H7. cbn [checks_on] in *.
  now rewrite H1, H2, H3, H4, H5, H6, H7.
Qed.

Lemma validate_complete_ux_same (self : UX.IndustrialUXValidator)
    (fs1 fs2 : UX.Tree) :
  UX.pubspec fs1 = UX.pubspec fs2 ->
  same_contents (UX.entries fs1) (UX.entries fs2) ->
  same_names (UX.entries fs1) (UX.entries fs2) ->
  UX.validate_complete_ux self fs1 = UX.validate_complete_ux self fs2.
Proof.
  intros Hp Hc Hn. rewrite !validate_complete_ux_run.
  rewrite (run_validators_same self fs1 fs2); [reflexivity|].
  intros c. now apply checks_on_same.
Qed.

Lemma len_app {A : Type} (a b : list A) :
  Dart.len (a ++ b) = Dart.len a + Dart.len b.
Proof. unfold Dart.len. rewrite length_app. lia. Qed.

Lemma len_Permutation {A : Type} (a b : list A) :
  Permutation a b -> Dart.len a = Dart.len b.
Proof. intros H. unfold Dart.len. now rewrite (Permutation_length H). Qed.

Lemma validations_of_run (self : UX.IndustrialUXValidator) (fs : UX.Tree)
    (s : UX.Summary) :
  UX.validations (UX.set_summary (run_validators self fs) s) = [].
Proof.
  assert (H : UX.validations (run_validators self fs) = []) by reflexivity.
  revert H. generalize (run_validators self fs). intros r H.
  destruct r. exact H.
Qed.

Lemma unreadable_contributions (e : Entry) (err : string) :
  read e = ReadFails err ->
  file_syntax e = [read_failure e err]
  /\ file_imports e = [] /\ file_structure e = [] /\ file_warnings e = [].
Proof.
  intros H. unfold file_syntax, file_imports, file_structure, file_warnings.
  rewrite H. repeat split.
Qed.

(** C4 as stated fails.  With one unreadable file named like a theme, the
    linter records no warning for it but a syntax error, and the Material
    Design points differ from those of the tree without the file. *)
Lemma C4_counterexample :
  Dart.warnings
    (Dart.validate_project (Dart.init ".") [Samples.locked_theme])
  = Dart.warnings (Dart.validate_project (Dart.init ".") [])
  /\ Dart.syntax_errors
       (Dart.validate_project (Dart.init ".") [Samples.locked_theme])
     = [read_failure Samples.locked_theme
          "[Errno 13] Permission denied: 'lib/app_theme.dart'"]
  /\ option_map Dart.status
       (Dart.summary
          (Dart.validate_project (Dart.init ".") [Samples.locked_theme]))
     = Some "ISSUES_FOUND"
  /\ points MaterialDesign (UX.init ".")
       (UX.mkTree [Samples.locked_theme] None) UX.initial_results = 4
  /\ points MaterialDesign (UX.init ".") (UX.mkTree [] None)
       UX.initial_results = 0.
Proof. vm_compute. repeat split; reflexivity. Qed.

(** C4, amended.  A file that cannot be read is recorded by the linter as
    one syntax error 'Failed to read file: ...' without a line, and as no
    warning; it adds nothing else, the run goes on over the other files
    and returns a summary, whose status is then 'ISSUES_FOUND'.  The UX
    validator returns as well; the outcome of every content check is the
    one of the tree without the file; and when the file's name matches
    none of the name patterns, the whole result, category scores
    included, is the one of the tree without the file. *)
Theorem C4_unreadable_file
    (root : string) (pre post : list Entry) (e : Entry) (err : string)
    (pub : option ReadResult) :
  read e = ReadFails err ->
  let with_file := (pre ++ e :: post)%list in
  let without := (pre ++ post)%list in
  (fnmatch "*.dart" (name (path e)) = true ->
   let r1 := Dart.validate_project (Dart.init root) with_file in
   let r0 := Dart.validate_project (Dart.init root) without in
   Dart.warnings r1 = Dart.warnings r0
   /\ Dart.import_errors r1 = Dart.import_errors r0
   /\ Dart.structure_issues r1 = Dart.structure_issues r0
   /\ (exists a b,
         Dart.syntax_errors r0 = (a ++ b)%list
         /\ Dart.syntax_errors r1 = (a ++ read_failure e err :: b)%list)
   /\ Dart.files_checked r1 = Dart.files_checked r0 + 1
   /\ issue_count r1 = issue_count r0 + 1
   /\ option_map Dart.status (Dart.summary r1) = Some "ISSUES_FOUND")
  /\ exists rf1 rf0,
       UX.validate_complete_ux (UX.init root) (UX.mkTree with_file pub)
       = Some rf1
       /\ UX.validate_complete_ux (UX.init root) (UX.mkTree without pub)
          = Some rf0
       /\ UX.validations rf1 = []
       /\ (forall c k,
             name_based c k = false ->
             Dict.get (checks_of c rf1) k = Dict.get (checks_of c rf0) k)
       /\ (matches_no_name_pattern e = true -> rf1 = rf0).
Proof.
  intros Hread with_file without. split.
  - intros Hdart r1 r0.
    destruct (validate_project_summary (Dart.init root) with_file)
      as (Hs1 & Hw1 & Hy1 & Hi1 & Ht1 & Hf1).
    destruct (validate_project_summary (Dart.init root) without)
      as (Hs0 & Hw0 & Hy0 & Hi0 & Ht0 & Hf0).
    fold r1 in Hs1, Hw1, Hy1, Hi1, Ht1, Hf1.
    fold r0 in Hs0, Hw0, Hy0, Hi0, Ht0, Hf0.
    assert (Hfiles : rglob with_file "*.dart"
                     = (rglob pre "*.dart" ++ e :: rglob post "*.dart")%list).
    { unfold with_file. now rewrite rglob_app, rglob_cons, Hdart. }
    assert (Hfiles0 : rglob without "*.dart"
                      = (rglob pre "*.dart" ++ rglob post "*.dart")%list).
    { unfold without. now rewrite rglob_app. }
    rewrite Hfiles in Hw1, Hy1, Hi1, Ht1, Hf1.
    rewrite Hfiles0 in Hw0, Hy0, Hi0, Ht0, Hf0.
    rewrite flat_map_app in Hw1, Hy1, Hi1, Ht1, Hw0, Hy0, Hi0, Ht0.
    cbn [flat_map] in Hw1, Hy1, Hi1, Ht1.
    destruct (unreadable_contributions e err Hread)
      as (Hey & Hei & Het & Hew).
    rewrite Hew in Hw1. rewrite Hei in Hi1. rewrite Het in Ht1.
    rewrite Hey in Hy1. cbn [app] in Hw1, Hi1, Ht1, Hy1.
    assert (Hcount : issue_count r1 = issue_count r0 + 1).
    { unfold issue_count. rewrite Hy1, Hi1, Ht1, Hy0, Hi0, Ht0.
      rewrite !len_app. unfold Dart.len at 2. simpl List.length.
      unfold Dart.len. lia. }
    split; [now rewrite Hw1, Hw0|]. split; [now rewrite Hi1, Hi0|].
    split; [now rewrite Ht1, Ht0|].
    split; [eexists; eexists; split; [exact Hy0|exact Hy1]|].
    split.
    { rewrite Hf1, Hf0, !len_app. unfold Dart.len. simpl List.length. lia. }
    split; [exact Hcount|].
    rewrite Hs1. cbn [option_map Dart.status].
    destruct (issue_count r1 =? 0) eqn:E; [|reflexivity].
    apply Z.eqb_eq in E. rewrite Hcount in E. unfold issue_count, Dart.len in E.
    lia.
  - destruct (validate_complete_ux_returns root (UX.mkTree with_file pub))
      as (p1 & recs1 & _ & _ & H1).
    destruct (validate_complete_ux_returns root (UX.mkTree without pub))
      as (p0 & recs0 & _ & _ & H0).
    eexists. eexists. split; [exact H1|]. split; [exact H0|].
    split; [apply validations_of_run|]. split.
    + intros c k Hk. rewrite !checks_of_set_summary.
      rewrite !run_validators_checks, !get_checks_on.
      rewrite (outcome_content c (UX.mkTree with_file pub)
                 (UX.mkTree without pub) k eq_refl); [reflexivity| |exact Hk].
      exact (same_contents_unreadable pre post e err Hread).
    + intros Hname. apply some_inj. rewrite <- H1, <- H0.
      apply validate_complete_ux_same; [reflexivity| |].
      * exact (same_contents_unreadable pre post e err Hread).
      * exact (same_names_unmatched pre post e Hname).
Qed.

Lemma C4_unreadable_file_witness :
  issue_count
    (Dart.validate_project (Dart.init ".")
       [Samples.widget_file; Samples.locked_file])
  = issue_count
      (Dart.validate_project (Dart.init ".") [Samples.widget_file]) + 1
  /\ UX.validate_complete_ux (UX.init ".")
       (UX.mkTree [Samples.widget_file; Samples.locked_file] None)
     = UX.validate_complete_ux (UX.init ".")
         (UX.mkTree [Samples.widget_file] None).
Proof.
  pose proof (C4_unreadable_file "." [Samples.widget_file] []
                Samples.locked_file
                "[Errno 13] Permission denied: 'lib/secret.dart'" None
                eq_refl) as [Hd (rf1 & rf0 & H1 & H0 & _ & _ & Heq)].
  split.
  - apply (Hd eq_refl).
  - cbn [app] in H1, H0. rewrite H1, H0. f_equal. apply Heq.
    vm_compute. reflexivity.
Defined.



End Robustness.

(* ================================================================== *)
(** * The report of the UX script *)

Section MainFacts.
Import PyPath UX Catalog UXMain MainSpec.

Lemma failed_count (d : Dict.t) :
  Z.of_nat (List.length (failed_checks d)) = Dict.len d - Dict.sum_values d.
Proof.
  unfold failed_checks, Dict.len. rewrite length_map.
  induction d as [|[k b] d IH].
  - reflexivity.
  - rewrite sum_values_cons. destruct b; simpl filter; simpl List.length;
      unfold Dict.int_of_bool; lia.
Qed.

Lemma status_agrees_all :
  forallb (fun c => forallb (status_agrees c) [0; 1; 2; 3; 4; 5]) all = true.
Proof. vm_compute. reflexivity. Qed.

Lemma breakdown_status_by_failed (c : Category) (sat : Z) :
  0 <= sat <= 5 ->
  breakdown_status (sat * (max_points c / 5)) (max_points c)
  = status_by_failed (5 - sat).
Proof.
  intros H.
  assert (Hc : In c all) by (destruct c; simpl; tauto).
  pose proof (proj1 (forallb_forall _ _) status_agrees_all c Hc) as Hs.
  cbv beta in Hs.
  assert (Hin : In sat [0; 1; 2; 3; 4; 5]) by (simpl; lia).
  pose proof (proj1 (forallb_forall _ _) Hs sat Hin) as Hsat.
  now apply String.eqb_eq in Hsat.
Qed.

Lemma nonempty_length_pos {A : Type} (l : list A) :
  nonempty l = (1 <=? Z.of_nat (List.length l)).
Proof. destruct l; simpl; [reflexivity|]. symmetry. apply Z.leb_le. lia. Qed.

Lemma breakdown_row_form (c : Category) (fs : Tree) :
  breakdown_row (label c, checks_on c fs, max_points c)
  = Some (expected_row fs c).
Proof.
  unfold breakdown_row, breakdown_score, expected_row.
  rewrite len_checks_on. cbn [Z.eqb].
  pose proof (failed_count (checks_on c fs)) as Hf.
  rewrite len_checks_on in Hf.
  pose proof (sum_values_bounds (checks_on c fs)) as Hb.
  rewrite len_checks_on in Hb.
  replace (Dict.sum_values (checks_on c fs))
    with (5 - Z.of_nat (List.length (failed_checks (checks_on c fs))))
    by lia.
  rewrite breakdown_status_by_failed by lia.
  rewrite nonempty_length_pos.
  repeat f_equal. lia.
Qed.

Lemma categories_of_run (self : IndustrialUXValidator) (fs : Tree)
    (s : Summary) :
  categories (set_summary (run_validators self fs) s)
  = map (fun c => (label c, checks_on c fs, max_points c)) all.
Proof.
  rewrite categories_rows. apply map_ext. intros c.
  now rewrite checks_of_set_summary, run_validators_checks.
Qed.

Lemma breakdown_loop_form (fs : Tree) :
  breakdown_loop (map (fun c => (label c, checks_on c fs, max_points c)) all)
  = Some (map (expected_row fs) all).
Proof.
  unfold all. cbn [map breakdown_loop].
  now rewrite !breakdown_row_form.
Qed.

(** What [main] returns. *)
Lemma main_form (fs : Tree) :
  exists p recs,
    percentage_of (Z.min (total_points (init ".") fs) 100) 100 = Some p
    /\ validate_complete_ux (init ".") fs
       = Some (set_summary (run_validators (init ".") fs)
                 (mkSummary (Z.min (total_points (init ".") fs) 100) 100 p
                    (fst (grade_and_status p)) (snd (grade_and_status p))
                    recs))
    /\ main fs
       = Some (mkOutput
                 (mkSummary (Z.min (total_points (init ".") fs) 100) 100 p
                    (fst (grade_and_status p)) (snd (grade_and_status p))
                    recs)
                 (map (expected_row fs) all) recs (closing_message p)
                 (float_ge p (float_of_int 90))).
Proof.
  destruct (validate_complete_ux_returns "." fs) as (p & recs & Hp & _ & H).
  exists p, recs. split; [exact Hp|]. split; [exact H|].
  unfold main. rewrite H. rewrite summary_set_summary.
  rewrite categories_of_run, breakdown_loop_form. reflexivity.
Qed.

Lemma Forall2_map_r {A B : Type} (P : A -> B -> Prop) (f : A -> B)
    (l : list A) :
  (forall x, In x l -> P x (f x)) -> Forall2 P l (map f l).
Proof.
  induction l as [|a l IH]; intros H; simpl; constructor.
  - apply H. now left.
  - apply IH. intros x Hx. apply H. now right.
Qed.

Lemma status_by_failed_cases (n : Z) :
  (status_by_failed n = "✅" <-> n <= 1)
  /\ (status_by_failed n = "⚠️" <-> n = 2)
  /\ (status_by_failed n = "❌" <-> 3 <= n).
Proof.
  unfold status_by_failed.
  destruct (n <=? 1) eqn:E1; [apply Z.leb_le in E1|apply Z.leb_gt in E1].
  - repeat split; intros; try discriminate; try reflexivity; lia.
  - destruct (n =? 2) eqn:E2; [apply Z.eqb_eq in E2|apply Z.eqb_neq in E2].
    + repeat split; intros; try discriminate; try reflexivity; lia.
    + repeat split; intros; try discriminate; try reflexivity; lia.
Qed.

(** X1. [main] never raises, and the mark of each category in its
    breakdown counts the failed checks: the green mark with at most one
    failed check, the warning mark with exactly two, the red mark with
    three or more; the line of missing checks is printed with one or two
    failed checks only. *)
Theorem main_breakdown_by_failures (fs : Tree) :
  exists out,
    main fs = Some out
    /\ Forall2
         (fun c row =>
            let failed := failed_checks (checks_on c fs) in
            let n := Z.of_nat (List.length failed) in
            n = 5 - satisfied_count (checks_on c fs)
            /\ row_name row = label c
            /\ row_max row = max_points c
            /\ row_score row = points c (init ".") fs initial_results
            /\ (row_status row = "✅" <-> n <= 1)
            /\ (row_status row = "⚠️" <-> n = 2)
            /\ (row_status row = "❌" <-> 3 <= n)
            /\ (1 <= n <= 2 ->
                row_missing row
                = Some ("    Missing: " ++ PyStr.join ", " failed))
            /\ (n = 0 \/ 3 <= n -> row_missing row = None))
         all (out_breakdown out).
Proof.
  destruct (main_form fs) as (p & recs & _ & _ & H).
  eexists. split; [exact H|]. cbn [out_breakdown].
  apply Forall2_map_r. intros c _. cbv zeta.
  pose proof (failed_count (checks_on c fs)) as Hf.
  rewrite len_checks_on, sum_values_count in Hf.
  unfold expected_row. cbn [row_name row_max row_score row_status row_missing].
  split; [exact Hf|]. split; [reflexivity|]. split; [reflexivity|].
  split.
  { rewrite points_form, sum_values_count. rewrite Hf. f_equal. lia. }
  destruct (status_by_failed_cases
              (Z.of_nat (List.length (failed_checks (checks_on c fs)))))
    as (H1 & H2 & H3).
  split; [exact H1|]. split; [exact H2|]. split; [exact H3|].
  split.
  - intros [Ha Hb]. apply Z.leb_le in Ha, Hb. now rewrite Ha, Hb.
  - intros [H0|H3'].
    + rewrite H0. reflexivity.
    + replace (_ <=? 2) with false; [now rewrite andb_false_r|].
      symmetry. apply Z.leb_gt. lia.
Qed.

Lemma sum_expected_rows (fs : Tree) :
  fold_right Z.add 0 (map row_score (map (expected_row fs) all))
  = total_points (init ".") fs.
Proof.
  unfold total_points. rewrite map_map. f_equal. apply map_ext.
  intros c. unfold expected_row. cbn [row_score].
  rewrite points_form.
  pose proof (failed_count (checks_on c fs)) as Hf.
  rewrite len_checks_on in Hf. f_equal. lia.
Qed.

(** X2. The scores of the breakdown add up to the final score, which is
    the raw score: the cut at [max_score] never takes anything away. *)
Theorem breakdown_sums_to_final_score (fs : Tree) (out : MainOutput) :
  main fs = Some out ->
  fold_right Z.add 0 (map row_score (out_breakdown out))
  = final_score (out_summary out)
  /\ final_score (out_summary out) = total_points (init ".") fs
  /\ forall rf, validate_complete_ux (init ".") fs = Some rf ->
                final_score (out_summary out) = ux_score rf.
Proof.
  intros Hm. destruct (main_form fs) as (p & recs & _ & Hv & H).
  rewrite H in Hm. apply some_inj in Hm. subst out.
  cbn [out_breakdown out_summary final_score].
  pose proof (total_points_bounds (init ".") fs) as Hb.
  rewrite sum_expected_rows.
  replace (Z.min (total_points (init ".") fs) 100)
    with (total_points (init ".") fs) by lia.
  split; [reflexivity|]. split; [reflexivity|].
  intros rf Hrf. symmetry. now apply score_of_final.
Qed.

Lemma breakdown_sums_to_final_score_witness :
  exists out,
    main Samples.hero_tree = Some out
    /\ fold_right Z.add 0 (map row_score (out_breakdown out)) = 2
    /\ final_score (out_summary out) = 2.
Proof.
  destruct (main Samples.hero_tree) as [out|] eqn:E;
    [|vm_compute in E; discriminate].
  destruct (breakdown_sums_to_final_score Samples.hero_tree out E)
    as (Hs & Hf & _).
  exists out. split; [reflexivity|].
  rewrite Hs, Hf. split; vm_compute; reflexivity.
Defined.

Lemma closing_agrees_upto_100 :
  forallb (fun n => closing_agrees (Z.of_nat n)) (seq 0 101) = true.
Proof. vm_compute. reflexivity. Qed.

Lemma closing_of_final (final : Z) :
  0 <= final <= 100 ->
  exists p,
    percentage_of final 100 = Some p
    /\ float_ge p (float_of_int 90) = (90 <=? final)
    /\ closing_message p
       = (if 90 <=? final
          then "🎉 CONGRATULATIONS! This app meets INDUSTRIAL-GRADE UX standards!"
          else if 80 <=? final
          then "👍 Great work! This app has PROFESSIONAL-GRADE UX quality."
          else "⚠️ UX improvements needed to meet industrial standards.").
Proof.
  intros H.
  pose proof (proj1 (forallb_forall _ _) closing_agrees_upto_100
                (Z.to_nat final)) as Hn.
  cbv beta in Hn. rewrite Z2Nat.id in Hn by lia.
  assert (Hin : In (Z.to_nat final) (seq 0 101)) by (apply in_seq; lia).
  specialize (Hn Hin). unfold closing_agrees in Hn.
  destruct (percentage_of final 100) as [p|]; [|discriminate].
  apply andb_true_iff in Hn as [H1 H2].
  exists p. split; [reflexivity|]. split.
  - now apply Bool.eqb_prop.
  - now apply String.eqb_eq.
Qed.

(** X3. The script exits with 0 exactly when the final score is at least
    90, which is exactly when the grade is 'A+ (Industrial Grade)'; any
    other run exits with 1.  The last message congratulates from 90 on,
    praises from 80 to 89 and asks for improvements below 80. *)
Theorem script_exit_code (fs : Tree) :
  exists out,
    main fs = Some out
    /\ (script fs = 0 <-> 90 <= final_score (out_summary out))
    /\ (script fs = 1 <-> final_score (out_summary out) < 90)
    /\ (script fs = 0 <-> grade (out_summary out) = "A+ (Industrial Grade)")
    /\ out_message out
       = (if 90 <=? final_score (out_summary out)
          then "🎉 CONGRATULATIONS! This app meets INDUSTRIAL-GRADE UX standards!"
          else if 80 <=? final_score (out_summary out)
          then "👍 Great work! This app has PROFESSIONAL-GRADE UX quality."
          else "⚠️ UX improvements needed to meet industrial standards.").
Proof.
  destruct (main_form fs) as (p & recs & Hp & _ & H).
  eexists. split; [exact H|].
  unfold script. rewrite H.
  cbn [out_success out_summary out_message final_score grade].
  pose proof (total_points_bounds (init ".") fs) as Hb.
  set (final := Z.min (total_points (init ".") fs) 100) in *.
  assert (Hf : 0 <= final <= 100) by (unfold final; lia).
  destruct (closing_of_final final Hf) as (p' & Hp' & Hge & Hmsg).
  rewrite Hp in Hp'. apply some_inj in Hp'. subst p'.
  destruct (grade_of_final final Hf) as (p' & Hp' & Hg).
  rewrite Hp in Hp'. apply some_inj in Hp'. subst p'.
  rewrite Hge, Hmsg, Hg.
  unfold table_lookup, grade_table, meets.
  replace (90 * 100 <=? 100 * final) with (90 <=? final)
    by (apply eq_true_iff_eq; rewrite !Z.leb_le; lia).
  destruct (90 <=? final) eqn:E;
    [apply Z.leb_le in E|apply Z.leb_gt in E].
  - repeat split; intros; try reflexivity; try lia; try discriminate.
  - repeat split; intros; try reflexivity; try lia; try discriminate.
    destruct (80 * 100 <=? 100 * final), (70 * 100 <=? 100 * final),
      (60 * 100 <=? 100 * final); discriminate.
Qed.

Lemma recommendations_expected (r : Results) (recs : list string) :
  _generate_recommendations r = Some recs ->
  recs = expected_recommendations r.
Proof.
  unfold _generate_recommendations, expected_recommendations, unsatisfied,
    remediation_catalog.
  cbn [filter fst snd checks_of].
  destruct (Dict.get (material_design r) "theme_implementation")
    as [b1|]; [|discriminate].
  destruct (Dict.get (material_design r) "component_usage")
    as [b2|]; [|discriminate].
  destruct (Dict.get (accessibility r) "semantic_labels")
    as [b3|]; [|discriminate].
  destruct (Dict.get (accessibility r) "focus_management")
    as [b4|]; [|discriminate].
  destruct (Dict.get (performance r) "image_caching")
    as [b5|]; [|discriminate].
  destruct (Dict.get (performance r) "lazy_loading")
    as [b6|]; [|discriminate].
  intros H. apply some_inj in H. subst recs.
  destruct b1, b2, b3, b4, b5, b6; reflexivity.
Qed.

Lemma filter_length_le {A : Type} (f : A -> bool) (l : list A) :
  (List.length (filter f l) <= List.length l)%nat.
Proof.
  induction l as [|a l IH]; simpl; [lia|]. destruct (f a); simpl; lia.
Qed.

Lemma filter_nil_iff {A : Type} (f : A -> bool) (l : list A) :
  filter f l = [] <-> forall x, In x l -> f x = false.
Proof.
  induction l as [|a l IH]; simpl.
  - split; [intros _ x []|reflexivity].
  - destruct (f a) eqn:E.
    + split; [discriminate|]. intros Hall.
      rewrite (Hall a (or_introl eq_refl)) in E. discriminate.
    + rewrite IH. split.
      * intros Hall x [<-|Hx]; [exact E|now apply Hall].
      * intros Hall x Hx. apply Hall. now right.
Qed.

Lemma filter_full {A : Type} (f : A -> bool) (l : list A) :
  List.length (filter f l) = List.length l -> filter f l = l.
Proof.
  induction l as [|a l IH]; simpl; [reflexivity|].
  pose proof (filter_length_le f l) as Hle.
  destruct (f a); simpl; intros Hlen.
  - f_equal. apply IH. lia.
  - lia.
Qed.

(** X4. The number of recommendations is the number of unsatisfied checks
    among the six that have a string, cut at five.  With at most five of
    them unsatisfied every one gets its string; with all six unsatisfied
    the string of the last one, lazy loading, is left out.  The list is
    empty exactly when the six checks all hold. *)
Theorem recommendations_count (r : Results) (recs : list string) :
  _generate_recommendations r = Some recs ->
  let missing := filter (unsatisfied r) remediation_catalog in
  List.length recs = Nat.min 5 (List.length missing)
  /\ ((List.length missing <= 5)%nat -> recs = map snd missing)
  /\ (List.length missing = 6%nat ->
      recs = ["Implement comprehensive Material Design 3 theme";
              "Create more premium UI components";
              "Add semantic labels for screen readers";
              "Implement proper focus management";
              "Implement advanced image caching system"])
  /\ (recs = [] <->
      forall row, In row remediation_catalog -> unsatisfied r row = false).
Proof.
  intros H missing. apply recommendations_expected in H. subst recs.
  unfold expected_recommendations. fold missing.
  split; [now rewrite length_firstn, length_map|].
  split.
  { intros Hle. apply firstn_all2. now rewrite length_map. }
  split.
  { intros H6. unfold missing in *.
    rewrite (filter_full _ _ H6). reflexivity. }
  rewrite <- (filter_nil_iff (unsatisfied r) remediation_catalog).
  fold missing. destruct missing as [|row rest]; simpl.
  - split; reflexivity.
  - split; discriminate.
Qed.

Lemma recommendations_count_witness :
  exists recs,
    _generate_recommendations (run_validators (init ".") Samples.full_tree)
    = Some recs
    /\ recs = [].
Proof.
  destruct (_generate_recommendations
              (run_validators (init ".") Samples.full_tree))
    as [recs|] eqn:E; [|vm_compute in E; discriminate].
  exists recs. split; [reflexivity|].
  apply (proj2 (proj2 (proj2 (recommendations_count _ recs E)))).
  intros row Hin. simpl in Hin.
  repeat (destruct Hin as [<-|Hin]; [vm_compute; reflexivity|]).
  contradiction.
Defined.

(** X5. [_generate_recommendations] raises (a [KeyError]) exactly when
    one of the six checks it reads is missing from its dict; otherwise it
    returns a list. *)
Theorem recommendations_key_error (r : Results) :
  _generate_recommendations r = None
  <-> exists row, In row remediation_catalog
                  /\ Dict.get (checks_of (fst (fst row)) r) (snd (fst row))
                     = None.
Proof.
  unfold _generate_recommendations, remediation_catalog. split.
  - destruct (Dict.get (material_design r) "theme_implementation")
      as [b1|] eqn:E1;
      [|intros _; eexists; split; [left; reflexivity|exact E1]].
    destruct (Dict.get (material_design r) "component_usage")
      as [b2|] eqn:E2;
      [|intros _; eexists; split; [right; left; reflexivity|exact E2]].
    destruct (Dict.get (accessibility r) "semantic_labels")
      as [b3|] eqn:E3;
      [|intros _; eexists; split; [do 2 right; left; reflexivity|exact E3]].
    destruct (Dict.get (accessibility r) "focus_management")
      as [b4|] eqn:E4;
      [|intros _; eexists; split; [do 3 right; left; reflexivity|exact E4]].
    destruct (Dict.get (performance r) "image_caching")
      as [b5|] eqn:E5;
      [|intros _; eexists; split; [do 4 right; left; reflexivity|exact E5]].
    destruct (Dict.get (performance r) "lazy_loading")
      as [b6|] eqn:E6;
      [|intros _; eexists; split; [do 5 right; left; reflexivity|exact E6]].
    discriminate.
  - intros (row & Hin & Hget). simpl in Hin.
    repeat (destruct Hin as [<-|Hin];
            [cbn [fst snd checks_of] in Hget; rewrite Hget;
             repeat match goal with
                    | |- context [match Dict.get ?d ?k with _ => _ end] =>
                        destruct (Dict.get d k)
                    end; reflexivity|]).
    contradiction.
Qed.

End MainFacts.

(* ================================================================== *)
(** * The walked tree and the UX checks *)

Section GlobFacts.
Import PyPath TreeSpec.

Lemma fnmatch_star (pat s : string) :
  fnmatch (String "*" pat) s
  = fnmatch pat s
    || match s with
       | EmptyString => false
       | String _ s' => fnmatch (String "*" pat) s'
       end.
Proof. destruct s; reflexivity. Qed.

Lemma fnmatch_char (p : ascii) (pat s : string) :
  Ascii.eqb p "*" = false ->
  fnmatch (String p pat) s
  = match s with
    | EmptyString => false
    | String c s' => Ascii.eqb c p && fnmatch pat s'
    end.
Proof. intros H. simpl. rewrite H. destruct s; reflexivity. Qed.

(** A pattern without a star matches itself only. *)
Lemma fnmatch_literal (lit : string) :
  star_free lit = true ->
  forall s, fnmatch lit s = true <-> s = lit.
Proof.
  induction lit as [|p lit IH]; intros Hsf s.
  - destruct s; simpl; split; intros H; try reflexivity; discriminate.
  - simpl in Hsf. apply andb_true_iff in Hsf as [Hp Hsf].
    apply negb_true_iff in Hp. rewrite (fnmatch_char p lit s Hp).
    destruct s as [|c s]; [split; discriminate|].
    rewrite andb_true_iff, (IH Hsf s). split.
    + intros [Hc ->]. apply Ascii.eqb_eq in Hc. now subst.
    + intros H. injection H as -> ->. split; [apply Ascii.eqb_refl|reflexivity].
Qed.

(** A star matches any run of characters. *)
Lemma fnmatch_star_iff (pat : string) :
  forall s,
  fnmatch (String "*" pat) s = true
  <-> exists a b, s = a ++ b /\ fnmatch pat b = true.
Proof.
  induction s as [|c s IH]; rewrite fnmatch_star, orb_true_iff.
  - split.
    + intros [H|H]; [|discriminate]. now exists "", "".
    + intros (a & b & Heq & H). left. symmetry in Heq.
      destruct (append_empty_inv _ _ Heq) as [_ ->]. exact H.
  - split.
    + intros [H|H].
      * exists "", (String c s). now split.
      * apply IH in H as (a & b & -> & H). exists (String c a), b. now split.
    + intros (a & b & Heq & H). destruct a as [|d a]; simpl in Heq.
      * left. now subst.
      * right. injection Heq as -> ->. apply IH. now exists a, b.
Qed.

(** A name that matches a pattern ending in a literal ends in it. *)
Lemma fnmatch_suffix (lit : string) :
  star_free lit = true ->
  forall pat s,
  fnmatch (pat ++ lit) s = true -> exists pre, s = pre ++ lit.
Proof.
  intros Hsf. induction pat as [|p pat IH]; intros s H.
  - simpl in H. apply (fnmatch_literal lit Hsf) in H. now exists "".
  - change ((String p pat) ++ lit) with (String p (pat ++ lit)) in H.
    destruct (Ascii.eqb p "*") eqn:Hp.
    + apply Ascii.eqb_eq in Hp. subst p.
      apply fnmatch_star_iff in H as (a & b & -> & H).
      apply IH in H as (pre & ->). exists (a ++ pre).
      now rewrite append_assoc.
    + rewrite (fnmatch_char p _ s Hp) in H.
      destruct s as [|c s]; [discriminate|].
      apply andb_true_iff in H as [_ H].
      apply IH in H as (pre & ->). now exists (String c pre).
Qed.

Lemma fnmatch_star_suffix (lit : string) :
  star_free lit = true ->
  forall s, fnmatch (String "*" lit) s = true <-> exists pre, s = pre ++ lit.
Proof.
  intros Hsf s. rewrite fnmatch_star_iff. split.
  - intros (a & b & -> & H). apply (fnmatch_literal lit Hsf) in H.
    subst. now exists a.
  - intros (pre & ->). exists pre, lit. split; [reflexivity|].
    now apply (fnmatch_literal lit Hsf).
Qed.

(** Every pattern of the validator selects [.dart] files only. *)
Lemma used_pattern_dart (pat name : string) :
  In pat used_patterns -> fnmatch pat name = true ->
  fnmatch "*.dart" name = true.
Proof.
  intros Hin H. apply (fnmatch_star_suffix ".dart" eq_refl).
  unfold used_patterns, Catalog.name_patterns in Hin. simpl in Hin.
  destruct Hin as [<-|[<-|[<-|[<-|[<-|[<-|[<-|[<-|[]]]]]]]]].
  - now apply (fnmatch_star_suffix ".dart" eq_refl).
  - exact (fnmatch_suffix ".dart" eq_refl "*theme*" name H).
  - exact (fnmatch_suffix ".dart" eq_refl "*color*" name H).
  - exact (fnmatch_suffix ".dart" eq_refl "*typography*" name H).
  - exact (fnmatch_suffix ".dart" eq_refl "premium_*" name H).
  - exact (fnmatch_suffix ".dart" eq_refl "*cache*" name H).
  - exact (fnmatch_suffix ".dart" eq_refl "*performance*" name H).
  - exact (fnmatch_suffix ".dart" eq_refl "*auth*" name H).
Qed.

Lemma rglob_of_dart (entries : list Entry) (pat : string) :
  In pat used_patterns ->
  rglob (rglob entries "*.dart") pat = rglob entries pat.
Proof.
  intros Hin. unfold rglob. induction entries as [|e l IH].
  - reflexivity.
  - cbn [filter]. destruct (fnmatch pat (name (path e))) eqn:Hp.
    + rewrite (used_pattern_dart pat _ Hin Hp). cbn [filter].
      now rewrite Hp, IH.
    + destruct (fnmatch "*.dart" (name (path e))); cbn [filter];
        rewrite ?Hp; exact IH.
Qed.

End GlobFacts.

Section TreeFacts.
Import PyPath UX Catalog TreeSpec.

Lemma outcome_same_rglob (c : Category) (fs1 fs2 : Tree) (k : string) :
  pubspec fs1 = pubspec fs2 ->
  (forall pat, In pat used_patterns ->
               rglob (entries fs1) pat = rglob (entries fs2) pat) ->
  outcome c fs1 k = outcome c fs2 k.
Proof.
  intros Hp H. unfold outcome. rewrite Hp.
  rewrite (H "*.dart") by (simpl; tauto).
  rewrite (H "*theme*.dart") by (simpl; tauto).
  rewrite (H "*color*.dart") by (simpl; tauto).
  rewrite (H "*typography*.dart") by (simpl; tauto).
  rewrite (H "premium_*.dart") by (simpl; tauto).
  rewrite (H "*cache*.dart") by (simpl; tauto).
  rewrite (H "*performance*.dart") by (simpl; tauto).
  rewrite (H "*auth*.dart") by (simpl; tauto).
  reflexivity.
Qed.

Lemma validate_same_rglob (self : IndustrialUXValidator) (fs1 fs2 : Tree) :
  pubspec fs1 = pubspec fs2 ->
  (forall pat, In pat used_patterns ->
               rglob (entries fs1) pat = rglob (entries fs2) pat) ->
  validate_complete_ux self fs1 = validate_complete_ux self fs2.
Proof.
  intros Hp H. rewrite !validate_complete_ux_run.
  rewrite (run_validators_same self fs1 fs2); [reflexivity|].
  intros c. rewrite !checks_on_form. apply map_ext. intros k.
  f_equal. now apply outcome_same_rglob.
Qed.

(** X6. The UX result depends on the walked tree through its [.dart]
    entries and [pubspec.yaml] only: two trees with the same [.dart]
    entries, in the same order, and the same [pubspec.yaml] get the same
    result, whatever other files they hold. *)
Theorem ux_reads_dart_files_only
    (self : IndustrialUXValidator) (fs1 fs2 : Tree) :
  rglob (entries fs1) "*.dart" = rglob (entries fs2) "*.dart" ->
  pubspec fs1 = pubspec fs2 ->
  validate_complete_ux self fs1 = validate_complete_ux self fs2.
Proof.
  intros Hd Hp. apply validate_same_rglob; [exact Hp|].
  intros pat Hin.
  rewrite <- (rglob_of_dart (entries fs1) pat Hin),
          <- (rglob_of_dart (entries fs2) pat Hin).
  now rewrite Hd.
Qed.

Lemma ux_reads_dart_files_only_witness :
  validate_complete_ux (init ".")
    (mkTree [mkEntry "README.md" (ReadOk "Hero( elevation:");
             Samples.widget_file;
             mkEntry "lib/theme.json" (ReadFails "denied")] None)
  = validate_complete_ux (init ".") (mkTree [Samples.widget_file] None).
Proof.
  apply ux_reads_dart_files_only; reflexivity.
Defined.

Lemma any_content_impl (p q : string -> bool) (l : list Entry) :
  (forall c, p c = true -> q c = true) ->
  any_content p l = true -> any_content q l = true.
Proof.
  intros H. unfold any_content. rewrite !existsb_exists.
  intros (e & He & Hp). exists e. split; [exact He|].
  destruct (read e); [now apply H|discriminate].
Qed.

Lemma any_content_incl (p : string -> bool) (l l' : list Entry) :
  incl l l' -> any_content p l = true -> any_content p l' = true.
Proof.
  intros H. unfold any_content. rewrite !existsb_exists.
  intros (e & He & Hp). exists e. split; [now apply H|exact Hp].
Qed.

Lemma rglob_incl_insert (pre post : list Entry) (e : Entry) (pat : string) :
  incl (rglob (pre ++ post) pat) (rglob (pre ++ e :: post) pat).
Proof.
  intros x. unfold rglob. rewrite !filter_In, !in_app_iff. simpl. tauto.
Qed.

Lemma rglob_length_insert (pre post : list Entry) (e : Entry)
    (pat : string) :
  (List.length (rglob (pre ++ post) pat)
   <= List.length (rglob (pre ++ e :: post) pat))%nat.
Proof.
  rewrite !rglob_app, rglob_cons, !length_app.
  destruct (fnmatch pat (name (path e))); simpl; lia.
Qed.

Lemma nonempty_insert (pre post : list Entry) (e : Entry) (pat : string) :
  nonempty (rglob (pre ++ post) pat) = true ->
  nonempty (rglob (pre ++ e :: post) pat) = true.
Proof.
  pose proof (rglob_length_insert pre post e pat) as H.
  destruct (rglob (pre ++ post) pat); [discriminate|].
  destruct (rglob (pre ++ e :: post) pat); [simpl in H; lia|reflexivity].
Qed.

Lemma hit_incl (rules : list Rule) (l l' : list Entry) (k : string) :
  incl l l' -> hit rules l k = true -> hit rules l' k = true.
Proof.
  intros H. unfold hit. rewrite !existsb_exists.
  intros (r & Hr & Hk). exists r. split; [exact Hr|].
  apply andb_true_iff in Hk as [Hk Hc]. rewrite Hk. simpl.
  now apply (any_content_incl _ l l').
Qed.

(** A check that holds keeps holding when a file is added. *)
Lemma outcome_insert (c : Category) (pre post : list Entry) (e : Entry)
    (pub : option ReadResult) (k : string) :
  outcome c (mkTree (pre ++ post) pub) k = true ->
  outcome c (mkTree (pre ++ e :: post) pub) k = true.
Proof.
  unfold outcome. cbn [entries pubspec].
  pose proof (rglob_incl_insert pre post e) as Hincl.
  pose proof (nonempty_insert pre post e) as Hne.
  pose proof (rglob_length_insert pre post e "premium_*.dart") as Hlen.
  destruct c;
    repeat match goal with
           | |- context [String.eqb k ?n] => destruct (String.eqb k n)
           end;
    try (apply Hne); try (apply hit_incl; apply Hincl);
    try (apply any_content_incl; apply Hincl); try (intros H; exact H).
  rewrite !Z.geb_leb, !Z.leb_le. lia.
Qed.

Lemma sum_values_tabulate_le (f g : string -> bool) (names : list string) :
  (forall k, f k = true -> g k = true) ->
  Dict.sum_values (map (fun k => (k, f k)) names)
  <= Dict.sum_values (map (fun k => (k, g k)) names).
Proof.
  intros H. induction names as [|n names IH]; simpl map.
  - lia.
  - rewrite !sum_values_cons. specialize (H n).
    destruct (f n), (g n); unfold Dict.int_of_bool;
      first [lia | specialize (H eq_refl); discriminate].
Qed.

(** X7. Adding a file to the tree, readable or not and anywhere in the
    walk, never turns a satisfied check into an unsatisfied one, never
    lowers the points of a category and never lowers the final score. *)
Theorem adding_a_file_never_lowers
    (root : string) (pre post : list Entry) (e : Entry)
    (pub : option ReadResult) :
  let before := mkTree (pre ++ post) pub in
  let after := mkTree (pre ++ e :: post) pub in
  exists r0 r1 s0 s1,
    validate_complete_ux (init root) before = Some r0
    /\ validate_complete_ux (init root) after = Some r1
    /\ summary r0 = Some s0 /\ summary r1 = Some s1
    /\ (forall c k, Dict.get (checks_of c r0) k = Some true ->
                    Dict.get (checks_of c r1) k = Some true)
    /\ (forall c, points c (init root) before initial_results
                  <= points c (init root) after initial_results)
    /\ final_score s0 <= final_score s1.
Proof.
  intros before after.
  destruct (validate_complete_ux_returns root before)
    as (p0 & recs0 & _ & _ & H0).
  destruct (validate_complete_ux_returns root after)
    as (p1 & recs1 & _ & _ & H1).
  assert (Hpts : forall c, points c (init root) before initial_results
                           <= points c (init root) after initial_results).
  { intros c. rewrite !points_form, !checks_on_form.
    apply Z.mul_le_mono_nonneg_r;
      [destruct c; cbn [max_points]; apply Z.div_pos; lia|].
    apply sum_values_tabulate_le. intros k. apply outcome_insert. }
  eexists. eexists. eexists. eexists.
  split; [exact H0|]. split; [exact H1|].
  split; [apply summary_set_summary|]. split; [apply summary_set_summary|].
  split; [|split; [exact Hpts|]].
  - intros c k. rewrite !checks_of_set_summary, !run_validators_checks.
    rewrite !get_checks_on. destruct (existsb (String.eqb k) (check_names c));
      [|discriminate].
    intros H. apply some_inj in H. f_equal. now apply outcome_insert.
  - cbn [final_score]. unfold total_points. cbn [map all fold_right].
    pose proof (Hpts MaterialDesign). pose proof (Hpts Accessibility).
    pose proof (Hpts Performance). pose proof (Hpts Animations).
    pose proof (Hpts Theming). pose proof (Hpts ResponsiveDesign).
    pose proof (Hpts UserFlows). lia.
Qed.

Lemma prefix_trans (p q s : string) :
  String.prefix p q = true -> String.prefix q s = true ->
  String.prefix p s = true.
Proof.
  revert q s. induction p as [|a p IH]; intros q s Hpq Hqs.
  - now destruct s.
  - destruct q as [|b q]; [discriminate|]. simpl in Hpq.
    destruct (ascii_dec a b) as [->|]; [|discriminate].
    destruct s as [|c s]; [discriminate|]. simpl in Hqs.
    destruct (ascii_dec b c) as [->|]; [|discriminate].
    simpl. destruct (ascii_dec c c) as [_|Hne]; [|now elim Hne].
    now apply (IH q s).
Qed.

(** A text that holds [q] holds every start of [q]. *)
Lemma contains_prefix (s p q : string) :
  String.prefix p q = true ->
  PyStr.contains s q = true -> PyStr.contains s p = true.
Proof.
  intros Hpq. induction s as [|c s IH]; cbn [PyStr.contains].
  - destruct (String.prefix q "") eqn:E; [|discriminate].
    intros _. now rewrite (prefix_trans p q "" Hpq E).
  - destruct (String.prefix q (String c s)) eqn:E.
    + intros _. now rewrite (prefix_trans p q _ Hpq E).
    + intros H. rewrite (IH H). now destruct (String.prefix p (String c s)).
Qed.

Lemma any_content_nonempty (p : string -> bool) (l : list Entry) :
  any_content p l = true -> nonempty l = true.
Proof. destruct l; [discriminate|reflexivity]. Qed.

Lemma rglob_theme_incl_dart (entries : list Entry) :
  incl (rglob entries "*theme*.dart") (rglob entries "*.dart").
Proof.
  intros e. unfold rglob. rewrite !filter_In. intros [Hin H].
  split; [exact Hin|].
  apply (used_pattern_dart "*theme*.dart"); [simpl; tauto|exact H].
Qed.

(** X8. Some checks cannot hold without others.  When the colour
    contrast check holds, the dark and light theme check and the theme
    implementation check hold too; when the screen size adaptation check
    holds, the text scaling check holds too. *)
Theorem check_dependencies
    (self : IndustrialUXValidator) (fs : Tree) (rf : Results) :
  validate_complete_ux self fs = Some rf ->
  (Dict.get (accessibility rf) "color_contrast" = Some true ->
   Dict.get (theming rf) "dark_light_theme" = Some true
   /\ Dict.get (material_design rf) "theme_implementation" = Some true)
  /\ (Dict.get (responsive_design rf) "screen_size_adaptation" = Some true ->
      Dict.get (accessibility rf) "text_scaling" = Some true).
Proof.
  intros Hrun.
  pose proof (checks_of_final self fs rf Accessibility Hrun) as Ha.
  pose proof (checks_of_final self fs rf Theming Hrun) as Ht.
  pose proof (checks_of_final self fs rf MaterialDesign Hrun) as Hm.
  pose proof (checks_of_final self fs rf ResponsiveDesign Hrun) as Hr.
  cbn [checks_of] in Ha, Ht, Hm, Hr. rewrite Ha, Ht, Hm, Hr.
  change (accessibility_checks fs) with (checks_on Accessibility fs).
  change (theming_checks fs) with (checks_on Theming fs).
  change (material_checks fs) with (checks_on MaterialDesign fs).
  change (responsive_checks fs) with (checks_on ResponsiveDesign fs).
  rewrite !get_checks_on. cbn [check_names existsb String.eqb Ascii.eqb
    Bool.eqb orb].
  unfold outcome, hit. cbn [String.eqb Ascii.eqb Bool.eqb existsb
    accessibility_rules theming_rules responsive_rules fst snd andb orb].
  split.
  - intros H. apply some_inj in H. split; f_equal.
    + rewrite orb_false_r.
      apply (any_content_incl _ _ _ (rglob_theme_incl_dart (entries fs))).
      revert H. apply any_content_impl. intros c Hc.
      apply orb_true_iff in Hc as [Hc|Hc]; apply orb_true_iff.
      * now left.
      * right. exact (contains_prefix c "brightness:"
                        "brightness: Brightness.dark" eq_refl Hc).
    + now apply any_content_nonempty in H.
  - intros H. apply some_inj in H. f_equal.
    rewrite !orb_false_r in *. revert H. apply any_content_impl.
    intros c Hc. apply orb_true_iff. right.
    exact (contains_prefix c "MediaQuery" "MediaQuery.of(context).size"
             eq_refl Hc).
Qed.

Lemma check_dependencies_witness :
  exists rf,
    validate_complete_ux (init ".") Samples.full_tree = Some rf
    /\ Dict.get (theming rf) "dark_light_theme" = Some true
    /\ Dict.get (accessibility rf) "text_scaling" = Some true.
Proof.
  destruct (validate_complete_ux (init ".") Samples.full_tree)
    as [rf|] eqn:E; [|vm_compute in E; discriminate].
  destruct (check_dependencies (init ".") Samples.full_tree rf E)
    as [H1 H2].
  exists rf. split; [reflexivity|]. split.
  - apply H1. vm_compute in E. apply some_inj in E. subst rf. reflexivity.
  - apply H2. vm_compute in E. apply some_inj in E. subst rf. reflexivity.
Defined.

Lemma hit_nil (rules : list Rule) (k : string) : hit rules [] k = false.
Proof. unfold hit. apply existsb_never. Qed.

Lemma outcome_no_files (c : Category) (pub : option ReadResult)
    (k : string) :
  outcome c (mkTree [] pub) k = only_fonts pub c k.
Proof.
  unfold outcome, only_fonts, declares_fonts. cbn [entries pubspec rglob filter].
  rewrite !hit_nil.
  destruct c;
    repeat match goal with
           | |- context [String.eqb k ?n] => destruct (String.eqb k n)
           end; reflexivity.
Qed.

(** X9. On a tree without any [.dart] entry every check fails, except the
    custom fonts check when [pubspec.yaml] is readable and holds
    [fonts:]; the final score is then 3, else 0, the grade is
    'C (Below Standard)' and the first five recommendations are
    reported. *)
Theorem no_dart_files
    (root : string) (entries : list Entry) (pub : option ReadResult) :
  rglob entries "*.dart" = [] ->
  exists rf s,
    validate_complete_ux (init root) (mkTree entries pub) = Some rf
    /\ summary rf = Some s
    /\ (forall c k, Dict.get (checks_of c rf) k = Some true ->
                    c = Theming /\ k = "custom_fonts"
                    /\ declares_fonts pub = true)
    /\ final_score s = (if declares_fonts pub then 3 else 0)
    /\ grade s = "C (Below Standard)"
    /\ recommendations s
       = ["Implement comprehensive Material Design 3 theme";
          "Create more premium UI components";
          "Add semantic labels for screen readers";
          "Implement proper focus management";
          "Implement advanced image caching system"].
Proof.
  intros Hnone.
  assert (Hsame : validate_complete_ux (init root) (mkTree entries pub)
                  = validate_complete_ux (init root) (mkTree [] pub)).
  { apply ux_reads_dart_files_only; [exact Hnone|reflexivity]. }
  rewrite Hsame.
  destruct (validate_complete_ux_returns root (mkTree [] pub))
    as (p & recs & Hp & Hrecs & H).
  assert (Hchecks : forall c,
            checks_on c (mkTree [] pub)
            = map (fun k => (k, only_fonts pub c k)) (check_names c)).
  { intros c. rewrite checks_on_form. apply map_ext. intros k.
    now rewrite outcome_no_files. }
  assert (Htot : total_points (init root) (mkTree [] pub)
                 = if declares_fonts pub then 3 else 0).
  { unfold total_points. cbn [map all fold_right].
    rewrite !points_form, !Hchecks. unfold only_fonts.
    destruct (declares_fonts pub); vm_compute; reflexivity. }
  assert (Hfinal : Z.min (total_points (init root) (mkTree [] pub)) 100
                   = if declares_fonts pub then 3 else 0).
  { rewrite Htot. now destruct (declares_fonts pub). }
  rewrite Hfinal in Hp, H.
  eexists. eexists. split; [exact H|]. split; [apply summary_set_summary|].
  cbn [final_score grade recommendations]. split; [|split; [reflexivity|split]].
  - intros c k. rewrite checks_of_set_summary, run_validators_checks.
    rewrite Hchecks, get_tabulate.
    destruct (existsb (String.eqb k) (check_names c)); [|discriminate].
    intros Hk. apply some_inj in Hk. unfold only_fonts in Hk.
    destruct c; try discriminate.
    apply andb_true_iff in Hk as [Hk Hf]. apply String.eqb_eq in Hk.
    now repeat split.
  - assert (Hrange : 0 <= (if declares_fonts pub then 3 else 0) <= 100)
      by (destruct (declares_fonts pub); lia).
    destruct (grade_of_final _ Hrange) as (p' & Hp' & Hg).
    rewrite Hp in Hp'. apply some_inj in Hp'. subst p'. rewrite Hg.
    now destruct (declares_fonts pub).
  - apply recommendations_expected in Hrecs. rewrite Hrecs.
    unfold expected_recommendations, unsatisfied, remediation_catalog.
    cbn [filter fst snd]. rewrite !run_validators_checks, !Hchecks.
    reflexivity.
Qed.

Lemma no_dart_files_witness :
  exists rf s,
    validate_complete_ux (init ".")
      (mkTree [mkEntry "README.md" (ReadOk "Hero(")]
         (Some (ReadOk "flutter: fonts:"))) = Some rf
    /\ summary rf = Some s
    /\ final_score s = 3.
Proof.
  destruct (no_dart_files "." [mkEntry "README.md" (ReadOk "Hero(")]
              (Some (ReadOk "flutter: fonts:")) eq_refl)
    as (rf & s & H & Hs & _ & Hf & _).
  exists rf, s. split; [exact H|]. split; [exact Hs|exact Hf].
Defined.

End TreeFacts.

(* ================================================================== *)
(** * Class names and file names *)

Section SnakeFacts.
Import PyPath Dart NameSpec.

Lemma all_chars_app (p : ascii -> bool) (s t : string) :
  all_chars p (s ++ t) = all_chars p s && all_chars p t.
Proof.
  induction s as [|c s IH]; simpl; [reflexivity|].
  now rewrite IH, andb_assoc.
Qed.

Lemma lower_app (s t : string) :
  PyStr.lower (s ++ t) = PyStr.lower s ++ PyStr.lower t.
Proof. induction s as [|c s IH]; simpl; [reflexivity|]. now rewrite IH. Qed.

Lemma ascii_cases (P : ascii -> Prop) :
  (forall n, (n < 256)%nat -> P (ascii_of_nat n)) -> forall c, P c.
Proof.
  intros H c. rewrite <- (ascii_nat_embedding c). apply H.
  apply nat_ascii_bounded.
Qed.

Lemma lower_not_upper (c : ascii) :
  PyStr.is_lower_az c = true -> PyStr.is_upper_az c = false.
Proof.
  unfold PyStr.is_lower_az, PyStr.is_upper_az, PyStr.between.
  rewrite !andb_true_iff, !Nat.leb_le. intros [H1 H2].
  apply andb_false_iff. right. apply Nat.leb_gt. lia.
Qed.

Lemma lower_not_newline (c : ascii) :
  PyStr.is_lower_az c = true -> Ascii.eqb c PyStr.newline = false.
Proof.
  intros H. apply Ascii.eqb_neq. intros ->. vm_compute in H. discriminate.
Qed.

(** In a text without capital letters [re.sub] finds no match. *)
Lemma sub_camel_no_upper (s : string) :
  all_chars not_upper s = true ->
  forall m, sub_camel m s = s.
Proof.
  induction s as [|c s IH]; intros H m; [reflexivity|].
  simpl in H. apply andb_true_iff in H as [Hc Hs].
  cbn [sub_camel]. destruct m.
  - cbn [andb]. destruct s as [|u [|l r]];
      try (now rewrite (IH Hs Scan)).
    simpl in Hs. apply andb_true_iff in Hs as [Hu Hs'].
    unfold not_upper in Hu. apply negb_true_iff in Hu. rewrite Hu.
    rewrite andb_false_r. cbn [andb].
    rewrite (IH ltac:(simpl; unfold not_upper; rewrite Hu; exact Hs') Scan).
    reflexivity.
  - now rewrite (IH Hs Run).
  - cbn [andb]. destruct (PyStr.is_lower_az c);
      [now rewrite (IH Hs Run)|].
    destruct s as [|u [|l r]]; try (now rewrite (IH Hs Scan)).
    simpl in Hs. apply andb_true_iff in Hs as [Hu Hs'].
    unfold not_upper in Hu. apply negb_true_iff in Hu. rewrite Hu.
    rewrite andb_false_r. cbn [andb].
    rewrite (IH ltac:(simpl; unfold not_upper; rewrite Hu; exact Hs') Scan).
    reflexivity.
Qed.

Lemma upper_not_lower (c : ascii) :
  PyStr.is_upper_az c = true -> PyStr.is_lower_az c = false.
Proof.
  unfold PyStr.is_lower_az, PyStr.is_upper_az, PyStr.between.
  rewrite !andb_true_iff, !Nat.leb_le. intros [H1 H2].
  apply andb_false_iff. left. apply Nat.leb_gt. lia.
Qed.

(** Scanning over the small letters of a word: the underscore comes
    after the last of them when another word follows. *)
Lemma scan_lowers (ls rest : string) :
  all_chars PyStr.is_lower_az ls = true -> ls <> EmptyString ->
  starts_word rest = true ->
  sub_camel Scan (ls ++ rest)
  = ls ++ match rest with
          | EmptyString => EmptyString
          | _ => String "_" (sub_camel Upper rest)
          end.
Proof.
  intros Hls Hne Hrest. induction ls as [|c ls IH]; [now elim Hne|].
  simpl in Hls. apply andb_true_iff in Hls as [Hc Hls].
  destruct ls as [|c2 ls].
  - cbn [append]. destruct rest as [|u [|l r]]; try discriminate.
    + reflexivity.
    + simpl in Hrest. apply andb_true_iff in Hrest as [Hu Hl].
      cbn [sub_camel]. cbn [andb].
      now rewrite (lower_not_newline c Hc), Hu, Hl.
  - specialize (IH Hls ltac:(discriminate)).
    change ((String c (String c2 ls)) ++ rest)
      with (String c ((String c2 ls) ++ rest)).
    cbn [sub_camel]. cbn [andb].
    change ((String c2 ls) ++ rest) with (String c2 (ls ++ rest)) in *.
    simpl in Hls. apply andb_true_iff in Hls as [Hc2 _].
    rewrite (lower_not_upper c2 Hc2), andb_false_r. cbn [andb].
    destruct (ls ++ rest); now rewrite IH.
Qed.

(** Inside a match: the small letters are taken, and the scan resumes
    at the first other character. *)
Lemma run_lowers (ls rest : string) :
  all_chars PyStr.is_lower_az ls = true ->
  starts_word rest = true ->
  sub_camel Run (ls ++ rest) = ls ++ sub_camel Scan rest.
Proof.
  intros Hls Hrest. induction ls as [|c ls IH].
  - cbn [append]. destruct rest as [|u [|l r]]; try discriminate.
    + reflexivity.
    + simpl in Hrest. apply andb_true_iff in Hrest as [Hu Hl].
      cbn [sub_camel]. now rewrite (upper_not_lower u Hu).
  - simpl in Hls. apply andb_true_iff in Hls as [Hc Hls].
    change ((String c ls) ++ rest) with (String c (ls ++ rest)).
    cbn [sub_camel]. rewrite Hc. cbn [andb]. now rewrite (IH Hls).
Qed.

Lemma camel_word_inv (w : string) :
  camel_word w = true ->
  exists u l ls,
    w = String u (String l ls)
    /\ PyStr.is_upper_az u = true /\ PyStr.is_lower_az l = true
    /\ all_chars PyStr.is_lower_az ls = true.
Proof.
  destruct w as [|u [|l ls]]; try discriminate. simpl. intros H.
  apply andb_true_iff in H as [H Hls]. apply andb_true_iff in H as [Hu Hl].
  now exists u, l, ls.
Qed.

Lemma word_nonempty (w rest x : string) :
  camel_word w = true ->
  match w ++ rest with
  | EmptyString => EmptyString
  | String _ _ => x
  end = x.
Proof.
  intros Hw. now destruct (camel_word_inv w Hw) as (u & l & ls & -> & _).
Qed.

Lemma scan_word (w rest : string) :
  camel_word w = true -> starts_word rest = true ->
  sub_camel Scan (w ++ rest)
  = w ++ match rest with
         | EmptyString => EmptyString
         | _ => String "_" (sub_camel Upper rest)
         end.
Proof.
  intros Hw Hrest.
  destruct (camel_word_inv w Hw) as (u & l & ls & -> & Hu & Hl & Hls).
  assert (E := scan_lowers (String l ls) rest).
  cbn [append] in E |- *. rewrite <- E;
    [|simpl; now rewrite Hl|discriminate|exact Hrest].
  set (R := sub_camel Scan (String l (ls ++ rest))).
  cbn [sub_camel]. cbn [andb].
  rewrite (lower_not_upper l Hl), andb_false_r. cbn [andb].
  subst R. now destruct (ls ++ rest).
Qed.

Lemma upper_word (w rest : string) :
  camel_word w = true -> starts_word rest = true ->
  sub_camel Upper (w ++ rest) = w ++ sub_camel Scan rest.
Proof.
  intros Hw Hrest.
  destruct (camel_word_inv w Hw) as (u & l & ls & -> & Hu & Hl & Hls).
  change ((String u (String l ls)) ++ rest)
    with (String u ((String l ls) ++ rest)).
  cbn [sub_camel].
  rewrite (run_lowers (String l ls) rest);
    [reflexivity|simpl; now rewrite Hl|exact Hrest].
Qed.

Lemma starts_word_flatten (ws : list string) :
  forallb camel_word ws = true -> starts_word (flatten ws) = true.
Proof.
  destruct ws as [|w ws]; [reflexivity|]. simpl. intros H.
  apply andb_true_iff in H as [Hw _].
  destruct (camel_word_inv w Hw) as (u & l & ls & -> & Hu & Hl & _).
  simpl. now rewrite Hu, Hl.
Qed.

Lemma flatten_empty (ws : list string) :
  forallb camel_word ws = true ->
  flatten ws = EmptyString -> ws = [].
Proof.
  destruct ws as [|w ws]; [reflexivity|]. simpl. intros H.
  apply andb_true_iff in H as [Hw _].
  destruct (camel_word_inv w Hw) as (u & l & ls & -> & _). discriminate.
Qed.

(** What [re.sub] makes of a CamelCase name, two words at a time. *)
Lemma sub_camel_words (n : nat) :
  forall ws,
  (List.length ws <= n)%nat -> forallb camel_word ws = true ->
  sub_camel Scan (flatten ws) = camel_join ws.
Proof.
  induction n as [|n IH]; intros ws Hlen Hws.
  - destruct ws; [reflexivity|simpl in Hlen; lia].
  - destruct ws as [|w1 [|w2 ws]]; [reflexivity| |].
    + simpl in Hws. apply andb_true_iff in Hws as [Hw1 _].
      cbn [flatten camel_join].
      rewrite (scan_word w1 "" Hw1 eq_refl). apply append_empty_r.
    + simpl in Hws. apply andb_true_iff in Hws as [Hw1 Hws].
      apply andb_true_iff in Hws as [Hw2 Hws].
      cbn [flatten camel_join].
      assert (Hs2 : starts_word (w2 ++ flatten ws) = true).
      { apply (starts_word_flatten (w2 :: ws)). simpl. now rewrite Hw2. }
      rewrite (scan_word w1 _ Hw1 Hs2).
      rewrite (word_nonempty w2 (flatten ws) _ Hw2).
      rewrite (upper_word w2 _ Hw2 (starts_word_flatten ws Hws)).
      rewrite (IH ws); [reflexivity|simpl in Hlen; lia|exact Hws].
Qed.

(** [_camel_to_snake] on a name of CamelCase words: the underscore goes
    after the first word, the third, the fifth and so on, and nowhere
    else; then all is put in small letters. *)
Theorem camel_to_snake_words (ws : list string) :
  forallb camel_word ws = true ->
  _camel_to_snake (flatten ws) = PyStr.lower (camel_join ws).
Proof.
  intros H. unfold _camel_to_snake.
  now rewrite (sub_camel_words (List.length ws) ws (Nat.le_refl _) H).
Qed.

Lemma camel_to_snake_words_witness :
  _camel_to_snake "LoginPageView" = "login_pageview"
  /\ _camel_to_snake "ProductDetailScreenState" = "product_detailscreen_state".
Proof.
  split.
  - exact (camel_to_snake_words ["Login"; "Page"; "View"] eq_refl).
  - exact (camel_to_snake_words ["Product"; "Detail"; "Screen"; "State"]
             eq_refl).
Defined.

Lemma lower_char_not_upper (c : ascii) :
  not_upper (PyStr.lower_char c) = true.
Proof. destruct c as [[] [] [] [] [] [] [] []]; vm_compute; reflexivity. Qed.

Lemma lower_char_idem (c : ascii) :
  PyStr.lower_char (PyStr.lower_char c) = PyStr.lower_char c.
Proof. destruct c as [[] [] [] [] [] [] [] []]; vm_compute; reflexivity. Qed.

Lemma lower_no_upper (s : string) : all_chars not_upper (PyStr.lower s) = true.
Proof.
  induction s as [|c s IH]; simpl; [reflexivity|].
  now rewrite lower_char_not_upper, IH.
Qed.

Lemma lower_idem (s : string) : PyStr.lower (PyStr.lower s) = PyStr.lower s.
Proof.
  induction s as [|c s IH]; simpl; [reflexivity|].
  now rewrite lower_char_idem, IH.
Qed.

Lemma lower_length (s : string) :
  String.length (PyStr.lower s) = String.length s.
Proof. induction s as [|c s IH]; simpl; [reflexivity|now rewrite IH]. Qed.

(** The result of [_camel_to_snake] holds no capital letter A-Z, and
    converting it once more changes nothing. *)
Theorem camel_to_snake_idempotent (name : string) :
  all_chars not_upper (_camel_to_snake name) = true
  /\ _camel_to_snake (_camel_to_snake name) = _camel_to_snake name.
Proof.
  unfold _camel_to_snake. split; [apply lower_no_upper|].
  rewrite (sub_camel_no_upper _ (lower_no_upper _) Scan).
  apply lower_idem.
Qed.

Lemma length_append (s t : string) :
  String.length (s ++ t) = (String.length s + String.length t)%nat.
Proof. induction s as [|c s IH]; simpl; [reflexivity|now rewrite IH]. Qed.

Lemma join_length (ws : list string) :
  ws <> [] ->
  (String.length (PyStr.join "_" ws) + 1
   = String.length (flatten ws) + List.length ws)%nat.
Proof.
  induction ws as [|w ws IH]; intros Hne; [now elim Hne|].
  destruct ws as [|w' ws].
  - simpl. rewrite append_empty_r. lia.
  - specialize (IH ltac:(discriminate)).
    change (PyStr.join "_" (w :: w' :: ws))
      with (w ++ "_" ++ PyStr.join "_" (w' :: ws)).
    change (flatten (w :: w' :: ws)) with (w ++ flatten (w' :: ws)).
    rewrite !length_append. cbn [List.length] in *.
    change (String.length "_") with 1%nat. lia.
Qed.

Lemma camel_join_length (n : nat) :
  forall ws,
  (List.length ws <= n)%nat ->
  (2 * String.length (camel_join ws)
   <= 2 * String.length (flatten ws) + List.length ws)%nat.
Proof.
  induction n as [|n IH]; intros ws Hlen.
  - destruct ws; [simpl; lia|simpl in Hlen; lia].
  - destruct ws as [|w1 [|w2 ws]]; [simpl; lia| |].
    + simpl. rewrite append_empty_r. lia.
    + specialize (IH ws ltac:(simpl in Hlen; lia)).
      cbn [camel_join flatten List.length].
      rewrite !length_append.
      change (String.length "_") with 1%nat. lia.
Qed.

(** A file named after its only class in the usual snake_case, one
    underscore between any two words, passes the naming check without a
    warning exactly when the class name has at most two words (or the file
    name ends in [_test]): from three words on, the expected name lacks
    every second underscore. *)
Theorem conventional_file_name
    (file_path content : string) (ws : list string) :
  forallb camel_word ws = true ->
  findall_class 0 content = [flatten ws] ->
  stem file_path = PyStr.lower (PyStr.join "_" ws) ->
  (naming_warnings file_path content = []
   <-> (List.length ws <= 2)%nat
       \/ PyStr.endswith (stem file_path) "_test" = true).
Proof.
  intros Hws Hfind Hstem. unfold naming_warnings. rewrite Hfind.
  unfold _camel_to_snake.
  rewrite (sub_camel_words (List.length ws) ws (Nat.le_refl _) Hws), Hstem.
  destruct (PyStr.endswith _ "_test") eqn:Htest.
  - rewrite andb_false_r. cbn [negb]. split; [now right|reflexivity].
  - rewrite andb_true_r.
    destruct (String.eqb _ _) eqn:E; cbn [negb].
    + split; [|reflexivity]. intros _. left.
      apply String.eqb_eq in E.
      apply (f_equal String.length) in E. rewrite !lower_length in E.
      destruct ws as [|w ws]; [simpl; lia|].
      pose proof (join_length (w :: ws) ltac:(discriminate)) as Hj.
      pose proof (camel_join_length _ (w :: ws) (Nat.le_refl _)) as Hc.
      lia.
    + split; [discriminate|]. intros [Hlen|Hf]; [|discriminate].
      apply String.eqb_neq in E. exfalso. apply E.
      destruct ws as [|w1 [|w2 [|w3 ws]]]; try reflexivity.
      * simpl. now rewrite append_empty_r.
      * simpl in Hlen. lia.
Qed.

Lemma conventional_file_name_witness :
  naming_warnings "lib/screens/login_page.dart"
    "class LoginPage extends StatelessWidget {}" = []
  /\ naming_warnings "lib/screens/login_page_view.dart"
       "class LoginPageView extends StatelessWidget {}" <> [].
Proof.
  split.
  - apply (proj2 (conventional_file_name "lib/screens/login_page.dart"
             "class LoginPage extends StatelessWidget {}"
             ["Login"; "Page"] eq_refl eq_refl eq_refl)).
    left. simpl. lia.
  - intros H.
    apply (proj1 (conventional_file_name "lib/screens/login_page_view.dart"
             "class LoginPageView extends StatelessWidget {}"
             ["Login"; "Page"; "View"] eq_refl eq_refl eq_refl)) in H.
    destruct H as [H|H]; [simpl in H; lia|discriminate].
Defined.

End SnakeFacts.

(* ================================================================== *)
(** * The line tests *)

Section LineFacts.
Import PyPath Dart Lint NameSpec LineSpec Regex.

Lemma last_char_app (s t : string) (c : ascii) :
  last_char t = Some c -> last_char (s ++ t) = Some c.
Proof.
  intros H. induction s as [|a s IH]; [exact H|].
  cbn [append last_char]. destruct (s ++ t); [discriminate|exact IH].
Qed.

Lemma endswith_last (s : string) (c : ascii) :
  PyStr.endswith s (String c "") = true <-> last_char s = Some c.
Proof.
  induction s as [|a s IH].
  - simpl. split; discriminate.
  - cbn [PyStr.endswith last_char String.eqb].
    destruct s as [|b s].
    + simpl. destruct (Ascii.eqb a c) eqn:E.
      * apply Ascii.eqb_eq in E. subst. tauto.
      * apply Ascii.eqb_neq in E. split; [discriminate|].
        intros H. injection H as ->. now elim E.
    + destruct (Ascii.eqb a c); exact IH.
Qed.

Lemma star_cls_all (p : ascii -> bool) (s : string) :
  lang (Star (Cls p)) s <-> all_chars p s = true.
Proof.
  induction s as [|c s IH]; simpl.
  - split; [reflexivity|constructor].
  - split.
    + intros H. apply lang_star_inv in H as (u & v & -> & Hu & Hv).
      apply lang_cls_inv in Hu as (c' & Hc & Hp).
      injection Hc as -> ->. rewrite Hp. now apply IH.
    + intros H. apply andb_true_iff in H as [Hp Hs].
      apply (lang_star_cons (Cls p) (String c "") s);
        [now constructor|now apply IH].
Qed.

Lemma plus_cls_all (p : ascii -> bool) (s : string) :
  lang (plus (Cls p)) s <-> s <> "" /\ all_chars p s = true.
Proof.
  unfold plus. split.
  - intros H. apply lang_cat_inv in H as (u & v & -> & Hu & Hv).
    apply lang_cls_inv in Hu as (c & -> & Hp).
    split; [discriminate|]. simpl. rewrite Hp. now apply star_cls_all.
  - intros [Hne H]. destruct s as [|c s]; [now elim Hne|].
    simpl in H. apply andb_true_iff in H as [Hp Hs].
    apply (lang_cat (Cls p) (Star (Cls p)) (String c "") s);
      [now constructor|now apply star_cls_all].
Qed.

Lemma all_chars_last (p : ascii -> bool) (s : string) :
  s <> "" -> all_chars p s = true ->
  exists c, last_char s = Some c /\ p c = true.
Proof.
  induction s as [|a s IH]; intros Hne H; [now elim Hne|].
  simpl in H. apply andb_true_iff in H as [Hp Hs].
  destruct s as [|b s]; [now exists a|].
  destruct (IH ltac:(discriminate) Hs) as (c & Hc & Hpc).
  exists c. split; [exact Hc|exact Hpc].
Qed.

Lemma contains_char (a b : string) (c : ascii) :
  PyStr.contains (a ++ String c b) (String c "") = true.
Proof.
  induction a as [|d a IH].
  - cbn [append PyStr.contains String.prefix].
    destruct (ascii_dec c c) as [_|Hne]; [now destruct b|now elim Hne].
  - cbn [append PyStr.contains]. rewrite IH.
    now destruct (String.prefix _ _).
Qed.

Lemma lang_dollar (d : string) :
  lang dollar d -> d = "" \/ d = String PyStr.newline "".
Proof.
  unfold dollar, opt. intros H. apply lang_alt_inv in H as [H|H].
  - left. now apply lang_eps_inv.
  - right. apply lang_cls_inv in H as (c & -> & Hc).
    apply Ascii.eqb_eq in Hc. now subst.
Qed.

(** What a line that shows the pattern [\w+\s*=\s*[^;{]+$] looks like. *)
Lemma assignment_shape (line : string) :
  search_dollar assignment_re line = true ->
  PyStr.contains line "=" = true
  /\ exists c, last_char line = Some c
               /\ Ascii.eqb c ";" = false /\ Ascii.eqb c "{" = false.
Proof.
  unfold search_dollar. rewrite fullmatch_lang. intros H.
  apply lang_cat_inv in H as (pre & t & -> & _ & H).
  apply lang_cat_inv in H as (b & d & -> & Hb & Hd).
  unfold assignment_re in Hb.
  apply lang_cat_inv in Hb as (w & t1 & -> & _ & Hb).
  apply lang_cat_inv in Hb as (sp & t2 & -> & _ & Hb).
  apply lang_cat_inv in Hb as (e & t3 & -> & He & Hb).
  apply lang_cat_inv in Hb as (sp2 & v & -> & _ & Hv).
  apply lang_cls_inv in He as (c & -> & Hc). apply Ascii.eqb_eq in Hc.
  subst c. apply plus_cls_all in Hv as [Hne Hv].
  split.
  - match goal with
    | |- PyStr.contains ?l _ = true =>
        replace l with ((pre ++ w ++ sp) ++ String "=" ((sp2 ++ v) ++ d))
          by (now rewrite !append_assoc)
    end.
    apply contains_char.
  - destruct (all_chars_last _ v Hne Hv) as (c & Hc & Hp).
    apply lang_dollar in Hd as [->| ->].
    + exists c. split.
      * rewrite append_empty_r. now repeat apply last_char_app.
      * apply negb_true_iff, orb_false_iff in Hp. exact Hp.
    + exists PyStr.newline. split; [|split; reflexivity].
      now repeat apply last_char_app.
Qed.

Lemma brace_issues_other (file_path : string) (i : Z) (line : string) :
  existsb is_semicolon_issue (brace_issues file_path i line) = false.
Proof.
  unfold brace_issues.
  destruct (negb _); [|reflexivity]. now destruct (_ >? 1).
Qed.

(** The semicolon test passes over every line that holds no [=], that
    ends in [;], [{], [}] or [,], or that holds one of the words [if],
    [for], [while], [switch], [try], [=>] anywhere, also inside another
    word. *)
Theorem semicolon_test_passes_over
    (file_path : string) (i : Z) (raw : string) :
  let line := PyStr.strip raw in
  PyStr.contains line "=" = false
  \/ PyStr.endswith line ";" = true
  \/ PyStr.endswith line "{" = true
  \/ PyStr.endswith line "}" = true
  \/ PyStr.endswith line "," = true
  \/ existsb (fun x => PyStr.contains line x) control_tokens = true ->
  existsb is_semicolon_issue (syntax_line file_path i raw) = false.
Proof.
  intros line Hline. unfold syntax_line. fold line.
  destruct (PyStr.is_empty line); [reflexivity|]. cbn [orb].
  destruct (PyStr.startswith line "//") eqn:Hcomment; [reflexivity|].
  rewrite existsb_app, brace_issues_other. cbn [orb].
  replace (semicolon_issues file_path i line) with (@nil Issue);
    [reflexivity|].
  unfold semicolon_issues. rewrite Hcomment. cbn [negb]. rewrite andb_true_r.
  destruct (search_dollar assignment_re line) eqn:Hre.
  - apply assignment_shape in Hre as (Heq & c & Hc & Hsemi & Hbrace).
    rewrite Heq, andb_true_r in *.
    destruct Hline as [H|[H|[H|[H|[H|H]]]]].
    + discriminate.
    + now rewrite H, orb_true_r.
    + apply endswith_last in H. rewrite Hc in H. injection H as ->.
      discriminate.
    + now rewrite H.
    + rewrite H. cbn [negb]. rewrite andb_false_r.
      now destruct (_ || _).
    + rewrite H. cbn [negb]. rewrite andb_false_r.
      now destruct (_ || _).
  - cbn [andb]. now destruct (_ && _).
Qed.

Lemma semicolon_test_passes_over_witness :
  existsb is_semicolon_issue
    (syntax_line "lib/a.dart" 3 "  final different = a - b") = false
  /\ existsb is_semicolon_issue
       (syntax_line "lib/a.dart" 3 "  final other = a - b") = true.
Proof.
  split; [|reflexivity].
  apply (semicolon_test_passes_over "lib/a.dart" 3
           "  final different = a - b").
  do 5 right. reflexivity.
Defined.

Lemma lang_lit (s : string) : lang (lit s) s.
Proof.
  induction s as [|c s IH]; simpl; [constructor|].
  apply (lang_cat (chr c) (lit s) (String c "") s); [|exact IH].
  constructor. apply Ascii.eqb_refl.
Qed.

Lemma lang_star_any (s : string) : lang (Star any) s.
Proof.
  apply star_cls_all. induction s as [|c s IH]; [reflexivity|exact IH].
Qed.

(** An import of the usual form gets no entry: the word [import], white
    space, a quote, a path of word characters, [/], [:] and [.], a quote
    (not necessarily the same one), then anything, as long as the line
    ends in a semicolon. *)
Theorem wellformed_import
    (file_path : string) (i : Z) (raw sp path rest : string)
    (q q' : ascii) :
  PyStr.strip raw = "import" ++ sp ++ String q (path ++ String q' rest) ->
  sp <> "" -> all_chars PyStr.isspace sp = true ->
  is_quote q = true -> is_quote q' = true ->
  path <> "" -> all_chars import_char path = true ->
  PyStr.endswith (PyStr.strip raw) ";" = true ->
  import_line file_path i raw = [].
Proof.
  intros Hraw Hsp Hspace Hq Hq' Hpath Hchars Hsemi.
  unfold import_line. rewrite Hsemi. cbn [negb]. rewrite app_nil_r.
  destruct (PyStr.startswith _ _); [|reflexivity].
  replace (match_ import_re (PyStr.strip raw)) with true; [reflexivity|].
  symmetry. unfold match_. apply fullmatch_lang. rewrite Hraw.
  replace ("import" ++ sp ++ String q (path ++ String q' rest))
    with (("import" ++ sp ++ String q ""
           ++ path ++ String q' "" ++ "") ++ rest)
    by (now rewrite !append_assoc).
  apply lang_cat; [|apply lang_star_any].
  unfold import_re.
  apply lang_cat; [apply lang_lit|].
  apply lang_cat; [now apply plus_cls_all|].
  apply lang_cat; [now constructor|].
  apply lang_cat; [now apply plus_cls_all|].
  apply lang_cat; [now constructor|].
  apply lang_alt_l. constructor.
Qed.

Lemma wellformed_import_witness :
  import_line "lib/main.dart" 1
    "import 'package:flutter/material.dart' show Colors;" = []
  /\ import_line "lib/main.dart" 1
       (String "i" (String "m" (String "p" (String "o" (String "r"
          (String "t" (String " " (String "'" (String "a" (String "."
             (String "d" (String (ascii_of_nat 34) ";"))))))))))))
     = [].
Proof.
  split.
  - apply (wellformed_import "lib/main.dart" 1 _ " "
             "package:flutter/material.dart" " show Colors;" "'" "'");
      try reflexivity; discriminate.
  - apply (wellformed_import "lib/main.dart" 1 _ " " "a.d" ";"
             "'" (ascii_of_nat 34));
      try reflexivity; discriminate.
Defined.

(** Two texts that agree up to their first character outside a class
    agree on where it is. *)
Lemma first_outside (p : ascii -> bool) (a b s t : string) (x y : ascii) :
  all_chars p a = true -> all_chars p b = true ->
  p x = false -> p y = false ->
  a ++ String x s = b ++ String y t -> a = b /\ x = y /\ s = t.
Proof.
  revert b. induction a as [|c a IH]; intros [|d b] Ha Hb Hx Hy E;
    cbn [append] in E.
  - injection E as -> ->. auto.
  - injection E as -> _. simpl in Hb. rewrite Hx in Hb. discriminate.
  - injection E as -> _. simpl in Ha. rewrite Hy in Ha. discriminate.
  - injection E as -> E. simpl in Ha, Hb.
    apply andb_true_iff in Ha as [_ Ha]. apply andb_true_iff in Hb as [_ Hb].
    destruct (IH b Ha Hb Hx Hy E) as (-> & -> & ->). auto.
Qed.

Lemma is_quote_cases (q : ascii) :
  is_quote q = true ->
  PyStr.isspace q = false /\ import_char q = false.
Proof.
  unfold is_quote. intros H. apply orb_true_iff in H as [H|H];
    apply Ascii.eqb_eq in H; subst; split; reflexivity.
Qed.

(** An import whose path holds a character outside [[\\w/:.]], a hyphen
    or a space for one, is reported with 'Invalid import format'. *)
Theorem import_path_characters
    (file_path : string) (i : Z) (raw sp good tail : string)
    (q bad : ascii) :
  PyStr.strip raw
  = "import " ++ sp ++ String q (good ++ String bad tail) ->
  all_chars PyStr.isspace sp = true ->
  is_quote q = true ->
  all_chars import_char good = true ->
  import_char bad = false -> is_quote bad = false ->
  In (mkIssue file_path (Some i)
        ("Invalid import format: " ++ PyStr.strip raw))
     (import_line file_path i raw).
Proof.
  intros Hraw Hsp Hq Hgood Hbad Hnq. unfold import_line.
  replace (PyStr.startswith (PyStr.strip raw) "import ") with true
    by (rewrite Hraw; symmetry; destruct sp; reflexivity).
  replace (match_ import_re (PyStr.strip raw)) with false;
    [now left|].
  symmetry. apply not_true_iff_false. unfold match_.
  rewrite fullmatch_lang, Hraw. intros H.
  apply lang_cat_inv in H as (m & rest & E & H & _).
  unfold import_re in H.
  apply lang_cat_inv in H as (k & t1 & -> & Hk & H).
  apply lang_cat_inv in H as (ws & t2 & -> & Hws & H).
  apply lang_cat_inv in H as (q1 & t3 & -> & Hq1 & H).
  apply lang_cat_inv in H as (pth & t4 & -> & Hpth & H).
  apply lang_cat_inv in H as (q2 & t5 & -> & Hq2 & _).
  assert (Hlit : forall s w, lang (lit s) w -> w = s).
  { clear. induction s as [|c s IH]; intros w H; simpl in H.
    - now apply lang_eps_inv.
    - apply lang_cat_inv in H as (u & v & -> & Hu & Hv).
      apply lang_cls_inv in Hu as (c' & -> & Hc).
      apply Ascii.eqb_eq in Hc. subst c'. cbn [append].
      now rewrite (IH v Hv). }
  apply Hlit in Hk. subst k.
  apply plus_cls_all in Hws as [_ Hws].
  apply plus_cls_all in Hpth as [_ Hpth].
  apply lang_cls_inv in Hq1 as (c1 & -> & Hc1).
  apply lang_cls_inv in Hq2 as (c2 & -> & Hc2).
  rewrite !append_assoc in E. cbn [append] in E.
  injection E as E.
  destruct (is_quote_cases q Hq) as [Hqs _].
  destruct (is_quote_cases c1 Hc1) as [Hc1s _].
  destruct (is_quote_cases c2 Hc2) as [_ Hc2i].
  destruct (first_outside PyStr.isspace (String " " sp) ws _ _ q c1
              Hsp Hws Hqs Hc1s E) as (_ & _ & E').
  destruct (first_outside import_char good pth _ _ bad c2
              Hgood Hpth Hbad Hc2i E') as (_ & -> & _).
  rewrite Hc2 in Hnq. discriminate.
Qed.

Lemma import_path_characters_witness :
  In (mkIssue "lib/main.dart" (Some 4)
        "Invalid import format: import '../widgets/my-widget.dart';")
     (import_line "lib/main.dart" 4
        "import '../widgets/my-widget.dart';").
Proof.
  apply (import_path_characters "lib/main.dart" 4
           "import '../widgets/my-widget.dart';" "" "../widgets/my"
           "widget.dart';" "'" "-"); reflexivity.
Defined.

End LineFacts.

(* ================================================================== *)
(** * The results of a project *)

Section ProjectFacts.
Import PyPath Dart Lint NameSpec LineSpec.

Lemma flat_map_length_le {A B : Type} (f : A -> list B) (k : nat)
    (l : list A) :
  (forall x, (List.length (f x) <= k)%nat) ->
  (List.length (flat_map f l) <= k * List.length l)%nat.
Proof.
  intros H. induction l as [|a l IH]; simpl; [lia|].
  rewrite length_app. specialize (H a). lia.
Qed.

Lemma file_warnings_le (e : Entry) : (List.length (file_warnings e) <= 1)%nat.
Proof.
  unfold file_warnings, naming_warnings.
  destruct (read e); [|simpl; lia].
  destruct (findall_class 0 content) as [|c [|c' l]]; simpl; try lia.
  destruct (_ && _); simpl; lia.
Qed.

Lemma file_structure_le (e : Entry) :
  (List.length (file_structure e) <= 1)%nat.
Proof.
  unfold file_structure, widget_issues.
  destruct (read e); [|simpl; lia].
  destruct (_ || _); [|simpl; lia]. destruct (negb _); simpl; lia.
Qed.

Lemma file_structure_no_line (e : Entry) (x : Issue) :
  In x (file_structure e) ->
  file x = path e /\ line x = None
  /\ error x = "Widget missing build method".
Proof.
  unfold file_structure, widget_issues.
  destruct (read e); [|intros []].
  destruct (_ || _); [|intros []].
  destruct (negb _); [|intros []].
  intros [<-|[]]. auto.
Qed.

(** The summary of a project: every file found counts as checked,
    readable or not; there are at most as many warnings and at most as
    many structure issues as files; the issues are the sum of the three
    lists; and every structure issue names a file found, no line, and the
    one message there is. *)
Theorem summary_bounds (self : DartValidator) (entries : list Entry) :
  let r := validate_project self entries in
  exists s,
    summary r = Some s
    /\ total_files s = len (rglob entries "*.dart")
    /\ total_files s <= len entries
    /\ 0 <= total_warnings s <= total_files s
    /\ 0 <= summary_structure_issues s <= total_files s
    /\ total_issues s
       = summary_syntax_errors s + summary_import_errors s
         + summary_structure_issues s
    /\ Forall (fun x => In (file x) (map path (rglob entries "*.dart"))
                        /\ line x = None
                        /\ error x = "Widget missing build method")
         (structure_issues r).
Proof.
  intros r.
  destruct (validate_project_summary self entries)
    as (Hs & Hw & Hy & Hi & Ht & Hf).
  fold r in Hs, Hw, Hy, Hi, Ht, Hf.
  eexists. split; [exact Hs|].
  cbn [total_files total_warnings summary_structure_issues total_issues
       summary_syntax_errors summary_import_errors].
  rewrite Hf, Hw, Ht. unfold issue_count, len.
  pose proof (flat_map_length_le file_warnings 1 (rglob entries "*.dart")
                file_warnings_le).
  pose proof (flat_map_length_le file_structure 1 (rglob entries "*.dart")
                file_structure_le).
  pose proof (filter_length_le
                (fun e => fnmatch "*.dart" (name (path e))) entries) as Hle.
  fold (rglob entries "*.dart") in Hle.
  repeat split; try lia.
  - now rewrite Ht.
  - apply Forall_forall. intros x Hx. apply in_flat_map in Hx as (e & He & Hx).
    destruct (file_structure_no_line e x Hx) as (-> & Hl & Herr).
    split; [now apply in_map|auto].
Qed.

(** A project in two parts: every list of the results is the list of
    the first part followed by the list of the second, the counts add up,
    and the status is 'PASS' exactly when it is for both parts. *)
Theorem project_of_two_parts
    (self : DartValidator) (e1 e2 : list Entry) :
  let r := validate_project self (e1 ++ e2) in
  let r1 := validate_project self e1 in
  let r2 := validate_project self e2 in
  syntax_errors r = (syntax_errors r1 ++ syntax_errors r2)%list
  /\ import_errors r = (import_errors r1 ++ import_errors r2)%list
  /\ structure_issues r = (structure_issues r1 ++ structure_issues r2)%list
  /\ warnings r = (warnings r1 ++ warnings r2)%list
  /\ files_checked r = files_checked r1 + files_checked r2
  /\ exists s s1 s2,
       summary r = Some s /\ summary r1 = Some s1 /\ summary r2 = Some s2
       /\ total_issues s = total_issues s1 + total_issues s2
       /\ total_warnings s = total_warnings s1 + total_warnings s2
       /\ (status s = "PASS"
           <-> status s1 = "PASS" /\ status s2 = "PASS").
Proof.
  intros r r1 r2.
  destruct (validate_project_summary self (e1 ++ e2))
    as (Hs & Hw & Hy & Hi & Ht & Hf).
  destruct (validate_project_summary self e1)
    as (Hs1 & Hw1 & Hy1 & Hi1 & Ht1 & Hf1).
  destruct (validate_project_summary self e2)
    as (Hs2 & Hw2 & Hy2 & Hi2 & Ht2 & Hf2).
  fold r in Hs, Hw, Hy, Hi, Ht, Hf.
  fold r1 in Hs1, Hw1, Hy1, Hi1, Ht1, Hf1.
  fold r2 in Hs2, Hw2, Hy2, Hi2, Ht2, Hf2.
  rewrite rglob_app, flat_map_app in Hw, Hy, Hi, Ht.
  rewrite <- Hw1, <- Hw2 in Hw. rewrite <- Hy1, <- Hy2 in Hy.
  rewrite <- Hi1, <- Hi2 in Hi. rewrite <- Ht1, <- Ht2 in Ht.
  rewrite rglob_app, len_app, <- Hf1, <- Hf2 in Hf.
  assert (Hc : issue_count r = issue_count r1 + issue_count r2).
  { unfold issue_count. rewrite Hy, Hi, Ht, !len_app. lia. }
  repeat (split; [assumption|]).
  do 3 eexists.
  split; [exact Hs|]. split; [exact Hs1|]. split; [exact Hs2|].
  cbn [total_issues total_warnings status].
  split; [exact Hc|]. split; [now rewrite Hw, len_app|].
  rewrite !status_pass_iff, Hc.
  assert (0 <= issue_count r1 /\ 0 <= issue_count r2) as [H1 H2]
    by (unfold issue_count, len; lia).
  lia.
Qed.

Lemma count_nonneg (s : string) (c : ascii) : 0 <= PyStr.count s c.
Proof.
  induction s as [|d s IH]; simpl; [lia|]. destruct (Ascii.eqb d c); lia.
Qed.

(** [split] gives one piece more than there are separators. *)
Lemma split_length (s : string) (sep : ascii) :
  len (PyStr.split s sep) = PyStr.count s sep + 1.
Proof.
  unfold len. induction s as [|c s IH]; [reflexivity|].
  cbn [PyStr.split PyStr.count].
  pose proof (count_nonneg s sep) as Hc.
  destruct (Ascii.eqb c sep).
  - cbn [List.length]. lia.
  - destruct (PyStr.split s sep) as [|h t]; cbn [List.length] in *; lia.
Qed.

Lemma line_issues_range (f : string -> Z -> string -> list Issue)
    (file_path : string) :
  (forall i raw x, In x (f file_path i raw) ->
                   file x = file_path /\ line x = Some i) ->
  forall lines i x,
  In x (line_issues f file_path i lines) ->
  file x = file_path
  /\ exists j, line x = Some j /\ i <= j < i + len lines.
Proof.
  intros Hf. unfold len.
  induction lines as [|raw rest IH]; intros i x; simpl line_issues;
    [contradiction|].
  rewrite in_app_iff. intros [H|H].
  - destruct (Hf i raw x H) as [Hx Hl]. split; [exact Hx|].
    exists i. split; [exact Hl|]. cbn [List.length]. lia.
  - destruct (IH (i + 1) x H) as (Hx & j & Hj & Hle).
    split; [exact Hx|]. exists j. split; [exact Hj|].
    cbn [List.length]. lia.
Qed.

Lemma line_issues_length (f : string -> Z -> string -> list Issue)
    (file_path : string) (k : Z) :
  (forall i raw, len (f file_path i raw) <= k) ->
  forall lines i,
  len (line_issues f file_path i lines) <= k * len lines.
Proof.
  intros Hf. induction lines as [|raw rest IH]; intros i.
  - unfold len. simpl. lia.
  - simpl line_issues. rewrite len_app.
    specialize (Hf i raw). specialize (IH (i + 1)).
    unfold len in *. cbn [List.length]. lia.
Qed.

Lemma syntax_line_le (file_path : string) (i : Z) (raw : string) :
  len (syntax_line file_path i raw) <= 2.
Proof.
  unfold syntax_line, brace_issues, semicolon_issues, len.
  repeat match goal with
         | |- context [if ?b then _ else _] => destruct b
         end; simpl; lia.
Qed.

Lemma import_line_le (file_path : string) (i : Z) (raw : string) :
  len (import_line file_path i raw) <= 2.
Proof.
  unfold import_line, len.
  repeat match goal with
         | |- context [if ?b then _ else _] => destruct b
         end; simpl; lia.
Qed.


(** The exit code of the script is 0 or 1, and it is 0 only when there is
    exactly one argument, the path exists, and the project has no syntax
    error, import error or structure issue; a wrong number of arguments
    and a missing path give 1. *)
Theorem main_exit_codes
    (argv : list string) (walk : string -> option (list Entry)) :
  (main argv walk = 0 \/ main argv walk = 1)
  /\ (main argv walk = 0
      <-> exists prog project_path entries,
            argv = [prog; project_path]
            /\ walk project_path = Some entries
            /\ issue_count (validate_project (init project_path) entries)
               = 0).
Proof.
  unfold main.
  destruct argv as [|prog [|project_path [|extra argv]]];
    try (split; [now right|]; split; [discriminate|];
         intros (p & q & es & E & _); discriminate).
  destruct (walk project_path) as [entries|] eqn:Hwalk.
  - destruct (validate_project_summary (init project_path) entries)
      as (Hs & _).
    rewrite Hs. cbn [total_issues].
    destruct (issue_count _ =? 0) eqn:E.
    + apply Z.eqb_eq in E. split; [now left|]. split; [|reflexivity].
      intros _. now exists prog, project_path, entries.
    + apply Z.eqb_neq in E. split; [now right|]. split; [discriminate|].
      intros (p & q & es & Hq & Hw & Hc). exfalso.
      injection Hq as -> ->.
      rewrite Hwalk in Hw. apply some_inj in Hw. subst es.
      contradiction.
  - split; [now right|]. split; [discriminate|].
    intros (p & q & es & Hq & Hw & _). injection Hq as -> ->.
    rewrite Hwalk in Hw. discriminate.
Qed.

End ProjectFacts.

(* ================================================================== *)
(** * The report of validate_dart.py *)

Section ReportFacts.
Import PyPath Dart Lint DartReport ReportSpec.

Lemma first_rows_shows {A R : Type} (row : A -> R) (limit : nat)
    (l : list A) :
  section_shows (Z.of_nat limit) (len l) (first_rows row limit l).
Proof.
  destruct l as [|a l]; [reflexivity|].
  unfold first_rows, section_shows.
  cbn [sec_count sec_rows sec_more].
  split; [unfold len; simpl; lia|]. split; [reflexivity|].
  split; [|reflexivity].
  unfold len. rewrite length_map, length_firstn. lia.
Qed.

Lemma all_rows_shows {A R : Type} (row : A -> R) (l : list A) :
  section_shows (len l) (len l) (all_rows row l).
Proof.
  destruct l as [|a l]; [reflexivity|].
  unfold all_rows, section_shows.
  cbn [sec_count sec_rows sec_more].
  split; [unfold len; simpl; lia|]. split; [reflexivity|].
  split; [unfold len; rewrite length_map; lia|].
  now rewrite Z.gtb_ltb, Z.ltb_irrefl.
Qed.

Lemma first_rows_none {A R : Type} (row : A -> R) (limit : nat)
    (l : list A) :
  first_rows row limit l = None <-> len l = 0.
Proof.
  destruct l; unfold len; simpl; split; try reflexivity;
    try discriminate; lia.
Qed.

Lemma all_rows_none {A R : Type} (row : A -> R) (l : list A) :
  all_rows row l = None <-> len l = 0.
Proof.
  destruct l; unfold len; simpl; split; try reflexivity;
    try discriminate; lia.
Qed.

Lemma rows_of_first_rows {A R : Type} (row : A -> R) (limit : nat)
    (l : list A) (r : R) :
  In r (rows_of (first_rows row limit l)) ->
  exists x, In x l /\ r = row x.
Proof.
  destruct l as [|a l]; [intros []|].
  unfold first_rows, rows_of. cbn [sec_rows]. intros H.
  apply in_map_iff in H as (x & <- & Hx).
  exists x. split; [now apply in_firstn in Hx|reflexivity].
Qed.

Lemma syntax_line_texts (file_path : string) (i : Z) (raw : string)
    (x : Issue) :
  In x (syntax_line file_path i raw) -> is_read_failure (error x) = false.
Proof.
  unfold syntax_line, brace_issues, semicolon_issues.
  repeat match goal with
         | |- context [if ?b then _ else _] => destruct b
         end; simpl; intuition (subst; auto).
Qed.

Lemma line_issues_texts (file_path : string) (lines : list string) :
  forall i x,
  In x (line_issues syntax_line file_path i lines) ->
  is_read_failure (error x) = false /\ line x <> None.
Proof.
  induction lines as [|raw rest IH]; intros i x; simpl; [contradiction|].
  rewrite in_app_iff. intros [H|H]; [|now apply (IH (i + 1))].
  split; [now apply (syntax_line_texts file_path i raw)|].
  destruct (syntax_line_attribution file_path i raw x H) as [_ ->].
  discriminate.
Qed.

(** An entry of the syntax errors lacks its line exactly when it reports
    a file that could not be read. *)
Lemma file_syntax_lines (e : Entry) (x : Issue) :
  In x (file_syntax e) ->
  (line x = None <-> is_read_failure (error x) = true).
Proof.
  unfold file_syntax. destruct (read e) as [content|err].
  - intros H. apply line_issues_texts in H as [Ht Hl].
    rewrite Ht. split; [contradiction|discriminate].
  - intros [<-|[]]. unfold read_failure. cbn [line error].
    split; [intros _|reflexivity].
    unfold is_read_failure. now destruct err.
Qed.

Lemma file_imports_lines (e : Entry) (x : Issue) :
  In x (file_imports e) -> line x <> None.
Proof.
  unfold file_imports. destruct (read e) as [content|err]; [|intros []].
  intros H.
  apply (line_issues_attribution import_line (path e)
           (import_line_attribution (path e))) in H
    as (_ & j & -> & _).
  discriminate.
Qed.


End ReportFacts.
